(** * Voyana travel concierge: the search-and-rank pipeline

    A shallow embedding of the Python back end (backend/app) and the
    properties its specification states about it.

    Conventions of the embedding:
    - a Python [float] is an exact rational ([Q]); rounding, infinities and
      NaN are outside the model, and equality of floats is [Qeq]; the one
      place where the last digit of a float decides an outcome, the order
      of two flights whose scores are a rounding error apart, is modelled
      a second time on binary64 numbers ([Binary64]);
    - a Python [int] is a [Z], a [str] a [string], [Optional[T]] an [option];
    - a Pydantic model is a record, an in-place mutation of the shared
      [AgentState] is explicit state passing;
    - an exception is a value [Raise msg] of the [result] type, [msg] being
      what [str(e)] returns;
    - text is ASCII: the methods of [str] are modelled on characters whose
      code is below 128;
    - calls that leave the process (LLM, flight and lodging providers) are
      fields of an environment record, and every call is logged in a trace;
    - the LangGraph state graph is the chain of nodes and conditional edges
      that [_build_graph] declares, run on one shared state object;
    - [logger] calls are not modelled. *)

From Stdlib Require Import List String Ascii ZArith QArith Bool Lia Lqa.
From Stdlib Require Import DecimalString DecimalZ Permutation Sorted.
From Stdlib Require Import Floats Uint63.
Import ListNotations.

Set Implicit Arguments.
Unset Strict Implicit.

Local Open Scope string_scope.
Local Open Scope Z_scope.
Local Open Scope list_scope.

(* ================================================================== *)
(** * Python run-time conventions *)
(* ================================================================== *)

Module Py.

(** What [str(e)] gives for a caught exception. *)
Definition exn := string.

(** A computation that returns or raises. *)
Inductive result (A : Type) : Type :=
| Ok (a : A)
| Raise (e : exn).
Arguments Ok {A} a.
Arguments Raise {A} e.

Definition bind {A B} (c : result A) (k : A -> result B) : result B :=
  match c with
  | Ok a => k a
  | Raise e => Raise e
  end.

(** [try: c  except Exception as e: h e]. *)
Definition try_except {A} (c : result A) (h : exn -> A) : A :=
  match c with
  | Ok a => a
  | Raise e => h e
  end.

(** A list comprehension whose element expression may raise: the first
    exception aborts the comprehension. *)
Fixpoint mapM {A B} (f : A -> result B) (l : list A) : result (list B) :=
  match l with
  | [] => Ok []
  | x :: l' =>
      bind (f x) (fun y => bind (mapM f l') (fun ys => Ok (y :: ys)))
  end.

(** ** Truthiness *)

Definition truthy_str (s : option string) : bool :=
  match s with
  | Some s => negb (String.eqb s "")
  | None => false
  end.

Definition truthy_float (q : option Q) : bool :=
  match q with
  | Some q => negb (Qeq_bool q 0)
  | None => false
  end.

Definition truthy_int (z : option Z) : bool :=
  match z with
  | Some z => negb (z =? 0)
  | None => false
  end.

Definition truthy_opt {A} (o : option A) : bool :=
  match o with
  | Some _ => true
  | None => false
  end.

Definition truthy_list {A} (l : list A) : bool :=
  match l with
  | [] => false
  | _ :: _ => true
  end.

(** [z or d] for an optional int. *)
Definition int_or (z : option Z) (d : Z) : Z :=
  match z with
  | Some v => if v =? 0 then d else v
  | None => d
  end.

(** [q or d] for an optional float. *)
Definition float_or (q : option Q) (d : Q) : Q :=
  match q with
  | Some v => if Qeq_bool v 0 then d else v
  | None => d
  end.

(** [s or d] for an optional str. *)
Definition str_or (s : option string) (d : string) : string :=
  match s with
  | Some v => if String.eqb v "" then d else v
  | None => d
  end.

(** ** Arithmetic *)

Definition Qltb (x y : Q) : bool := negb (Qle_bool y x).

(** True division [x / y]; a zero divisor raises ZeroDivisionError. *)
Definition truediv (x y : Q) : result Q :=
  if Qeq_bool y 0 then Raise "division by zero" else Ok (x / y)%Q.

(** [max(it)]: the first greatest element; ValueError when empty. *)
Definition max_float (l : list Q) : result Q :=
  match l with
  | [] => Raise "max() arg is an empty sequence"
  | x :: l' => Ok (fold_left (fun m y => if Qltb m y then y else m) l' x)
  end.

Definition max_int (l : list Z) : result Z :=
  match l with
  | [] => Raise "max() arg is an empty sequence"
  | x :: l' => Ok (fold_left (fun m y => if m <? y then y else m) l' x)
  end.

(** [min(it)]: the first least element. *)
Definition min_float (l : list Q) : result Q :=
  match l with
  | [] => Raise "min() arg is an empty sequence"
  | x :: l' => Ok (fold_left (fun m y => if Qltb y m then y else m) l' x)
  end.

(** [sum(it)], which starts from the int 0. *)
Definition sum_float (l : list Q) : Q :=
  fold_left Qplus l 0%Q.

(** [max(a, b)] and [min(a, b)] on two floats: the first argument wins
    ties. *)
Definition max2 (a b : Q) : Q := if Qltb a b then b else a.
Definition min2 (a b : Q) : Q := if Qltb b a then b else a.

(** ** Sorting

    [list.sort] and [sorted] are stable; [reverse=True] keeps the original
    order of equal keys too.  [before y x] says that [y] has to come
    strictly before [x]; an element is inserted in front of the first
    element that does not have to precede it. *)

Fixpoint insert_by {A} (before : A -> A -> bool) (x : A) (l : list A)
  : list A :=
  match l with
  | [] => [x]
  | y :: l' => if before y x then y :: insert_by before x l'
               else x :: y :: l'
  end.

Definition sort_by {A} (before : A -> A -> bool) (l : list A) : list A :=
  fold_right (insert_by before) [] l.

(** [sorted(l, key=key)] with a float key. *)
Definition sorted {A} (key : A -> Q) (l : list A) : list A :=
  sort_by (fun y x => Qltb (key y) (key x)) l.

(** [sorted(l, key=key, reverse=True)] with a float key. *)
Definition sorted_reverse {A} (key : A -> Q) (l : list A) : list A :=
  sort_by (fun y x => Qltb (key x) (key y)) l.

(** Tuples of ints compare lexicographically. *)
Definition pair_ltb (a b : Z * Z) : bool :=
  (fst a <? fst b) || ((fst a =? fst b) && (snd a <? snd b)).

Definition sorted_pair {A} (key : A -> Z * Z) (l : list A) : list A :=
  sort_by (fun y x => pair_ltb (key y) (key x)) l.

(** ** Indexing, slicing, membership, formatting *)

(** [l[i]] for [0 <= i]; IndexError out of range. *)
Definition index {A} (l : list A) (i : nat) : result A :=
  match nth_error l i with
  | Some x => Ok x
  | None => Raise "list index out of range"
  end.

(** [l[:n]]. *)
Definition take {A} (n : nat) (l : list A) : list A := firstn n l.

Definition len {A} (l : list A) : Z := Z.of_nat (List.length l).

Definition str_in (s : string) (l : list string) : bool :=
  existsb (String.eqb s) l.

(** [str(z)]. *)
Definition str_int (z : Z) : string :=
  NilZero.string_of_int (Z.to_int z).

Definition str_opt_int (z : option Z) : string :=
  match z with
  | Some v => str_int v
  | None => "None"
  end.

Definition str_opt_str (s : option string) : string :=
  match s with
  | Some v => v
  | None => "None"
  end.

(** An int as the second operand of a float operation: it is converted,
    with OverflowError when it is too large to round to a float. *)
Definition float_of_int (n : Z) : result Q :=
  if Z.abs n <? 2 ^ 1024 - 2 ^ 970 then Ok (inject_Z n)
  else Raise "int too large to convert to float".

(** [range(a, b)]. *)
Definition range (a b : Z) : list Z :=
  map (fun i => a + Z.of_nat i) (seq 0 (Z.to_nat (b - a))).

(** [d.get(k)] on a dict literal with string keys. *)
Fixpoint dict_get {V} (d : list (string * V)) (k : string) : option V :=
  match d with
  | [] => None
  | (k', v) :: d' => if String.eqb k k' then Some v else dict_get d' k
  end.

End Py.

Arguments Py.take : simpl never.
Arguments Py.sort_by : simpl never.
Arguments Py.sorted : simpl never.
Arguments Py.sorted_reverse : simpl never.
Arguments Py.sorted_pair : simpl never.

Declare Scope py_scope.
Notation "x <- c ;; k" := (Py.bind c (fun x => k))
  (at level 61, c at next level, right associativity) : py_scope.
Local Open Scope py_scope.

(** ** Text

    The methods of [str] and the regular expressions the clients use,
    on ASCII text: a character is its code, below 128. *)

Module PyStr.

Definition code (c : ascii) : N := N_of_ascii c.

Definition is_digit (c : ascii) : bool :=
  ((48 <=? code c) && (code c <=? 57))%N.

Definition is_lower (c : ascii) : bool :=
  ((97 <=? code c) && (code c <=? 122))%N.

Definition is_upper (c : ascii) : bool :=
  ((65 <=? code c) && (code c <=? 90))%N.

(** The whitespace [strip] removes: tab to carriage return, the four
    separators from 28 to 31, and the space. *)
Definition is_space (c : ascii) : bool :=
  (((9 <=? code c) && (code c <=? 13))
   || ((28 <=? code c) && (code c <=? 31))
   || (code c =? 32))%N.

Definition upper_char (c : ascii) : ascii :=
  if is_lower c then ascii_of_N (code c - 32) else c.

Definition lower_char (c : ascii) : ascii :=
  if is_upper c then ascii_of_N (code c + 32) else c.

Fixpoint map_chars (f : ascii -> ascii) (s : string) : string :=
  match s with
  | EmptyString => EmptyString
  | String c s' => String (f c) (map_chars f s')
  end.

(** [s.upper()] and [s.lower()]: on ASCII text they change one letter
    into one letter. *)
Definition upper (s : string) : string := map_chars upper_char s.
Definition lower (s : string) : string := map_chars lower_char s.

(** [s.isascii()]: the text the model of [str] speaks for. *)
Fixpoint isascii (s : string) : bool :=
  match s with
  | EmptyString => true
  | String c s' => (code c <? 128)%N && isascii s'
  end.

Fixpoint lstrip (s : string) : string :=
  match s with
  | EmptyString => EmptyString
  | String c s' => if is_space c then lstrip s' else s
  end.

Fixpoint rstrip (s : string) : string :=
  match s with
  | EmptyString => EmptyString
  | String c s' =>
      match rstrip s' with
      | EmptyString => if is_space c then EmptyString else String c EmptyString
      | r => String c r
      end
  end.

(** [s.strip()]. *)
Definition strip (s : string) : string := lstrip (rstrip s).

(** [s.split(sep)] for a separator of one character: the pieces between
    the separators, at least one. *)
Fixpoint split (sep : ascii) (s : string) : list string :=
  match s with
  | EmptyString => [EmptyString]
  | String c s' =>
      if Ascii.eqb c sep then EmptyString :: split sep s'
      else
        match split sep s' with
        | piece :: pieces => String c piece :: pieces
        | [] => [String c EmptyString]
        end
  end.

(** [c in s] for a character [c]. *)
Fixpoint contains (c : ascii) (s : string) : bool :=
  match s with
  | EmptyString => false
  | String a s' => Ascii.eqb a c || contains c s'
  end.

(** [s.isalpha()]: at least one character, and letters only. *)
Fixpoint all_alpha (s : string) : bool :=
  match s with
  | EmptyString => true
  | String c s' => (is_lower c || is_upper c) && all_alpha s'
  end.

Definition isalpha (s : string) : bool :=
  negb (String.eqb s EmptyString) && all_alpha s.

(** [s[:n]]. *)
Fixpoint take (n : nat) (s : string) : string :=
  match n, s with
  | S n', String c s' => String c (take n' s')
  | _, _ => EmptyString
  end.

(** [s.split(',')[0].strip()] when [s] has a comma, [s] otherwise: a
    location without its country. *)
Definition strip_country (s : string) : string :=
  if contains "," s then strip (hd EmptyString (split "," s)) else s.

(** [re.search(r'(\d+)c', s)]: group 1 of the leftmost match, which is the
    first maximal run of digits that [c] follows, for a [c] that is not a
    digit.  [run] is the run of digits read so far. *)
Fixpoint digits_before (c : ascii) (run : string) (s : string)
  : option string :=
  match s with
  | EmptyString => None
  | String a s' =>
      if is_digit a
      then digits_before c (run ++ String a EmptyString)%string s'
      else if Ascii.eqb a c && negb (String.eqb run EmptyString)
      then Some run
      else digits_before c EmptyString s'
  end.

(** [sys.int_info.default_max_str_digits]: the longest run of digits
    [int] converts. *)
Definition max_str_digits : nat := 4300.

(** [int(s)] for a string of decimal digits: ValueError for anything else,
    and for more than [max_str_digits] digits. *)
Definition int_digits (s : string) : Py.result Z :=
  match NilZero.uint_of_string s with
  | Some d =>
      if (String.length s <=? max_str_digits)%nat
      then Py.Ok (Z.of_uint d)
      else
        Py.Raise
          ("Exceeds the limit (4300 digits) for integer string conversion: "
           ++ "value has " ++ Py.str_int (Z.of_nat (String.length s))
           ++ " digits; use sys.set_int_max_str_digits() to increase the "
           ++ "limit")%string
  | None =>
      Py.Raise
        ("invalid literal for int() with base 10: '" ++ s ++ "'")%string
  end.

End PyStr.

(* ================================================================== *)
(** * Data model (app/models/travel.py) *)
(* ================================================================== *)

(** A [date] is its proleptic ordinal, a [datetime] a POSIX timestamp. *)
Definition date := Z.
Definition datetime := Z.

(** The ordinals of [date.min], 0001-01-01, and [date.max], 9999-12-31. *)
Definition date_min : Z := 1.
Definition date_max : Z := 3652059.

(** [timedelta(days=n)]: OverflowError beyond 999999999 days. *)
Definition timedelta_days (n : Z) : Py.result Z :=
  if Z.abs n <=? 999999999 then Py.Ok n
  else
    Py.Raise
      ("days=" ++ Py.str_int n ++ "; must have magnitude <= 999999999")%string.

(** [d + delta] for a date and a number of days: OverflowError when the
    sum leaves [date.min .. date.max]. *)
Definition date_add (d : date) (days : Z) : Py.result date :=
  if (date_min <=? d + days) && (d + days <=? date_max)
  then Py.Ok (d + days)
  else Py.Raise "date value out of range".

Module TravelStyle.
Inductive t := RELAXED | BALANCED | PACKED | ADVENTURE | LUXURY | BUDGET.

Definition value (s : t) : string :=
  match s with
  | RELAXED => "relaxed"
  | BALANCED => "balanced"
  | PACKED => "packed"
  | ADVENTURE => "adventure"
  | LUXURY => "luxury"
  | BUDGET => "budget"
  end.
End TravelStyle.

Module TravelerType.
Inductive t := ADULT | CHILD | INFANT.
End TravelerType.

Module Traveler.
Record t := mk {
  type : TravelerType.t;
  age : option Z;
  name : option string
}.
End Traveler.

Module TravelIntent.
Record t := mk {
  origin : option string;
  destination : option string;
  destination_description : option string;
  destination_image_url : option string;
  departure_date : option date;
  return_date : option date;
  duration_days : option Z;
  date_flexibility : Z;
  travelers : list Traveler.t;
  num_adults : Z;
  num_children : Z;
  num_infants : Z;
  total_budget : option Q;
  budget_flexibility : Q;
  budget_priorities : list string;
  travel_style : TravelStyle.t;
  accommodation_type : list string;
  must_haves : list string;
  must_not_haves : list string;
  interests : list string;
  special_occasions : list string;
  mobility_requirements : option string;
  dietary_restrictions : list string
}.

(** The [duration_days] validator: a given value is kept, otherwise the
    duration comes from the two dates, at least one day. *)
Definition calculate_duration (v : option Z) (departure ret : option date)
  : option Z :=
  match v with
  | Some v => Some v
  | None =>
      match departure, ret with
      | Some d, Some r =>
          let duration := r - d in
          Some (if 0 <? duration then duration else 1)
      | _, _ => None
      end
  end.
End TravelIntent.
Definition TravelIntent := TravelIntent.t.

Module FlightSegment.
Record t := mk {
  origin : string;
  destination : string;
  departure : datetime;
  arrival : datetime;
  carrier : string;
  flight_number : string;
  duration_minutes : Z;
  aircraft : option string;
  booking_class : string
}.
End FlightSegment.
Definition FlightSegment := FlightSegment.t.

Module FlightOption.
Record t := mk {
  outbound_segments : list FlightSegment;
  return_segments : list FlightSegment;
  total_price : Q;
  currency : string;
  total_duration_minutes : Z;
  number_of_stops : Z;
  booking_link : option string;
  source : string;
  last_updated : datetime
}.

(** The same offer at another price. *)
Definition with_total_price (p : Q) (f : t) : t :=
  mk (outbound_segments f) (return_segments f) p (currency f)
     (total_duration_minutes f) (number_of_stops f) (booking_link f)
     (source f) (last_updated f).
End FlightOption.
Definition FlightOption := FlightOption.t.

Module AccommodationOption.
Record t := mk {
  name : string;
  type : string;
  address : string;
  city : string;
  country : string;
  price_per_night : Q;
  total_price : Q;
  currency : string;
  rating : option Q;
  review_count : option Z;
  amenities : list string;
  room_type : option string;
  check_in : date;
  check_out : date;
  latitude : option Q;
  longitude : option Q;
  distance_to_center_km : option Q;
  booking_link : option string;
  source : string;
  last_updated : datetime
}.

Definition opt_eqb {A} (eqb : A -> A -> bool) (a b : option A) : bool :=
  match a, b with
  | Some x, Some y => eqb x y
  | None, None => true
  | _, _ => false
  end.

Fixpoint list_eqb {A} (eqb : A -> A -> bool) (a b : list A) : bool :=
  match a, b with
  | [], [] => true
  | x :: a', y :: b' => eqb x y && list_eqb eqb a' b'
  | _, _ => false
  end.

(** [==] of two models: field by field. *)
Definition eqb (a b : t) : bool :=
  String.eqb (name a) (name b) && String.eqb (type a) (type b)
  && String.eqb (address a) (address b) && String.eqb (city a) (city b)
  && String.eqb (country a) (country b)
  && Qeq_bool (price_per_night a) (price_per_night b)
  && Qeq_bool (total_price a) (total_price b)
  && String.eqb (currency a) (currency b)
  && opt_eqb Qeq_bool (rating a) (rating b)
  && opt_eqb Z.eqb (review_count a) (review_count b)
  && list_eqb String.eqb (amenities a) (amenities b)
  && opt_eqb String.eqb (room_type a) (room_type b)
  && Z.eqb (check_in a) (check_in b) && Z.eqb (check_out a) (check_out b)
  && opt_eqb Qeq_bool (latitude a) (latitude b)
  && opt_eqb Qeq_bool (longitude a) (longitude b)
  && opt_eqb Qeq_bool (distance_to_center_km a) (distance_to_center_km b)
  && opt_eqb String.eqb (booking_link a) (booking_link b)
  && String.eqb (source a) (source b)
  && Z.eqb (last_updated a) (last_updated b).
End AccommodationOption.
Definition AccommodationOption := AccommodationOption.t.

Module Activity.
Record t := mk {
  name : string;
  description : string;
  category : string;
  duration_hours : Q;
  price_per_person : Q;
  currency : string;
  location : string;
  rating : option Q;
  booking_link : option string;
  suitable_for_children : bool;
  min_age : option Z;
  physical_intensity : string
}.
End Activity.
Definition Activity := Activity.t.

Module DayPlan.
Record t := mk {
  day_number : Z;
  date_ : date;
  location : string;
  activities : list Activity;
  accommodation : option AccommodationOption;
  notes : option string;
  estimated_cost : Q
}.

(** [DayPlan(day_number=..., date=..., location=..., activities=...,
    accommodation=..., estimated_cost=...)]: [date] is a required field,
    and None is rejected with a ValidationError. *)
Definition new (day_number : Z) (date_ : option date) (location : string)
    (activities : list Activity) (accommodation : option AccommodationOption)
    (estimated_cost : Q) : Py.result t :=
  match date_ with
  | Some d =>
      Py.Ok (mk day_number d location activities accommodation None
               estimated_cost)
  | None => Py.Raise "1 validation error for DayPlan"
  end.
End DayPlan.
Definition DayPlan := DayPlan.t.

Module Itinerary.
Record t := mk {
  title : string;
  summary : string;
  style_tag : string;
  flights : FlightOption;
  accommodations : list AccommodationOption;
  daily_plans : list DayPlan;
  flight_cost : Q;
  accommodation_cost : Q;
  activities_cost : Q;
  estimated_food_cost : Q;
  total_cost : Q;
  currency : string;
  why_this_option : string;
  tradeoffs : string;
  taste_score : option Q
}.

(** The [total_cost] validator: a zero total is replaced by the sum of the
    four components validated before it. *)
Definition calculate_total (v : Q)
    (flight_cost accommodation_cost activities_cost estimated_food_cost : Q)
  : Q :=
  if Qeq_bool v 0
  then (flight_cost + accommodation_cost + activities_cost
        + estimated_food_cost)%Q
  else v.

(** [Itinerary(...)] as the synthesis agent calls it: [currency] and
    [taste_score] take their defaults, [total_cost] goes through its
    validator. *)
Definition new (title summary style_tag : string) (flights : FlightOption)
    (accommodations : list AccommodationOption)
    (daily_plans : list DayPlan)
    (flight_cost accommodation_cost activities_cost estimated_food_cost
       total_cost : Q)
    (why_this_option tradeoffs : string) : t :=
  mk title summary style_tag flights accommodations daily_plans
     flight_cost accommodation_cost activities_cost estimated_food_cost
     (calculate_total total_cost flight_cost accommodation_cost
        activities_cost estimated_food_cost)
     "EUR" why_this_option tradeoffs None.
End Itinerary.
Definition Itinerary := Itinerary.t.

(** The taste profile dictionary, with the keys the profiler reads and
    writes. *)
Module TasteProfile.
Record t := mk {
  preferred_styles : list string;
  budget_consciousness : string;
  time_sensitivity : string;
  comfort_level : string;
  accommodation_preferences : list string;
  interests : list string;
  past_destinations : list string;
  preferred_airlines : list string;
  preferred_hotel_chains : list string;
  family_friendly : bool
}.
End TasteProfile.
Definition TasteProfile := TasteProfile.t.

Module AgentState.
Record t := mk {
  user_message : string;
  user_id : option string;
  conversation_id : option string;
  parsed_intent : option TravelIntent;
  flight_options : list FlightOption;
  accommodation_options : list AccommodationOption;
  activity_options : list Activity;
  user_taste_profile : option TasteProfile;
  itineraries : list Itinerary;
  agent_messages : list string;
  current_step : string;
  errors : list string
}.

(** [AgentState(user_message=..., user_id=..., conversation_id=None,
    agent_messages=[], errors=[])]. *)
Definition new (user_message : string) (user_id : option string) : t :=
  mk user_message user_id None None [] [] [] None [] [] "start" [].

Definition set_parsed_intent (v : option TravelIntent) (s : t) : t :=
  mk (user_message s) (user_id s) (conversation_id s) v
     (flight_options s) (accommodation_options s) (activity_options s)
     (user_taste_profile s) (itineraries s) (agent_messages s)
     (current_step s) (errors s).

Definition set_flight_options (v : list FlightOption) (s : t) : t :=
  mk (user_message s) (user_id s) (conversation_id s) (parsed_intent s)
     v (accommodation_options s) (activity_options s)
     (user_taste_profile s) (itineraries s) (agent_messages s)
     (current_step s) (errors s).

Definition set_accommodation_options (v : list AccommodationOption)
    (s : t) : t :=
  mk (user_message s) (user_id s) (conversation_id s) (parsed_intent s)
     (flight_options s) v (activity_options s)
     (user_taste_profile s) (itineraries s) (agent_messages s)
     (current_step s) (errors s).

Definition set_itineraries (v : list Itinerary) (s : t) : t :=
  mk (user_message s) (user_id s) (conversation_id s) (parsed_intent s)
     (flight_options s) (accommodation_options s) (activity_options s)
     (user_taste_profile s) v (agent_messages s)
     (current_step s) (errors s).

Definition set_current_step (v : string) (s : t) : t :=
  mk (user_message s) (user_id s) (conversation_id s) (parsed_intent s)
     (flight_options s) (accommodation_options s) (activity_options s)
     (user_taste_profile s) (itineraries s) (agent_messages s)
     v (errors s).

(** [state.agent_messages.append(m)]. *)
Definition append_message (m : string) (s : t) : t :=
  mk (user_message s) (user_id s) (conversation_id s) (parsed_intent s)
     (flight_options s) (accommodation_options s) (activity_options s)
     (user_taste_profile s) (itineraries s) (agent_messages s ++ [m])
     (current_step s) (errors s).

(** [state.errors.append(m)]. *)
Definition append_error (m : string) (s : t) : t :=
  mk (user_message s) (user_id s) (conversation_id s) (parsed_intent s)
     (flight_options s) (accommodation_options s) (activity_options s)
     (user_taste_profile s) (itineraries s) (agent_messages s)
     (current_step s) (errors s ++ [m]).
End AgentState.
Definition AgentState := AgentState.t.

(* ================================================================== *)
(** * Provider calls and their trace *)
(* ================================================================== *)

(** The remote services a run can reach. *)
Inductive Provider :=
| SerpAPI (departure_id arrival_id : string)
| AmadeusFlights (originLocationCode destinationLocationCode : string)
| Hotelbeds
| AmadeusHotels
| BookingCom.

(** How a provider call ended. *)
Inductive Outcome := Raised | Empty | Found.

Inductive Event :=
| Call (p : Provider) (o : Outcome)   (* a request was sent to [p] *)
| MockHotels                          (* [_generate_mock_hotels] ran *)
| Node (name : string).               (* a graph node started *)

Definition classify {A} (r : Py.result (list A)) : Outcome :=
  match r with
  | Py.Raise _ => Raised
  | Py.Ok [] => Empty
  | Py.Ok (_ :: _) => Found
  end.

(** A computation that logs the calls it makes; a remote service answers
    as a function of everything that was called before. *)
Definition IO (A : Type) : Type := list Event -> Py.result A * list Event.

Module IO.
Definition ret {A} (a : A) : IO A := fun tr => (Py.Ok a, tr).

Definition bind {A B} (c : IO A) (k : A -> IO B) : IO B :=
  fun tr =>
    match c tr with
    | (Py.Ok a, tr') => k a tr'
    | (Py.Raise e, tr') => (Py.Raise e, tr')
    end.

(** [try: c  except Exception as e: h e]. *)
Definition try_except {A} (c : IO A) (h : Py.exn -> IO A) : IO A :=
  fun tr =>
    match c tr with
    | (Py.Ok a, tr') => (Py.Ok a, tr')
    | (Py.Raise e, tr') => h e tr'
    end.

Definition lift {A} (r : Py.result A) : IO A := fun tr => (r, tr).

Definition log (e : Event) : IO unit := fun tr => (Py.Ok tt, tr ++ [e]).

(** One request to provider [p], answered by [oracle]. *)
Definition call {A} (p : Provider)
    (oracle : list Event -> Py.result (list A)) : IO (list A) :=
  fun tr => let r := oracle tr in (r, tr ++ [Call p (classify r)]).

(** [for x in xs: r = body(x); if r: return r] followed by [rest]. *)
Fixpoint for_return {X A} (xs : list X) (body : X -> IO (list A))
    (rest : IO (list A)) : IO (list A) :=
  match xs with
  | [] => rest
  | x :: xs' =>
      bind (body x) (fun r =>
        if Py.truthy_list r then ret r else for_return xs' body rest)
  end.
End IO.

Notation "x <~ c ;; k" := (IO.bind c (fun x => k))
  (at level 61, c at next level, right associativity) : py_scope.

(** Duck-typed services of the orchestrator. *)
Module FlightService.
Record t := mk {
  search_flights : TravelIntent -> nat -> IO (list FlightOption)
}.
End FlightService.
Definition FlightService := FlightService.t.

Module HotelService.
Record t := mk {
  search_hotels : TravelIntent -> nat -> IO (list AccommodationOption)
}.
End HotelService.
Definition HotelService := HotelService.t.

(** What lies outside the repository: settings, the remote services, the
    LLM and the random generator.  The three city tables belong to the
    clients; no property below depends on their entries, so they are taken
    as they come. *)
Record Env := {
  (* app/utils/config.py *)
  serpapi_key : string;
  hotelbeds_api_key : option string;
  hotelbeds_api_secret : option string;
  booking_com_api_key : option string;
  (* city tables of serpapi_client.py and amadeus_client.py *)
  _get_airport_code : string -> string;
  _get_iata_code : string -> string;
  _get_alternative_airports : string -> string -> list string;
  (* GoogleSearch(params).get_dict() and _parse_results *)
  google_flights :
    list Event -> string -> string -> TravelIntent ->
    Py.result (list FlightOption);
  (* client.shopping.flight_offers_search.get and the parsing loop *)
  flight_offers_search :
    list Event -> string -> string -> TravelIntent -> nat ->
    Py.result (list FlightOption);
  (* _search_hotelbeds, _search_amadeus_hotels *)
  _search_hotelbeds :
    list Event -> TravelIntent -> nat ->
    Py.result (list AccommodationOption);
  _search_amadeus_hotels :
    list Event -> TravelIntent -> nat ->
    Py.result (list AccommodationOption);
  (* the request of _search_booking_com and its parsing loop *)
  booking_com_request :
    list Event -> TravelIntent -> nat ->
    Py.result (list AccommodationOption);
  (* random.uniform(a, b) and random.randint(a, b), by draw number *)
  uniform : nat -> Q -> Q -> Q;
  randint : nat -> Z -> Z -> Z;
  (* round(x, ndigits) *)
  round : Q -> nat -> Q;
  (* date.today() *)
  today : date;
  (* datetime.now() *)
  now : datetime;
  (* the LLM round trip of IntentParserAgent.parse_intent, up to the
     assignment of state.parsed_intent *)
  extract_intent : string -> Py.result TravelIntent;
  (* constructors of the agents, which build the remote clients *)
  IntentParserAgent_init : Py.result unit;
  SearchOrchestratorAgent_init : Py.result unit;
  SynthesisAgent_init : Py.result unit
}.

(* ================================================================== *)
(** * app/services/serpapi_client.py *)
(* ================================================================== *)

Module SerpAPIFlightService.
Section WithEnv.
Variable env : Env.

Definition search_flights (intent : TravelIntent) (max_results : nat)
  : IO (list FlightOption) :=
  if String.eqb (serpapi_key env) "" then IO.ret []
  else if negb (Py.truthy_str (TravelIntent.origin intent))
          || negb (Py.truthy_str (TravelIntent.destination intent))
  then IO.ret []
  else if negb (Py.truthy_opt (TravelIntent.departure_date intent))
          || negb (Py.truthy_opt (TravelIntent.return_date intent))
  then IO.ret []
  else
    let origin_code :=
      _get_airport_code env (Py.str_opt_str (TravelIntent.origin intent)) in
    let dest_code :=
      _get_airport_code env
        (Py.str_opt_str (TravelIntent.destination intent)) in
    IO.try_except
      (flight_options <~
         IO.call (SerpAPI origin_code dest_code)
           (fun tr => google_flights env tr origin_code dest_code intent) ;;
       IO.ret (Py.take max_results flight_options))
      (fun _ => IO.ret []).

Definition new : FlightService := FlightService.mk search_flights.
End WithEnv.

(** The table of [_get_airport_code]. *)
Definition common_codes : list (string * string) :=
  [ ("copenhagen", "CPH"); ("london", "LON"); ("paris", "PAR");
    ("rome", "ROM"); ("barcelona", "BCN"); ("madrid", "MAD");
    ("berlin", "BER"); ("amsterdam", "AMS"); ("kyoto", "KIX");
    ("tokyo", "TYO"); ("osaka", "KIX"); ("new york", "NYC");
    ("los angeles", "LAX"); ("dubai", "DXB"); ("singapore", "SIN") ].

Definition _get_airport_code (location : string) : string :=
  let location := PyStr.strip_country location in
  let location_lower := PyStr.strip (PyStr.lower location) in
  if (String.length location =? 3)%nat && PyStr.isalpha location
  then PyStr.upper location
  else
    match Py.dict_get common_codes location_lower with
    | Some code => code
    | None => PyStr.take 3 (PyStr.upper location)
    end.

End SerpAPIFlightService.

(* ================================================================== *)
(** * app/services/amadeus_client.py *)
(* ================================================================== *)

Module AmadeusFlightService.

(** An ISO 8601 duration such as PT2H30M, in minutes. *)
Definition _parse_duration (duration_str : string) : Py.result Z :=
  hours <-
    match PyStr.digits_before "H" "" duration_str with
    | Some group => PyStr.int_digits group
    | None => Py.Ok 0
    end ;;
  minutes <-
    match PyStr.digits_before "M" "" duration_str with
    | Some group => PyStr.int_digits group
    | None => Py.Ok 0
    end ;;
  Py.Ok (hours * 60 + minutes).

Section WithEnv.
Variable env : Env.

(** One route; any failure of the request is an empty list. *)
Definition _search_route (origin_code dest_code : string)
    (intent : TravelIntent) (max_results : nat)
  : IO (list FlightOption) :=
  IO.try_except
    (IO.call (AmadeusFlights origin_code dest_code)
       (fun tr =>
          flight_offers_search env tr origin_code dest_code intent
            max_results))
    (fun _ => IO.ret []).

(** The nested loop over alternative origins and destinations. *)
Fixpoint combinations (origins dests : list string)
    (intent : TravelIntent) (max_results : nat)
    (rest : IO (list FlightOption)) : IO (list FlightOption) :=
  match origins with
  | [] => rest
  | alt_origin :: origins' =>
      IO.for_return dests
        (fun alt_dest =>
           _search_route alt_origin alt_dest intent max_results)
        (combinations origins' dests intent max_results rest)
  end.

Definition search_flights (intent : TravelIntent) (max_results : nat)
  : IO (list FlightOption) :=
  if negb (Py.truthy_str (TravelIntent.origin intent))
     || negb (Py.truthy_str (TravelIntent.destination intent))
  then IO.ret []
  else if negb (Py.truthy_opt (TravelIntent.departure_date intent))
          || negb (Py.truthy_opt (TravelIntent.return_date intent))
  then IO.ret []
  else
    let origin := Py.str_opt_str (TravelIntent.origin intent) in
    let destination := Py.str_opt_str (TravelIntent.destination intent) in
    let origin_code := _get_iata_code env origin in
    let dest_code := _get_iata_code env destination in
    let origin_alternatives :=
      _get_alternative_airports env origin origin_code in
    let dest_alternatives :=
      _get_alternative_airports env destination dest_code in
    (* primary route first *)
    flight_options <~
      _search_route origin_code dest_code intent max_results ;;
    if Py.truthy_list flight_options then IO.ret flight_options
    else
      (* alternative destination airports *)
      IO.for_return dest_alternatives
        (fun alt_dest =>
           _search_route origin_code alt_dest intent max_results)
      (* alternative origin airports *)
      (IO.for_return origin_alternatives
        (fun alt_origin =>
           _search_route alt_origin dest_code intent max_results)
      (* combinations of alternative airports *)
      (combinations (Py.take 2 origin_alternatives)
         (Py.take 2 dest_alternatives) intent max_results
         (IO.ret []))).

Definition new : FlightService := FlightService.mk search_flights.
End WithEnv.

(** The table of [_get_iata_code]. *)
Definition common_codes : list (string * string) :=
  [ ("london", "LON"); ("paris", "PAR"); ("rome", "ROM");
    ("barcelona", "BCN"); ("madrid", "MAD"); ("berlin", "BER");
    ("amsterdam", "AMS"); ("lisbon", "LIS"); ("copenhagen", "CPH");
    ("stockholm", "STO"); ("oslo", "OSL"); ("helsinki", "HEL");
    ("vienna", "VIE"); ("prague", "PRG"); ("budapest", "BUD");
    ("warsaw", "WAW"); ("dublin", "DUB"); ("athens", "ATH");
    ("istanbul", "IST"); ("nice", "NCE"); ("cannes", "NCE");
    ("valencia", "VLC"); ("malaga", "AGP"); ("alicante", "ALC");
    ("palma", "PMI"); ("ibiza", "IBZ"); ("mykonos", "JMK");
    ("santorini", "JTR"); ("split", "SPU"); ("dubrovnik", "DBV");
    ("faro", "FAO"); ("porto", "OPO"); ("milan", "MIL"); ("venice", "VCE");
    ("florence", "FLR"); ("naples", "NAP"); ("zurich", "ZRH");
    ("geneva", "GVA"); ("brussels", "BRU"); ("lyon", "LYS");
    ("marseille", "MRS"); ("edinburgh", "EDI"); ("manchester", "MAN");
    ("munich", "MUC"); ("frankfurt", "FRA"); ("hamburg", "HAM");
    ("new york", "NYC"); ("los angeles", "LAX"); ("san francisco", "SFO");
    ("chicago", "CHI"); ("miami", "MIA"); ("orlando", "MCO");
    ("las vegas", "LAS"); ("tokyo", "TYO"); ("kyoto", "KIX");
    ("osaka", "KIX"); ("yokohama", "TYO"); ("nagoya", "NGO");
    ("sapporo", "SPK"); ("fukuoka", "FUK"); ("nara", "KIX");
    ("nagano", "TYO"); ("dubai", "DXB"); ("singapore", "SIN");
    ("hong kong", "HKG"); ("bangkok", "BKK"); ("bali", "DPS");
    ("phuket", "HKT"); ("seoul", "SEL"); ("beijing", "BJS");
    ("shanghai", "SHA"); ("delhi", "DEL"); ("mumbai", "BOM");
    ("sydney", "SYD"); ("melbourne", "MEL"); ("cancun", "CUN");
    ("mexico city", "MEX"); ("rio de janeiro", "RIO"); ("sao paulo", "SAO");
    ("buenos aires", "BUE"); ("toronto", "YTO"); ("vancouver", "YVR");
    ("montreal", "YMQ"); ("tenerife", "TCI"); ("gran canaria", "LPA");
    ("lanzarote", "ACE"); ("takayama", "TYO"); ("hakone", "TYO");
    ("nikko", "TYO"); ("kanazawa", "TYO"); ("kobe", "KIX"); ("siena", "ROM");
    ("assisi", "ROM"); ("verona", "MIL"); ("bologna", "MIL");
    ("cinque terre", "MIL"); ("positano", "NAP"); ("granada", "MAD");
    ("san sebastian", "MAD"); ("seville", "MAD"); ("tours", "PAR");
    ("avignon", "PAR"); ("annecy", "PAR"); ("salzburg", "VIE");
    ("innsbruck", "VIE") ].

Definition _get_iata_code (location : string) : string :=
  let location := PyStr.strip_country location in
  let location_lower := PyStr.strip (PyStr.lower location) in
  if (String.length location =? 3)%nat && PyStr.isalpha location
  then PyStr.upper location
  else
    match Py.dict_get common_codes location_lower with
    | Some code => code
    | None => PyStr.take 3 (PyStr.upper location)
    end.

(** The table of [_get_alternative_airports]. *)
Definition alternatives : list (string * list string) :=
  [ ("kyoto", ["OSA"; "ITM"; "UKB"]); ("osaka", ["ITM"; "UKB"]);
    ("tokyo", ["NRT"; "HND"]); ("london", ["LHR"; "LGW"; "STN"; "LTN"]);
    ("paris", ["CDG"; "ORY"]); ("rome", ["FCO"; "CIA"]);
    ("milan", ["MXP"; "LIN"; "BGY"]); ("barcelona", ["BCN"; "GRO"]);
    ("new york", ["JFK"; "EWR"; "LGA"]);
    ("los angeles", ["LAX"; "BUR"; "ONT"]); ("chicago", ["ORD"; "MDW"]);
    ("san francisco", ["SFO"; "OAK"; "SJC"]); ("bangkok", ["BKK"; "DMK"]);
    ("seoul", ["ICN"; "GMP"]); ("shanghai", ["PVG"; "SHA"]);
    ("beijing", ["PEK"; "PKX"]) ].

(** [primary_code] is not used. *)
Definition _get_alternative_airports (city primary_code : string)
  : list string :=
  let city := PyStr.strip_country city in
  let city_lower := PyStr.strip (PyStr.lower city) in
  match Py.dict_get alternatives city_lower with
  | Some codes => codes
  | None => []
  end.

End AmadeusFlightService.

(* ================================================================== *)
(** * app/services/hotel_client.py *)
(* ================================================================== *)

(** Approximate exchange rates to EUR. *)
Definition CURRENCY_RATES_TO_EUR : list (string * Q) :=
  [ ("EUR", 1.0); ("USD", 0.92); ("GBP", 1.17); ("JPY", 0.0062);
    ("CNY", 0.13); ("INR", 0.011); ("AUD", 0.61); ("CAD", 0.68);
    ("CHF", 1.05); ("SEK", 0.088); ("NOK", 0.087); ("DKK", 0.13);
    ("SGD", 0.68); ("HKD", 0.12); ("NZD", 0.56); ("THB", 0.026);
    ("MXN", 0.054); ("BRL", 0.18); ("AED", 0.25) ]%Q.

Module HotelSearchService.

(** An amount in [from_currency] as an amount in EUR; without a rate the
    amount is returned as it is. *)
Definition _convert_to_eur (amount : Q) (from_currency : string) : Q :=
  if String.eqb from_currency "EUR" then amount
  else
    match Py.dict_get CURRENCY_RATES_TO_EUR (PyStr.upper from_currency) with
    | Some rate =>
        if Qeq_bool rate 0 then amount   (* [if not rate:] *)
        else (amount * rate)%Q
    | None => amount
    end.

(** The amenities of a Booking.com hotel, from the comma-separated text
    [hotel.get('hotel_facilities', '')]. *)
Definition _extract_amenities (hotel_facilities : string) : list string :=
  let facilities := PyStr.split "," hotel_facilities in
  map PyStr.strip
    (filter (fun facility => Py.truthy_str (Some (PyStr.strip facility)))
       (Py.take 10 facilities)).

Record template := mk_template {
  t_name : string;
  t_type : string;
  t_rating : Q;
  t_amenities : list string;
  t_style : string
}.

Definition hotel_templates (destination : string) : list template :=
  [ mk_template ("Grand " ++ destination ++ " Hotel")%string "hotel" 4.5
      ["WiFi"; "Pool"; "Spa"; "Restaurant"; "Gym"; "Bar"] "luxury";
    mk_template (destination ++ " Central Apartments")%string "apartment" 4.2
      ["WiFi"; "Kitchen"; "Washing Machine"; "City View"] "apartment";
    mk_template ("Budget Inn " ++ destination)%string "hotel" 3.8
      ["WiFi"; "Breakfast"; "24h Reception"] "budget";
    mk_template (destination ++ " Family Resort")%string "resort" 4.6
      ["WiFi"; "Kids Club"; "Pool"; "Animation"; "Restaurant";
       "Beach Access"] "family";
    mk_template ("Boutique Hotel " ++ destination)%string "hotel" 4.7
      ["WiFi"; "Rooftop Bar"; "Concierge"; "Designer Rooms"] "boutique" ].

Definition default_template : template :=
  mk_template "" "" 0 [] "".

Section WithEnv.
Variable env : Env.
(** [self.use_mock], set by the constructor. *)
Variable use_mock : bool.

(** The [i]-th mock hotel; it takes seven random draws. *)
Definition mock_hotel (intent : TravelIntent) (destination : string)
    (nights : Z) (budget_per_night : Q) (i : nat) : AccommodationOption :=
  let templates := hotel_templates destination in
  let template :=
    nth (i mod List.length templates)%nat templates default_template in
  let draw := (7 * i)%nat in
  let price_multiplier :=
    if String.eqb (t_style template) "luxury"
    then uniform env draw 1.5 2.5
    else if String.eqb (t_style template) "budget"
    then uniform env draw 0.5 0.8
    else uniform env draw 0.9 1.3 in
  let price_per_night := (budget_per_night * price_multiplier)%Q in
  let total_price := (price_per_night * inject_Z nights)%Q in
  let number := Py.str_int (Z.of_nat i + 1) in
  AccommodationOption.mk
    (t_name template ++ " - " ++ number)%string
    (t_type template)
    (Py.str_int (randint env (draw + 1) 1 999) ++ " " ++ destination
       ++ " Street")%string
    destination
    "Mock Country"
    (round env price_per_night 2)
    (round env total_price 2)
    "EUR"
    (Some (t_rating template + uniform env (draw + 2) (-0.3) 0.2)%Q)
    (Some (randint env (draw + 3) 50 1500))
    (t_amenities template)
    (Some (if String.eqb (t_type template) "hotel"
           then "Standard Room" else "Apartment"))
    (match TravelIntent.departure_date intent with
     | Some d => d
     | None => today env
     end)
    (match TravelIntent.return_date intent with
     | Some d => d
     | None => today env
     end)
    (Some (uniform env (draw + 4) 40.0 50.0))
    (Some (uniform env (draw + 5) (-5.0) 15.0))
    (Some (round env (uniform env (draw + 6) 0.5 5.0) 1))
    (Some ("https://booking.com/mock-hotel-" ++ number)%string)
    "mock_data"
    (now env).

(** The list [_generate_mock_hotels] returns; no rating is None here. *)
Definition mock_hotels (intent : TravelIntent) (max_results : nat)
  : list AccommodationOption :=
  let destination :=
    Py.str_or (TravelIntent.destination intent) "European City" in
  let nights := Py.int_or (TravelIntent.duration_days intent) 7 in
  let budget_per_night :=
    match TravelIntent.total_budget intent with
    | Some b =>
        if Qeq_bool b 0 then 150%Q else (b * 0.4 / inject_Z nights)%Q
    | None => 150%Q
    end in
  let mock_hotels :=
    map (mock_hotel intent destination nights budget_per_night)
      (seq 0 (Nat.min max_results
                (List.length (hotel_templates destination) * 2))) in
  Py.sorted_reverse
    (fun h =>
       (Py.float_or (AccommodationOption.rating h) 0
        - AccommodationOption.price_per_night h / 1000)%Q)
    mock_hotels.

Definition _generate_mock_hotels (intent : TravelIntent)
    (max_results : nat) : IO (list AccommodationOption) :=
  _ <~ IO.log MockHotels ;;
  IO.ret (mock_hotels intent max_results).

(** Booking.com through RapidAPI: a failure falls back to mock data. *)
Definition _search_booking_com (intent : TravelIntent)
    (max_results : nat) : IO (list AccommodationOption) :=
  IO.try_except
    (IO.call BookingCom
       (fun tr => booking_com_request env tr intent max_results))
    (fun _ => _generate_mock_hotels intent max_results).

Definition search_hotels (intent : TravelIntent) (max_results : nat)
  : IO (list AccommodationOption) :=
  if negb (Py.truthy_str (TravelIntent.destination intent))
  then IO.ret []
  else if use_mock then _generate_mock_hotels intent max_results
  else
    let amadeus_then_rest :=
      IO.bind
        (* Amadeus: a non-empty answer returns, anything else goes on *)
        (IO.try_except
           (hotels <~
              IO.call AmadeusHotels
                (fun tr => _search_amadeus_hotels env tr intent
                             max_results) ;;
            IO.ret (if Py.truthy_list hotels then Some hotels else None))
           (fun _ => IO.ret None))
        (fun found =>
           match found with
           | Some hotels => IO.ret hotels
           | None =>
               if Py.truthy_str (booking_com_api_key env)
               then _search_booking_com intent max_results
               else _generate_mock_hotels intent max_results
           end) in
    if Py.truthy_str (hotelbeds_api_key env)
       && Py.truthy_str (hotelbeds_api_secret env)
    then
      IO.bind
        (IO.try_except
           (hotels <~
              IO.call Hotelbeds
                (fun tr => _search_hotelbeds env tr intent max_results) ;;
            IO.ret (if Py.truthy_list hotels then Some hotels else None))
           (fun _ => IO.ret None))
        (fun found =>
           match found with
           | Some hotels => IO.ret hotels
           | None => amadeus_then_rest
           end)
    else amadeus_then_rest.

Definition new : HotelService := HotelService.mk search_hotels.
End WithEnv.

(** The table of [_get_city_iata_code]. *)
Definition city_codes : list (string * string) :=
  [ ("paris", "PAR"); ("rome", "ROM"); ("barcelona", "BCN");
    ("london", "LON"); ("amsterdam", "AMS"); ("berlin", "BER");
    ("madrid", "MAD"); ("vienna", "VIE"); ("prague", "PRG");
    ("budapest", "BUD"); ("lisbon", "LIS"); ("dublin", "DUB");
    ("athens", "ATH"); ("copenhagen", "CPH"); ("stockholm", "STO");
    ("oslo", "OSL"); ("helsinki", "HEL"); ("warsaw", "WAW");
    ("brussels", "BRU"); ("milan", "MIL"); ("venice", "VCE");
    ("florence", "FLR"); ("naples", "NAP"); ("zurich", "ZRH");
    ("geneva", "GVA"); ("tokyo", "TYO"); ("kyoto", "KIX"); ("osaka", "OSA");
    ("bangkok", "BKK"); ("singapore", "SIN"); ("hong kong", "HKG");
    ("dubai", "DXB"); ("mumbai", "BOM"); ("delhi", "DEL"); ("seoul", "SEL");
    ("beijing", "BJS"); ("shanghai", "SHA"); ("new york", "NYC");
    ("los angeles", "LAX"); ("san francisco", "SFO"); ("miami", "MIA");
    ("chicago", "CHI"); ("boston", "BOS"); ("toronto", "YTO");
    ("vancouver", "YVR"); ("mexico city", "MEX"); ("buenos aires", "BUE");
    ("rio de janeiro", "RIO"); ("sao paulo", "SAO"); ("sydney", "SYD");
    ("melbourne", "MEL"); ("auckland", "AKL"); ("cape town", "CPT");
    ("johannesburg", "JNB"); ("cairo", "CAI"); ("marrakech", "RAK") ].

Definition _get_city_iata_code (city : string) : string :=
  let city := PyStr.strip_country city in
  let city_lower := PyStr.strip (PyStr.lower city) in
  match Py.dict_get city_codes city_lower with
  | Some code => code
  | None => PyStr.upper (PyStr.take 3 city)
  end.

End HotelSearchService.

(* ================================================================== *)
(** * app/agents/search_orchestrator.py *)
(* ================================================================== *)

Module SearchOrchestratorAgent.

Record t := mk {
  serpapi_service : FlightService;
  amadeus_service : FlightService;
  hotel_service : HotelService
}.

(** [SearchOrchestratorAgent(use_mock_hotels)]. *)
Definition new (env : Env) (use_mock_hotels : bool) : t :=
  mk (SerpAPIFlightService.new env) (AmadeusFlightService.new env)
     (HotelSearchService.new env use_mock_hotels).

(** ** Flights *)

(** SerpAPI first, Amadeus when it fails or finds nothing. *)
Definition _search_flights_async (self : t) (intent : TravelIntent)
  : IO (list FlightOption) :=
  found <~
    IO.try_except
      (flights <~
         FlightService.search_flights (serpapi_service self) intent 15%nat ;;
       IO.ret (if Py.truthy_list flights then Some flights else None))
      (fun _ => IO.ret None) ;;
  match found with
  | Some flights => IO.ret flights
  | None =>
      (* [flights] is still the empty list when Amadeus raises *)
      IO.try_except
        (FlightService.search_flights (amadeus_service self) intent 15%nat)
        (fun _ => IO.ret [])
  end.

(** [score_flight], the closure of [_optimize_flights] over the filtered
    pool [flights]. *)
Definition score_flight (flights : list FlightOption)
    (flight : FlightOption) : Py.result Q :=
  max_price <- Py.max_float (map FlightOption.total_price flights) ;;
  price_ratio <- Py.truediv (FlightOption.total_price flight) max_price ;;
  let price_score := (1 - price_ratio)%Q in
  max_duration <-
    Py.max_int (map FlightOption.total_duration_minutes flights) ;;
  duration_ratio <-
    Py.truediv (inject_Z (FlightOption.total_duration_minutes flight))
      (inject_Z max_duration) ;;
  let duration_score := (1 - duration_ratio)%Q in
  let stops_score :=
    (1 - inject_Z (FlightOption.number_of_stops flight) / 3)%Q in
  Py.Ok (price_score * 0.5 + duration_score * 0.3 + stops_score * 0.2)%Q.

(** The scoring, sorting and truncation at the end of
    [_optimize_flights]. *)
Definition rank_flights (flights : list FlightOption)
  : Py.result (list FlightOption) :=
  flights_with_scores <-
    Py.mapM (fun f => s <- score_flight flights f ;; Py.Ok (f, s)) flights ;;
  let flights_with_scores := Py.sorted_reverse snd flights_with_scores in
  Py.Ok (map fst (Py.take 10 flights_with_scores)).

(** The budget filter of [_optimize_flights]. *)
Definition budget_filter (budget : Q) (flights : list FlightOption)
  : list FlightOption :=
  let max_flight_cost := (budget * 0.4)%Q in
  filter (fun f => Qle_bool (FlightOption.total_price f) max_flight_cost)
    flights.

Definition _optimize_flights (flights : list FlightOption)
    (budget : option Q) : Py.result (list FlightOption) :=
  if negb (Py.truthy_list flights) then Py.Ok []
  else
    match budget with
    | Some b =>
        if Qeq_bool b 0 then rank_flights flights   (* [if budget:] fails *)
        else
          let flights := budget_filter b flights in
          if negb (Py.truthy_list flights) then Py.Ok []
          else rank_flights flights
    | None => rank_flights flights
    end.

(** ** Hotels *)

Definition score_hotel (hotels : list AccommodationOption) (style : string)
    (hotel : AccommodationOption) : Py.result Q :=
  m <- Py.max_float (map AccommodationOption.total_price hotels) ;;
  let max_price := if Qeq_bool m 0 then 1%Q else m in
  price_score <-
    (if Py.str_in style ["budget"; "backpacker"]
     then r <- Py.truediv (AccommodationOption.total_price hotel) max_price ;;
          Py.Ok (1 - r)%Q
     else if Py.str_in style ["luxury"; "comfort"]
     then Py.Ok 0.5%Q
     else r <- Py.truediv (AccommodationOption.total_price hotel) max_price ;;
          Py.Ok (0.7 - r * 0.4)%Q) ;;
  let rating_score :=
    (Py.float_or (AccommodationOption.rating hotel) 0 / 5.0)%Q in
  let location_score :=
    match AccommodationOption.distance_to_center_km hotel with
    | Some d => if Qeq_bool d 0 then 0.5%Q
                else Py.max2 0 (1 - d / 10)%Q
    | None => 0.5%Q
    end in
  let style_bonus :=
    if String.eqb style "luxury"
       && match AccommodationOption.rating hotel with
          | Some r => negb (Qeq_bool r 0) && Qle_bool 4.5 r
          | None => false
          end
    then 0.2%Q
    else if String.eqb style "family"
            && Py.str_in "Kids Club" (AccommodationOption.amenities hotel)
    then 0.2%Q
    else if String.eqb style "budget"
            && Py.Qltb (AccommodationOption.price_per_night hotel) 80
    then 0.2%Q
    else 0%Q in
  Py.Ok (price_score * 0.35 + rating_score * 0.35 + location_score * 0.2
         + style_bonus * 0.1)%Q.

(** The three price ranges, filled in score order. *)
Record price_ranges := mk_ranges {
  low : list AccommodationOption;
  mid : list AccommodationOption;
  high : list AccommodationOption
}.

Definition add_to_range (r : price_ranges) (hotel : AccommodationOption)
  : price_ranges :=
  if Py.Qltb (AccommodationOption.price_per_night hotel) 100
  then mk_ranges (low r ++ [hotel]) (mid r) (high r)
  else if Py.Qltb (AccommodationOption.price_per_night hotel) 200
  then mk_ranges (low r) (mid r ++ [hotel]) (high r)
  else mk_ranges (low r) (mid r) (high r ++ [hotel]).

(** The selection at the end of [_optimize_hotels], from the hotels in
    score order. *)
Definition select_by_price_range (ranked : list AccommodationOption)
  : list AccommodationOption :=
  let r := fold_left add_to_range ranked (mk_ranges [] [] []) in
  let selected_hotels :=
    Py.take 4 (low r) ++ Py.take 4 (mid r) ++ Py.take 2 (high r) in
  Py.take 15 selected_hotels.

Definition _optimize_hotels (hotels : list AccommodationOption)
    (budget : option Q) (style : string)
  : Py.result (list AccommodationOption) :=
  if negb (Py.truthy_list hotels) then Py.Ok []
  else
    let hotels :=
      match budget with
      | Some b =>
          if Qeq_bool b 0 then hotels
          else
            let max_hotel_budget := (b * 0.4)%Q in
            filter
              (fun h =>
                 Qle_bool (AccommodationOption.total_price h)
                   max_hotel_budget)
              hotels
      | None => hotels
      end in
    hotels_with_scores <-
      Py.mapM (fun h => s <- score_hotel hotels style h ;; Py.Ok (h, s))
        hotels ;;
    let hotels_with_scores := Py.sorted_reverse snd hotels_with_scores in
    Py.Ok (select_by_price_range (map fst hotels_with_scores)).

(** ** The agent *)

(** What [asyncio.gather(..., return_exceptions=True)] hands back for
    the two tasks, written into the state. *)
Definition handle_results (state : AgentState)
    (flight_results : Py.result (list FlightOption))
    (hotel_results : Py.result (list AccommodationOption)) : AgentState :=
  let state :=
    match flight_results with
    | Py.Raise e =>
        AgentState.set_flight_options []
          (AgentState.append_error ("Flight search error: " ++ e)%string
             state)
    | Py.Ok flights => AgentState.set_flight_options flights state
    end in
  match hotel_results with
  | Py.Raise e =>
      AgentState.set_accommodation_options []
        (AgentState.append_error ("Hotel search error: " ++ e)%string state)
  | Py.Ok hotels => AgentState.set_accommodation_options hotels state
  end.

(** The rest of the [try] block: both pools go through the optimizer.  An
    exception leaves the state as it was when it was raised. *)
Definition optimize_results (intent : TravelIntent) (state : AgentState)
  : AgentState * option Py.exn :=
  match _optimize_flights (AgentState.flight_options state)
          (TravelIntent.total_budget intent) with
  | Py.Raise e => (state, Some e)
  | Py.Ok flights =>
      let state := AgentState.set_flight_options flights state in
      let style :=
        let v := TravelStyle.value (TravelIntent.travel_style intent) in
        if Py.truthy_str (Some v) then v else "balanced" in
      match _optimize_hotels (AgentState.accommodation_options state)
              (TravelIntent.total_budget intent) style with
      | Py.Raise e => (state, Some e)
      | Py.Ok hotels =>
          let state := AgentState.set_accommodation_options hotels state in
          let state :=
            AgentState.append_message
              ("Search Orchestrator: Found "
               ++ Py.str_int (Py.len (AgentState.flight_options state))
               ++ " flights and "
               ++ Py.str_int (Py.len (AgentState.accommodation_options state))
               ++ " hotels")%string state in
          (AgentState.set_current_step "search_complete" state, None)
      end
  end.

(** [search], given what the two tasks returned. *)
Definition search_with (intent : TravelIntent) (state : AgentState)
    (flight_results : Py.result (list FlightOption))
    (hotel_results : Py.result (list AccommodationOption)) : AgentState :=
  let state :=
    AgentState.append_message
      "Search Orchestrator: Searching for flights and hotels..." state in
  let state := handle_results state flight_results hotel_results in
  match optimize_results intent state with
  | (state, None) => state
  | (state, Some e) =>
      let error_msg := ("Search Orchestrator Error: " ++ e)%string in
      AgentState.append_message error_msg
        (AgentState.append_error error_msg state)
  end.

(** The two tasks run concurrently and independently; each one is run on
    its own call history.  The log lists the calls of the flight task
    before those of the hotel task: this is one of the interleavings the
    code allows, and no statement below relies on the order between a
    flight request and a lodging request. *)
Definition search (self : t) (state : AgentState) : IO AgentState :=
  match AgentState.parsed_intent state with
  | None =>
      let error_msg := "Search Orchestrator: No parsed intent found" in
      IO.ret (AgentState.append_message error_msg
                (AgentState.append_error error_msg state))
  | Some intent =>
      fun tr =>
        let '(flight_results, flight_calls) :=
          _search_flights_async self intent [] in
        let '(hotel_results, hotel_calls) :=
          HotelService.search_hotels (hotel_service self) intent 20%nat [] in
        (Py.Ok (search_with intent state flight_results hotel_results),
         tr ++ flight_calls ++ hotel_calls)
  end.

(** [search_node]: mock hotels are not requested. *)
Definition search_node (env : Env) (state : AgentState) : IO AgentState :=
  _ <~ IO.lift (SearchOrchestratorAgent_init env) ;;
  search (new env false) state.

End SearchOrchestratorAgent.

(* ================================================================== *)
(** * The flight ranking on binary64 numbers *)
(* ================================================================== *)

(** The end of [_optimize_flights] once more, on the numbers the code
    computes with: [float] is the IEEE 754 binary64 type of the kernel,
    with rounding to nearest, ties to even, as in Python. *)
Module Binary64.

#[local] Set Warnings "-inexact-float".

(** The fields of a [FlightOption] that [score_flight] reads. *)
Record flight := mk_flight {
  total_price : float;
  total_duration_minutes : Z;
  number_of_stops : Z
}.

(** [float(n)]: exact for an int of magnitude up to 2^53. *)
Definition of_int (n : Z) : float :=
  if n <? 0 then PrimFloat.opp (PrimFloat.of_uint63 (Uint63.of_Z (- n)))
  else PrimFloat.of_uint63 (Uint63.of_Z n).

(** [a / b] on two floats. *)
Definition truediv (a b : float) : Py.result float :=
  if PrimFloat.eqb b 0%float then Py.Raise "float division by zero"
  else Py.Ok (PrimFloat.div a b).

(** [a / b] on two ints: the quotient rounded once, which for ints of
    magnitude up to 2^53 is the quotient of the two as floats. *)
Definition int_truediv (a b : Z) : Py.result float :=
  if b =? 0 then Py.Raise "division by zero"
  else Py.Ok (PrimFloat.div (of_int a) (of_int b)).

(** [max(it)] on floats: the first greatest element. *)
Definition max_float (l : list float) : Py.result float :=
  match l with
  | [] => Py.Raise "max() arg is an empty sequence"
  | x :: l' =>
      Py.Ok (fold_left (fun m y => if PrimFloat.ltb m y then y else m) l' x)
  end.

(** [sorted(l, key=key, reverse=True)] with a float key that is not NaN. *)
Definition sorted_reverse {A} (key : A -> float) (l : list A) : list A :=
  Py.sort_by (fun y x => PrimFloat.ltb (key x) (key y)) l.

Definition score_flight (flights : list flight) (flight : flight)
  : Py.result float :=
  max_price <- max_float (map total_price flights) ;;
  price_ratio <- truediv (total_price flight) max_price ;;
  let price_score := PrimFloat.sub 1 price_ratio in
  max_duration <- Py.max_int (map total_duration_minutes flights) ;;
  duration_ratio <-
    int_truediv (total_duration_minutes flight) max_duration ;;
  let duration_score := PrimFloat.sub 1 duration_ratio in
  stops_ratio <- int_truediv (number_of_stops flight) 3 ;;
  let stops_score := PrimFloat.sub 1 stops_ratio in
  Py.Ok
    (PrimFloat.add
       (PrimFloat.add (PrimFloat.mul price_score 0.5)
          (PrimFloat.mul duration_score 0.3))
       (PrimFloat.mul stops_score 0.2)).

Definition rank_flights (flights : list flight)
  : Py.result (list flight) :=
  flights_with_scores <-
    Py.mapM (fun f => s <- score_flight flights f ;; Py.Ok (f, s)) flights ;;
  let flights_with_scores := sorted_reverse snd flights_with_scores in
  Py.Ok (map fst (Py.take 10 flights_with_scores)).

End Binary64.

(* ================================================================== *)
(** * app/agents/taste_profiler.py *)
(* ================================================================== *)

Module TasteProfilerAgent.

Definition _get_neutral_profile : TasteProfile :=
  TasteProfile.mk ["balanced"] "moderate" "balanced" "moderate" ["hotel"]
    [] [] [] [] false.

Definition _infer_budget_consciousness (intent : TravelIntent) : string :=
  match TravelIntent.total_budget intent with
  | None => "moderate"
  | Some total_budget =>
      if Qeq_bool total_budget 0 then "moderate"
      else
        let days := Py.int_or (TravelIntent.duration_days intent) 7 in
        let travelers :=
          TravelIntent.num_adults intent
          + TravelIntent.num_children intent in
        let budget_per_person_per_day :=
          if 0 <? travelers
          then (total_budget / inject_Z (days * travelers))%Q
          else 0%Q in
        if Py.Qltb budget_per_person_per_day 100 then "high"
        else if Py.Qltb 300 budget_per_person_per_day then "low"
        else "moderate"
  end.

Definition _infer_comfort_level (intent : TravelIntent) : string :=
  let v := TravelStyle.value (TravelIntent.travel_style intent) in
  if Py.str_in v ["luxury"; "relaxed"] then "high"
  else if Py.str_in v ["adventure"; "budget"] then "low"
  else "moderate".

Definition _create_default_profile (intent : option TravelIntent)
  : TasteProfile :=
  match intent with
  | None => _get_neutral_profile
  | Some intent =>
      TasteProfile.mk
        [TravelStyle.value (TravelIntent.travel_style intent)]
        (_infer_budget_consciousness intent)
        "balanced"
        (_infer_comfort_level intent)
        (match TravelIntent.accommodation_type intent with
         | [] => ["hotel"]
         | l => l
         end)
        (TravelIntent.interests intent)
        [] [] []
        (0 <? TravelIntent.num_children intent)
  end.

(** The budget of a present intent when [intent and intent.total_budget]
    holds. *)
Definition budget_of (intent : option TravelIntent) : option Q :=
  match intent with
  | Some intent =>
      match TravelIntent.total_budget intent with
      | Some b => if Qeq_bool b 0 then None else Some b
      | None => None
      end
  | None => None
  end.

Definition _score_flight (flight : FlightOption) (profile : TasteProfile)
    (intent : option TravelIntent) : Py.result Q :=
  let score := 0.5%Q in
  (* time sensitivity *)
  let stops := FlightOption.number_of_stops flight in
  let score :=
    if String.eqb (TasteProfile.time_sensitivity profile) "high"
    then if stops =? 0 then (score + 0.3)%Q
         else if stops =? 1 then (score + 0.1)%Q
         else (score - 0.1)%Q
    else if String.eqb (TasteProfile.time_sensitivity profile) "low"
    then if 1 <=? stops then (score + 0.1)%Q else score
    else score in
  (* budget consciousness *)
  score <-
    match budget_of intent with
    | Some total_budget =>
        price_ratio <-
          Py.truediv (FlightOption.total_price flight)
            (total_budget * 0.4)%Q ;;
        if String.eqb (TasteProfile.budget_consciousness profile) "high"
        then Py.Ok (score + Py.max2 0 (0.3 - price_ratio * 0.3))%Q
        else if String.eqb (TasteProfile.budget_consciousness profile) "low"
        then Py.Ok (score + 0.1)%Q
        else Py.Ok score
    | None => Py.Ok score
    end ;;
  (* comfort: the booking class of the first outbound segment *)
  score <-
    (if String.eqb (TasteProfile.comfort_level profile) "high"
     then first <- Py.index (FlightOption.outbound_segments flight) 0 ;;
          if negb (String.eqb (FlightSegment.booking_class first) "economy")
          then Py.Ok (score + 0.2)%Q
          else Py.Ok score
     else Py.Ok score) ;;
  (* preferred airlines *)
  let carriers :=
    map FlightSegment.carrier
      (FlightOption.outbound_segments flight
       ++ FlightOption.return_segments flight) in
  let score :=
    if Py.truthy_list (TasteProfile.preferred_airlines profile)
       && existsb
            (fun carrier =>
               Py.str_in carrier (TasteProfile.preferred_airlines profile))
            carriers
    then (score + 0.15)%Q
    else score in
  Py.Ok (Py.min2 1.0 (Py.max2 0.0 score)).

Definition count_present (wanted have : list string) : nat :=
  List.length (filter (fun a => Py.str_in a have) wanted).

Definition _score_hotel (hotel : AccommodationOption)
    (profile : TasteProfile) (intent : option TravelIntent)
  : Py.result Q :=
  let score := 0.5%Q in
  let amenities := AccommodationOption.amenities hotel in
  let rating := AccommodationOption.rating hotel in
  (* type preference *)
  let score :=
    if Py.str_in (AccommodationOption.type hotel)
         (TasteProfile.accommodation_preferences profile)
    then (score + 0.2)%Q else score in
  (* family friendly *)
  let score :=
    if TasteProfile.family_friendly profile
       && existsb (fun a => Py.str_in a amenities)
            ["Kids Club"; "Pool"; "Family Room"; "Playground"]
    then (score + 0.2)%Q else score in
  (* comfort level *)
  let score :=
    if String.eqb (TasteProfile.comfort_level profile) "high"
    then
      let score :=
        match rating with
        | Some r =>
            if negb (Qeq_bool r 0) && Qle_bool 4.5 r
            then (score + 0.2)%Q else score
        | None => score
        end in
      if (2 <=? count_present ["Spa"; "Concierge"; "Pool"; "Restaurant"]
                  amenities)%nat
      then (score + 0.1)%Q else score
    else if String.eqb (TasteProfile.comfort_level profile) "low"
    then if Py.Qltb (AccommodationOption.price_per_night hotel) 100
         then (score + 0.15)%Q else score
    else score in
  (* budget consciousness *)
  score <-
    match budget_of intent with
    | Some total_budget =>
        price_ratio <-
          Py.truediv (AccommodationOption.total_price hotel)
            (total_budget * 0.4)%Q ;;
        if String.eqb (TasteProfile.budget_consciousness profile) "high"
        then Py.Ok (score + Py.max2 0 (0.3 - price_ratio * 0.3))%Q
        else Py.Ok score
    | None => Py.Ok score
    end ;;
  (* rating boost *)
  let score :=
    match rating with
    | Some r =>
        if Qeq_bool r 0 then score else (score + r / 5.0 * 0.15)%Q
    | None => score
    end in
  (* location *)
  let score :=
    match AccommodationOption.distance_to_center_km hotel with
    | Some d =>
        if negb (Qeq_bool d 0) && Py.Qltb d 2
        then (score + 0.1)%Q else score
    | None => score
    end in
  Py.Ok (Py.min2 1.0 (Py.max2 0.0 score)).

(** ** Diverse selection *)

Record selection := mk_selection {
  selected : list AccommodationOption;
  types_seen : list string;
  n_low : Z;
  n_mid : Z;
  n_high : Z
}.

Definition count_str (s : string) (l : list string) : Z :=
  Z.of_nat (List.length (filter (String.eqb s) l)).

(** The first loop: at most four per price bucket and three per type; it
    stops when [max_results] hotels are selected. *)
Fixpoint select_loop (max_results : nat)
    (scored_hotels : list (AccommodationOption * Q)) (s : selection)
  : selection :=
  match scored_hotels with
  | [] => s
  | (hotel, _) :: rest =>
      if (max_results <=? List.length (selected s))%nat then s (* break *)
      else
        let price := AccommodationOption.price_per_night hotel in
        let type := AccommodationOption.type hotel in
        let in_bucket :=
          if Py.Qltb price 100 then n_low s
          else if Py.Qltb price 200 then n_mid s
          else n_high s in
        if (in_bucket <? 4) && (count_str type (types_seen s) <? 3)
        then
          select_loop max_results rest
            (mk_selection (selected s ++ [hotel]) (types_seen s ++ [type])
               (if Py.Qltb price 100 then n_low s + 1 else n_low s)
               (if Py.Qltb price 100 then n_mid s
                else if Py.Qltb price 200 then n_mid s + 1 else n_mid s)
               (if Py.Qltb price 100 then n_high s
                else if Py.Qltb price 200 then n_high s
                else n_high s + 1))
        else select_loop max_results rest s
  end.

Definition hotel_in (hotel : AccommodationOption)
    (l : list AccommodationOption) : bool :=
  existsb (AccommodationOption.eqb hotel) l.

(** The second loop, entered with [remaining > 0]: hotels not selected yet
    fill the free slots, in score order. *)
Fixpoint fill_loop (scored_hotels : list (AccommodationOption * Q))
    (selected : list AccommodationOption) (remaining : Z)
  : list AccommodationOption :=
  match scored_hotels with
  | [] => selected
  | (hotel, _) :: rest =>
      if negb (hotel_in hotel selected)
      then
        let selected := selected ++ [hotel] in
        let remaining := remaining - 1 in
        if remaining =? 0 then selected (* break *)
        else fill_loop rest selected remaining
      else fill_loop rest selected remaining
  end.

Definition _select_diverse_hotels
    (scored_hotels : list (AccommodationOption * Q)) (max_results : nat)
  : list AccommodationOption :=
  let s :=
    select_loop max_results scored_hotels (mk_selection [] [] 0 0 0) in
  let remaining := Z.of_nat max_results - Py.len (selected s) in
  if 0 <? remaining then fill_loop scored_hotels (selected s) remaining
  else selected s.

(** ** The agent *)

(** The body of the [try] block of [profile], after the first message.
    An exception leaves the state as it was when it was raised. *)
Definition rank_options (state : AgentState) : AgentState * option Py.exn :=
  let intent := AgentState.parsed_intent state in
  let taste_profile :=
    match AgentState.user_taste_profile state with
    | Some p => p
    | None => _create_default_profile intent
    end in
  match
    Py.mapM
      (fun flight =>
         score <- _score_flight flight taste_profile intent ;;
         Py.Ok (flight, score))
      (AgentState.flight_options state)
  with
  | Py.Raise e => (state, Some e)
  | Py.Ok scored_flights =>
      let scored_flights := Py.sorted_reverse snd scored_flights in
      let state :=
        AgentState.set_flight_options (map fst (Py.take 8 scored_flights))
          state in
      match
        Py.mapM
          (fun hotel =>
             score <- _score_hotel hotel taste_profile intent ;;
             Py.Ok (hotel, score))
          (AgentState.accommodation_options state)
      with
      | Py.Raise e => (state, Some e)
      | Py.Ok scored_hotels =>
          let scored_hotels := Py.sorted_reverse snd scored_hotels in
          let state :=
            AgentState.set_accommodation_options
              (_select_diverse_hotels scored_hotels 12) state in
          let state :=
            AgentState.append_message
              "Taste Profiler: Ranked options based on your preferences"
              state in
          (AgentState.set_current_step "taste_profiled" state, None)
      end
  end.

Definition profile (state : AgentState) : AgentState :=
  let state :=
    AgentState.append_message
      "Taste Profiler: Analyzing your preferences..." state in
  match rank_options state with
  | (state, None) => state
  | (state, Some e) =>
      let error_msg := ("Taste Profiler Error: " ++ e)%string in
      AgentState.append_message error_msg
        (AgentState.append_error error_msg state)
  end.

Definition taste_profile_node (state : AgentState) : IO AgentState :=
  IO.ret (profile state).

End TasteProfilerAgent.

(* ================================================================== *)
(** * app/agents/synthesis_agent.py *)
(* ================================================================== *)

Module SynthesisAgent.

(** [state.parsed_intent.<attr>]: AttributeError on None. *)
Definition intent_of (state : AgentState) : Py.result TravelIntent :=
  match AgentState.parsed_intent state with
  | Some intent => Py.Ok intent
  | None => Py.Raise "'NoneType' object has no attribute 'duration_days'"
  end.

(** [(duration_days or 7) * rate * (num_adults + num_children)]. *)
Definition food_cost (intent : TravelIntent) (rate : Z) : Z :=
  Py.int_or (TravelIntent.duration_days intent) 7 * rate
  * (TravelIntent.num_adults intent + TravelIntent.num_children intent).

Definition accommodation_cost_of (selected_hotels : list AccommodationOption)
  : Q :=
  Py.sum_float (map AccommodationOption.total_price selected_hotels).

(** [sorted(l, key=key)] with a key that may raise: the keys are computed
    first, in list order. *)
Definition sorted_by_key {A} (key : A -> Py.result Q) (l : list A)
  : Py.result (list A) :=
  keyed <- Py.mapM (fun x => k <- key x ;; Py.Ok (x, k)) l ;;
  Py.Ok (map fst (Py.sorted snd keyed)).

Definition budget_summary (duration : Z) : string :=
  ("Smart spending without missing out. This " ++ Py.str_int duration
   ++ "-day trip maximizes experiences while keeping costs down.")%string.

Definition budget_why : string :=
  "This itinerary prioritizes value and authentic experiences. You'll stay in well-rated, centrally-located accommodations that free up budget for memorable activities and local food.".

Definition budget_tradeoffs : string :=
  "To stay within budget, flights may include connections and hotels focus on location over luxury amenities. Perfect for travelers who prefer spending on experiences rather than lodging.".

Definition balanced_summary (duration : Z) : string :=
  ("The sweet spot between comfort and adventure. " ++ Py.str_int duration
   ++ " days of well-paced exploration with quality accommodations.")%string.

Definition balanced_why : string :=
  "This itinerary strikes the perfect balance - comfortable flights, well-located hotels with good amenities, and a mix of must-see attractions with local experiences.".

Definition balanced_tradeoffs : string :=
  "Mid-range pricing means good value without extremes. You get comfort and convenience while leaving room in your budget for spontaneous discoveries.".

Definition premium_summary (duration : Z) : string :=
  ("Elevated travel with every detail perfected. " ++ Py.str_int duration
   ++ " days of luxury accommodations, seamless logistics, and curated experiences.")%string.

Definition premium_why : string :=
  "This itinerary prioritizes comfort, convenience, and memorable experiences. Direct flights, top-rated hotels with excellent amenities, and premium activities that showcase the destination's finest offerings.".

Definition premium_tradeoffs : string :=
  "Higher investment in quality means less budget flexibility, but delivers stress-free travel with elevated experiences throughout your journey.".

(** The cost computation and the [Itinerary(...)] call shared by the three
    builders, which differ in the rate, the texts and the selection. *)
Definition build (state : AgentState) (rate : Z)
    (title_prefix style_tag : string) (summary : Z -> string)
    (why_this_option tradeoffs : string)
    (selected_flight : FlightOption)
    (selected_hotels : list AccommodationOption) : Py.result Itinerary :=
  let daily_plans : list DayPlan := [] in
  let flight_cost := FlightOption.total_price selected_flight in
  let accommodation_cost := accommodation_cost_of selected_hotels in
  let activities_cost := 0%Q in
  intent <- intent_of state ;;
  let food_cost := inject_Z (food_cost intent rate) in
  let duration := Py.int_or (TravelIntent.duration_days intent) 7 in
  Py.Ok
    (Itinerary.new
       (title_prefix ++ Py.str_opt_str (TravelIntent.destination intent))%string
       (summary duration) style_tag selected_flight selected_hotels
       daily_plans flight_cost accommodation_cost activities_cost food_cost
       (flight_cost + accommodation_cost + activities_cost + food_cost)%Q
       why_this_option tradeoffs).

Definition try_budget_itinerary (state : AgentState)
  : Py.result (option Itinerary) :=
  let flights :=
    Py.sorted FlightOption.total_price (AgentState.flight_options state) in
  match flights with
  | [] => Py.Ok None
  | _ =>
      selected_flight <- Py.index flights 0 ;;
      let hotels :=
        Py.sorted AccommodationOption.price_per_night
          (AgentState.accommodation_options state) in
      match hotels with
      | [] => Py.Ok None
      | _ =>
          h <- Py.index hotels 0 ;;
          let selected_hotels := [h] in
          it <- build state 40 "Budget Option - " "Budget" budget_summary
                  budget_why budget_tradeoffs selected_flight
                  selected_hotels ;;
          Py.Ok (Some it)
      end
  end.

Definition _create_budget_itinerary (state : AgentState)
  : option Itinerary :=
  Py.try_except (try_budget_itinerary state) (fun _ => None).

(** The key of the balanced flight ranking. *)
Definition balanced_key (f : FlightOption) : Py.result Q :=
  Py.truediv (FlightOption.total_price f)
    (inject_Z (24 - FlightOption.number_of_stops f * 8)).

(** The index of the balanced hotel among [n] hotels sorted by price. *)
Definition mid_index (n : nat) : nat :=
  if (n =? 2)%nat then 0%nat else (n / 2)%nat.

Definition try_balanced_itinerary (state : AgentState)
  : Py.result (option Itinerary) :=
  flights <- sorted_by_key balanced_key (AgentState.flight_options state) ;;
  match flights with
  | [] => Py.Ok None
  | _ =>
      selected_flight <- Py.index flights (List.length flights / 2)%nat ;;
      let hotels_by_price :=
        Py.sorted AccommodationOption.price_per_night
          (AgentState.accommodation_options state) in
      match hotels_by_price with
      | [] => Py.Ok None
      | _ =>
          h <- Py.index hotels_by_price
                 (mid_index (List.length hotels_by_price)) ;;
          let selected_hotels := [h] in
          it <- build state 60 "Balanced Option - " "Balanced Family"
                  balanced_summary balanced_why balanced_tradeoffs
                  selected_flight selected_hotels ;;
          Py.Ok (Some it)
      end
  end.

Definition _create_balanced_itinerary (state : AgentState)
  : option Itinerary :=
  Py.try_except (try_balanced_itinerary state) (fun _ => None).

Definition try_premium_itinerary (state : AgentState)
  : Py.result (option Itinerary) :=
  let flights :=
    Py.sorted_pair
      (fun f => (FlightOption.number_of_stops f,
                 FlightOption.total_duration_minutes f))
      (AgentState.flight_options state) in
  match flights with
  | [] => Py.Ok None
  | _ =>
      selected_flight <- Py.index flights 0 ;;
      let hotels_by_price :=
        Py.sorted_reverse AccommodationOption.price_per_night
          (AgentState.accommodation_options state) in
      match hotels_by_price with
      | [] => Py.Ok None
      | _ =>
          h <- Py.index hotels_by_price 0 ;;
          let selected_hotels := [h] in
          it <- build state 100 "Luxury Option - " "Luxury" premium_summary
                  premium_why premium_tradeoffs selected_flight
                  selected_hotels ;;
          Py.Ok (Some it)
      end
  end.

Definition _create_premium_itinerary (state : AgentState)
  : option Itinerary :=
  Py.try_except (try_premium_itinerary state) (fun _ => None).

Definition opt_to_list {A} (o : option A) : list A :=
  match o with
  | Some a => [a]
  | None => []
  end.

(** Nothing in the body of [synthesize] raises, the builders catch their
    own exceptions: its [except] branch is never taken. *)
Definition synthesize (state : AgentState) : AgentState :=
  let state :=
    AgentState.append_message
      "Synthesis Agent: Creating your personalized itineraries..." state in
  if negb (Py.truthy_list (AgentState.flight_options state))
     || negb (Py.truthy_list (AgentState.accommodation_options state))
  then
    let error_msg := "Synthesis Agent: Insufficient search results" in
    AgentState.append_message error_msg
      (AgentState.append_error error_msg state)
  else
    let itineraries :=
      opt_to_list (_create_budget_itinerary state)
      ++ opt_to_list (_create_balanced_itinerary state)
      ++ opt_to_list (_create_premium_itinerary state) in
    let state := AgentState.set_itineraries itineraries state in
    let state :=
      AgentState.append_message
        ("Synthesis Agent: Created " ++ Py.str_int (Py.len itineraries)
         ++ " complete itineraries")%string state in
    AgentState.set_current_step "synthesis_complete" state.

Definition synthesis_node (env : Env) (state : AgentState) : IO AgentState :=
  _ <~ IO.lift (SynthesisAgent_init env) ;;
  IO.ret (synthesize state).

(** ** Daily plans *)

(** The three sample activities, keyed 1 to 3. *)
Definition base_activities (style : string) (intent : TravelIntent)
  : list (Z * Activity) :=
  let destination := Py.str_or (TravelIntent.destination intent) "City" in
  let budget := String.eqb style "budget" in
  [ (1,
     Activity.mk
       ("Welcome to " ++ destination ++ " - City Walking Tour")%string
       "Orientation walk covering main landmarks and neighborhoods"
       "tour" 3%Q (if budget then 15%Q else 25%Q) "EUR"
       (destination ++ " Old Town")%string (Some 4.5%Q) None true None
       "low");
    (2,
     Activity.mk (destination ++ " Main Attraction Visit")%string
       "Explore the city's iconic landmark or museum"
       "cultural" 4%Q (if budget then 20%Q else 40%Q) "EUR"
       (destination ++ " Center")%string (Some 4.7%Q) None true None "low");
    (3,
     Activity.mk "Local Food Experience"
       "Food tour or cooking class featuring regional cuisine"
       "food" 3%Q (if budget then 40%Q else 80%Q) "EUR"
       (destination ++ " Market District")%string (Some 4.8%Q) None true
       None "low") ].

(** [d[k]] on a dict with int keys; KeyError when the key is missing. *)
Fixpoint dict_item {V} (d : list (Z * V)) (k : Z) : Py.result V :=
  match d with
  | [] => Py.Raise (Py.str_int k)
  | (k', v) :: d' => if k =? k' then Py.Ok v else dict_item d' k
  end.

Definition _generate_sample_activities (day_number : Z) (style : string)
    (intent : TravelIntent) : Py.result (list Activity) :=
  let activity_index := (day_number - 1) mod 3 + 1 in
  a <- dict_item (base_activities style intent) activity_index ;;
  Py.Ok [a].

(** The loop of [_generate_daily_plans], inside its [try]: the first
    exception ends it, and the plans made so far are kept. *)
Fixpoint plan_days (style : string) (hotels : list AccommodationOption)
    (intent : TravelIntent) (start_date : option date) (days : list Z)
    (daily_plans : list DayPlan) : list DayPlan :=
  match days with
  | [] => daily_plans
  | day :: days' =>
      match
        current_date <-
          match start_date with
          | Some d =>
              delta <- timedelta_days (day - 1) ;;
              current_date <- date_add d delta ;;
              Py.Ok (Some current_date)
          | None => Py.Ok None
          end ;;
        activities <- _generate_sample_activities day style intent ;;
        travelers <-
          Py.float_of_int
            (TravelIntent.num_adults intent
             + TravelIntent.num_children intent) ;;
        DayPlan.new day current_date
          (Py.str_or (TravelIntent.destination intent) "Destination")
          activities
          (match hotels with
           | h :: _ => Some h
           | [] => None
           end)
          (Py.sum_float (map Activity.price_per_person activities)
           * travelers)%Q
      with
      | Py.Ok daily_plan =>
          plan_days style hotels intent start_date days'
            (daily_plans ++ [daily_plan])
      | Py.Raise _ => daily_plans
      end
  end.

Definition _generate_daily_plans (state : AgentState) (style : string)
    (hotels : list AccommodationOption) : Py.result (list DayPlan) :=
  intent <- intent_of state ;;
  let duration := Py.int_or (TravelIntent.duration_days intent) 7 in
  let start_date := TravelIntent.departure_date intent in
  Py.Ok (plan_days style hotels intent start_date
           (Py.range 1 (duration + 1)) []).

End SynthesisAgent.

(* ================================================================== *)
(** * app/agents/intent_parser.py *)
(* ================================================================== *)

Module IntentParserAgent.

Definition understood_message (parsed_intent : TravelIntent) : string :=
  ("Intent Parser: Understood your request - "
   ++ Py.str_opt_int (TravelIntent.duration_days parsed_intent)
   ++ " days to "
   ++ Py.str_or (TravelIntent.destination parsed_intent)
        "flexible destination"
   ++ " for " ++ Py.str_int (TravelIntent.num_adults parsed_intent)
   ++ " adult(s)"
   ++ (if (0 <? TravelIntent.num_children parsed_intent)%Z
       then " and " ++ Py.str_int (TravelIntent.num_children parsed_intent)
            ++ " child(ren)"
       else ""))%string.

Definition parse_intent (env : Env) (state : AgentState) : AgentState :=
  match extract_intent env (AgentState.user_message state) with
  | Py.Ok parsed_intent =>
      let state :=
        AgentState.set_parsed_intent (Some parsed_intent) state in
      let state :=
        AgentState.append_message (understood_message parsed_intent)
          state in
      AgentState.set_current_step "intent_parsed" state
  | Py.Raise e =>
      let error_msg := ("Intent Parser Error: " ++ e)%string in
      AgentState.append_message error_msg
        (AgentState.append_error error_msg state)
  end.

(** Missing critical fields of a parsed intent. *)
Definition validate_intent (intent : TravelIntent) : bool * list string :=
  let missing_fields :=
    (if negb (Py.truthy_str (TravelIntent.destination intent))
     then ["destination"] else [])
    ++ (if negb (Py.truthy_opt (TravelIntent.departure_date intent))
           && negb (Py.truthy_int (TravelIntent.duration_days intent))
        then ["dates or duration"] else [])
    ++ (if negb (Py.truthy_float (TravelIntent.total_budget intent))
        then ["budget"] else []) in
  (Nat.eqb (List.length missing_fields) 0, missing_fields).

Definition parse_intent_node (env : Env) (state : AgentState)
  : IO AgentState :=
  _ <~ IO.lift (IntentParserAgent_init env) ;;
  IO.ret (parse_intent env state).

End IntentParserAgent.

(* ================================================================== *)
(** * app/agents/workflow.py *)
(* ================================================================== *)

Module TravelConciergeWorkflow.

(** What a conditional edge answers. *)
Inductive decision := continue | end_.

(** The state is shared by reference: what a gate appends to the error
    list is seen by everything that follows. *)
Definition _should_continue_after_intent (state : AgentState)
  : decision * AgentState :=
  match AgentState.parsed_intent state with
  | None => (end_, state)
  | Some intent =>
      if negb (Py.truthy_str (TravelIntent.destination intent))
         && negb (Py.truthy_float (TravelIntent.total_budget intent))
      then
        (end_,
         AgentState.append_error
           "Missing critical information: destination or budget" state)
      else (continue, state)
  end.

Definition _should_continue_after_search (state : AgentState)
  : decision * AgentState :=
  if negb (Py.truthy_list (AgentState.flight_options state))
     && negb (Py.truthy_list (AgentState.accommodation_options state))
  then
    (end_,
     AgentState.append_error
       "No travel options found matching your criteria" state)
  else
    let state :=
      if Py.len (AgentState.flight_options state) =? 0
      then AgentState.append_error "No flights available for your dates"
             state
      else state in
    (continue, state).

(** One node of the graph: its start is logged, then it runs. *)
Definition run_node (name : string) (node : AgentState -> IO AgentState)
    (state : AgentState) : IO AgentState :=
  _ <~ IO.log (Node name) ;;
  node state.

(** [compiled_graph.ainvoke]: the graph built by [_build_graph], from its
    entry point to END. *)
Definition ainvoke (env : Env) (initial_state : AgentState)
  : IO AgentState :=
  state <~
    run_node "parse_intent" (IntentParserAgent.parse_intent_node env)
      initial_state ;;
  match _should_continue_after_intent state with
  | (end_, state) => IO.ret state
  | (continue, state) =>
      state <~
        run_node "search" (SearchOrchestratorAgent.search_node env) state ;;
      state <~
        run_node "taste_profile" TasteProfilerAgent.taste_profile_node
          state ;;
      match _should_continue_after_search state with
      | (end_, state) => IO.ret state
      | (continue, state) =>
          run_node "synthesize" (SynthesisAgent.synthesis_node env) state
      end
  end.

(** The counts in the [metadata] of a result. *)
Record metadata := mk_metadata {
  num_flight_options : Z;
  num_hotel_options : Z;
  num_itineraries : Z
}.

(** The dictionary [run] returns; [metadata] is empty after an
    exception. *)
Record run_result := mk_result {
  success : bool;
  itineraries : list Itinerary;
  agent_messages : list string;
  errors : list string;
  parsed_intent : option TravelIntent;
  result_metadata : option metadata
}.

(** [run(user_message, user_id)], with the trace of the calls it made. *)
Definition run (env : Env) (user_message : string)
    (user_id : option string) : run_result * list Event :=
  let initial_state := AgentState.new user_message user_id in
  match ainvoke env initial_state [] with
  | (Py.Ok final_state, tr) =>
      (mk_result
         (0 <? Py.len (AgentState.itineraries final_state))
         (AgentState.itineraries final_state)
         (AgentState.agent_messages final_state)
         (AgentState.errors final_state)
         (AgentState.parsed_intent final_state)
         (Some
            (mk_metadata
               (Py.len (AgentState.flight_options final_state))
               (Py.len (AgentState.accommodation_options final_state))
               (Py.len (AgentState.itineraries final_state)))),
       tr)
  | (Py.Raise e, tr) =>
      (mk_result false [] [("Workflow error: " ++ e)%string] [e] None None,
       tr)
  end.

(** A request to a remote flight or lodging service. *)
Definition is_provider_call (e : Event) : bool :=
  match e with
  | Call _ _ => true
  | MockHotels => false
  | Node _ => false
  end.

End TravelConciergeWorkflow.

(* ================================================================== *)
(** * Definitions used to state the properties *)
(* ================================================================== *)

Module Statements.

(** Every price of a pool multiplied by [c]. *)
Definition scale_price (c : Q) (f : FlightOption) : FlightOption :=
  FlightOption.with_total_price (c * FlightOption.total_price f)%Q f.

(** The flight score as the specification words it: the stops component
    is [1 - stops/3] clamped at 0.  [max_price] and [max_duration] are the
    maxima of the pool. *)
Definition spec_flight_score (max_price : Q) (max_duration : Z)
    (f : FlightOption) : Q :=
  (0.5 * (1 - FlightOption.total_price f / max_price)
   + 0.3 * (1 - inject_Z (FlightOption.total_duration_minutes f)
                / inject_Z max_duration)
   + 0.2 * Py.max2 0 (1 - inject_Z (FlightOption.number_of_stops f) / 3))%Q.

(** The same formula without the clamp. *)
Definition unclamped_flight_score (max_price : Q) (max_duration : Z)
    (f : FlightOption) : Q :=
  (0.5 * (1 - FlightOption.total_price f / max_price)
   + 0.3 * (1 - inject_Z (FlightOption.total_duration_minutes f)
                / inject_Z max_duration)
   + 0.2 * (1 - inject_Z (FlightOption.number_of_stops f) / 3))%Q.

(** The price buckets of the lodging selections. *)
Definition low_bucket (h : AccommodationOption) : bool :=
  Py.Qltb (AccommodationOption.price_per_night h) 100.
Definition mid_bucket (h : AccommodationOption) : bool :=
  negb (Py.Qltb (AccommodationOption.price_per_night h) 100)
  && Py.Qltb (AccommodationOption.price_per_night h) 200.
Definition high_bucket (h : AccommodationOption) : bool :=
  negb (Py.Qltb (AccommodationOption.price_per_night h) 200).

(** How many elements of [l] satisfy [p]. *)
Definition count_if {A} (p : A -> bool) (l : list A) : nat :=
  List.length (filter p l).

(** The metric of the balanced flight ranking. *)
Definition balanced_metric (f : FlightOption) : Q :=
  (FlightOption.total_price f
   / inject_Z (24 - FlightOption.number_of_stops f * 8))%Q.

(** The sum of the total prices of a list of lodgings. *)
Definition lodging_total (l : list AccommodationOption) : Q :=
  fold_right (fun h acc => (AccommodationOption.total_price h + acc)%Q)
    0%Q l.

(** The food cost as the specification words it: the duration in days
    times the style rate times the count of all travelers. *)
Definition spec_food_cost (intent : TravelIntent) (rate : Z) : option Z :=
  match TravelIntent.duration_days intent with
  | Some d =>
      Some (d * rate
            * (TravelIntent.num_adults intent
               + TravelIntent.num_children intent
               + TravelIntent.num_infants intent))
  | None => None
  end.

(** The style rates of the three archetypes. *)
Definition style_rates : list (string * Z) :=
  [("Budget", 40); ("Balanced Family", 60); ("Luxury", 100)].

(** The routes of the Amadeus search in the order of the specification:
    the primary route, every alternative destination, every alternative
    origin, then the pairs of the first two alternative origins with the
    first two alternative destinations. *)
Definition amadeus_routes (origin_code dest_code : string)
    (origin_alternatives dest_alternatives : list string)
  : list (string * string) :=
  (origin_code, dest_code)
  :: map (fun alt_dest => (origin_code, alt_dest)) dest_alternatives
  ++ map (fun alt_origin => (alt_origin, dest_code)) origin_alternatives
  ++ list_prod (firstn 2 origin_alternatives) (firstn 2 dest_alternatives).

(** The calls to Amadeus on the first routes of [routes], one per outcome. *)
Definition route_calls (routes : list (string * string))
    (outcomes : list Outcome) : list Event :=
  map (fun ro => Call (AmadeusFlights (fst (fst ro)) (snd (fst ro))) (snd ro))
    (combine routes outcomes).

(** The origin, destination and dates a flight search needs. *)
Definition searchable (intent : TravelIntent) : bool :=
  Py.truthy_str (TravelIntent.origin intent)
  && Py.truthy_str (TravelIntent.destination intent)
  && Py.truthy_opt (TravelIntent.departure_date intent)
  && Py.truthy_opt (TravelIntent.return_date intent).

(** The request that reaches the first gate of a run, absent when the
    intent parser could not be built or the extraction failed. *)
Definition parsed_request (env : Env) (user_message : string)
    (user_id : option string) : option TravelIntent :=
  match IntentParserAgent.parse_intent_node env
          (AgentState.new user_message user_id) [] with
  | (Py.Ok state, _) => AgentState.parsed_intent state
  | (Py.Raise _, _) => None
  end.

(** Destination and total budget are both absent. *)
Definition lacks_destination_and_budget (intent : TravelIntent) : bool :=
  negb (Py.truthy_str (TravelIntent.destination intent))
  && negb (Py.truthy_float (TravelIntent.total_budget intent)).


(** Every range holds hotels of its own bucket only. *)
Definition ranges_ok (r : SearchOrchestratorAgent.price_ranges) : Prop :=
  Forall (fun h => low_bucket h = true) (SearchOrchestratorAgent.low r)
  /\ Forall (fun h => mid_bucket h = true) (SearchOrchestratorAgent.mid r)
  /\ Forall (fun h => high_bucket h = true) (SearchOrchestratorAgent.high r).

(** What one builder guarantees for the itinerary it returns, at its rate
    and with the flight and the lodging it selected from the pools. *)
Definition built_at (state : AgentState) (style_tag : string) (rate : Z)
    (it : Itinerary) : Prop :=
  exists intent,
    AgentState.parsed_intent state = Some intent
    /\ Itinerary.style_tag it = style_tag
    /\ In (Itinerary.flights it) (AgentState.flight_options state)
    /\ (forall h, In h (Itinerary.accommodations it) ->
                  In h (AgentState.accommodation_options state))
    /\ Itinerary.flight_cost it
       = FlightOption.total_price (Itinerary.flights it)
    /\ (Itinerary.accommodation_cost it
        == lodging_total (Itinerary.accommodations it))%Q
    /\ (Itinerary.activities_cost it == 0)%Q
    /\ (Itinerary.estimated_food_cost it
        == inject_Z
             (Py.int_or (TravelIntent.duration_days intent) 7 * rate
              * (TravelIntent.num_adults intent
                 + TravelIntent.num_children intent)))%Q
    /\ (Itinerary.total_cost it
        == Itinerary.flight_cost it + Itinerary.accommodation_cost it
           + Itinerary.activities_cost it
           + Itinerary.estimated_food_cost it)%Q.

(** One step of the Amadeus chain: the search of one route. *)
Definition amadeus_step (env : Env) (intent : TravelIntent)
    (max_results : nat) (route : string * string)
  : IO (list FlightOption) :=
  AmadeusFlightService._search_route env (fst route) (snd route) intent
    max_results.

(** Two results agree: the same exception, or related values. *)
Definition result_rel {A B} (R : A -> B -> Prop)
    (a : Py.result A) (b : Py.result B) : Prop :=
  match a, b with
  | Py.Ok x, Py.Ok y => R x y
  | Py.Raise e, Py.Raise e' => e = e'
  | _, _ => False
  end.

Definition map_result {A B} (f : A -> B) (r : Py.result A) : Py.result B :=
  match r with
  | Py.Ok a => Py.Ok (f a)
  | Py.Raise e => Py.Raise e
  end.

(** Every price of a pool multiplied by [c], in binary64. *)
Definition scale_price64 (c : float) (f : Binary64.flight)
  : Binary64.flight :=
  Binary64.mk_flight (PrimFloat.mul c (Binary64.total_price f))
    (Binary64.total_duration_minutes f) (Binary64.number_of_stops f).

(** The quotient of the price of a flight and the greatest price of its
    pool, as [score_flight] computes it. *)
Definition price_ratio64 (flights : list Binary64.flight)
    (f : Binary64.flight) : Py.result float :=
  max_price <- Binary64.max_float (map Binary64.total_price flights) ;;
  Binary64.truediv (Binary64.total_price f) max_price.

(** The flights the binary64 ranking speaks for: a price that is positive
    and finite, a duration and a number of stops that are not negative and
    convert to a float exactly.  Their scores are finite numbers. *)
Definition in_range64 (f : Binary64.flight) : Prop :=
  PrimFloat.ltb 0 (Binary64.total_price f) = true
  /\ PrimFloat.ltb (Binary64.total_price f) infinity = true
  /\ 0 <= Binary64.total_duration_minutes f < 2 ^ 53
  /\ 0 <= Binary64.number_of_stops f < 2 ^ 53.

(** [c] is the power of two [2^k], as a normal binary64 number: mantissa
    [2^52], exponent [k - 52]. *)
Definition power_of_two64 (c : float) (k : Z) : Prop :=
  Prim2SF c = S754_finite false 4503599627370496 (k - 52).

(** [x] is a positive normal number [m * 2^e], with [m] of 53 bits, and
    so is [x * 2^k]: both exponents are in the normal range. *)
Definition normal64 (k : Z) (x : float) : Prop :=
  exists m e,
    Prim2SF x = S754_finite false m e
    /\ -1074 < e <= 971
    /\ -1074 < e + k <= 971.

(** The flights the optimizer ranks: those within 40% of a budget that
    passes [if budget:], every flight otherwise. *)
Definition admissible_flights (flights : list FlightOption)
    (budget : option Q) : list FlightOption :=
  if Py.truthy_float budget
  then SearchOrchestratorAgent.budget_filter (Py.float_or budget 0) flights
  else flights.

(** The same for lodgings. *)
Definition admissible_hotels (hotels : list AccommodationOption)
    (budget : option Q) : list AccommodationOption :=
  if Py.truthy_float budget
  then filter
         (fun h =>
            Qle_bool (AccommodationOption.total_price h)
              (Py.float_or budget 0 * 0.4)%Q)
         hotels
  else hotels.

(** The kinds of events of a trace. *)
Definition is_node (e : Event) : bool :=
  match e with
  | Node _ => true
  | _ => false
  end.

Definition is_flight_call (e : Event) : bool :=
  match e with
  | Call (SerpAPI _ _) _ => true
  | Call (AmadeusFlights _ _) _ => true
  | _ => false
  end.

Definition is_lodging_event (e : Event) : bool :=
  match e with
  | Call Hotelbeds _ => true
  | Call AmadeusHotels _ => true
  | Call BookingCom _ => true
  | MockHotels => true
  | _ => false
  end.

(** [l] extends [l0] at its end. *)
Definition extends {A} (l l0 : list A) : Prop := exists more, l = l0 ++ more.

(** What the first loop of the diverse selection keeps true: its counters
    count what it selected, and stay within the caps. *)
Definition caps_kept (s : TasteProfilerAgent.selection) : Prop :=
  let selected := TasteProfilerAgent.selected s in
  let types_seen := TasteProfilerAgent.types_seen s in
  TasteProfilerAgent.n_low s = Z.of_nat (count_if low_bucket selected)
  /\ TasteProfilerAgent.n_mid s = Z.of_nat (count_if mid_bucket selected)
  /\ TasteProfilerAgent.n_high s = Z.of_nat (count_if high_bucket selected)
  /\ (forall type,
        TasteProfilerAgent.count_str type types_seen
        = Z.of_nat
            (count_if (fun h => String.eqb type (AccommodationOption.type h))
               selected))
  /\ TasteProfilerAgent.n_low s <= 4
  /\ TasteProfilerAgent.n_mid s <= 4
  /\ TasteProfilerAgent.n_high s <= 4
  /\ (forall type, TasteProfilerAgent.count_str type types_seen <= 3).

(** A budget that counts (present and not 0) is at least one unit of
    currency: 40% of it is then not so small that floating-point
    multiplication rounds it to 0. *)
Definition budget_not_tiny (intent : option TravelIntent) : Prop :=
  forall b, TasteProfilerAgent.budget_of intent = Some b -> (1 <= b)%Q.

(** The adults and children of a request are a number that converts to a
    float. *)
Definition travelers_bounded (intent : TravelIntent) : Prop :=
  Z.abs (TravelIntent.num_adults intent + TravelIntent.num_children intent)
  < 2 ^ 1000.

(** The person-days of a request are an integer that converts to a float
    (conversion raises OverflowError from about 2^1024 on). *)
Definition person_days_bounded (intent : option TravelIntent) : Prop :=
  match intent with
  | Some intent =>
      Z.abs (Py.int_or (TravelIntent.duration_days intent) 7
             * (TravelIntent.num_adults intent
                + TravelIntent.num_children intent))
      < 2 ^ 1000
  | None => True
  end.

(** A cap of the first loop is reached in [l] for the price bucket or for
    the type of [h]: [h] cannot be added to [l]. *)
Definition cap_reached (l : list AccommodationOption)
    (h : AccommodationOption) : Prop :=
  (low_bucket h = true /\ count_if low_bucket l = 4%nat)
  \/ (mid_bucket h = true /\ count_if mid_bucket l = 4%nat)
  \/ (high_bucket h = true /\ count_if high_bucket l = 4%nat)
  \/ count_if
       (fun h' =>
          String.eqb (AccommodationOption.type h)
            (AccommodationOption.type h')) l
     = 3%nat.

(** The key a location is looked up with in the city tables. *)
Definition city_key (location : string) : string :=
  PyStr.strip (PyStr.lower (PyStr.strip_country location)).

(** A string of decimal digits. *)
Fixpoint all_digits (s : string) : bool :=
  match s with
  | EmptyString => true
  | String c s' => PyStr.is_digit c && all_digits s'
  end.

(** What a daily plan for [day] looks like, for a trip that starts on
    [start]. *)
Definition plan_of_day (style : string) (hotels : list AccommodationOption)
    (intent : TravelIntent) (start : date) (day : Z) (plan : DayPlan)
  : Prop :=
  DayPlan.day_number plan = day
  /\ DayPlan.date_ plan = start + (day - 1)
  /\ DayPlan.location plan
     = Py.str_or (TravelIntent.destination intent) "Destination"
  /\ DayPlan.accommodation plan = hd_error hotels
  /\ exists activity,
       SynthesisAgent._generate_sample_activities day style intent
       = Py.Ok [activity]
       /\ DayPlan.activities plan = [activity]
       /\ (DayPlan.estimated_cost plan
           == Activity.price_per_person activity
              * inject_Z (TravelIntent.num_adults intent
                          + TravelIntent.num_children intent))%Q.

(** The airport codes the SerpAPI client sends. *)
Definition departure_id (env : Env) (intent : TravelIntent) : string :=
  _get_airport_code env (Py.str_opt_str (TravelIntent.origin intent)).
Definition arrival_id (env : Env) (intent : TravelIntent) : string :=
  _get_airport_code env (Py.str_opt_str (TravelIntent.destination intent)).

(** The lexicographic order of the premium flight ranking. *)
Definition stops_then_duration_le (a b : FlightOption) : Prop :=
  FlightOption.number_of_stops a < FlightOption.number_of_stops b
  \/ (FlightOption.number_of_stops a = FlightOption.number_of_stops b
      /\ FlightOption.total_duration_minutes a
         <= FlightOption.total_duration_minutes b).

End Statements.

(* ================================================================== *)
(** * Sample data *)
(* ================================================================== *)

Module Samples.

Definition segment (origin destination : string) (minutes : Z)
  : FlightSegment :=
  FlightSegment.mk origin destination 0 0 "SK" "SK681" minutes None
    "economy".

(** A Copenhagen - Rome round trip. *)
Definition flight (price : Q) (duration stops : Z) : FlightOption :=
  FlightOption.mk [segment "CPH" "FCO" 155] [segment "FCO" "CPH" 160]
    price "EUR" duration stops None "amadeus" 0.

Definition flight_500 : FlightOption := flight 500 315 0.
Definition flight_900 : FlightOption := flight 900 300 0.

(** Two connections each way, and a dearer offer with three stops. *)
Definition flight_four_stops : FlightOption := flight 90 600 4.
Definition flight_three_stops : FlightOption := flight 100 600 3.

Definition hotel (name : string) (price_per_night total_price : Q)
  : AccommodationOption :=
  AccommodationOption.mk name "hotel" "Via Cavour 1" "Rome" "Italy"
    price_per_night total_price "EUR" (Some 4.2%Q) (Some 120) ["WiFi"]
    (Some "Standard Room") 739000 739010 None None (Some 1.5%Q) None
    "hotelbeds" 0.

Definition hotel_80 : AccommodationOption := hotel "Pensione Aurora" 80 800.
Definition hotel_220 : AccommodationOption := hotel "Grand Hotel" 220 2200.

(** Rome from Copenhagen, two adults, 5000 EUR. *)
Definition intent (duration_days : option Z) : TravelIntent :=
  TravelIntent.mk (Some "Copenhagen") (Some "Rome, Italy") None None
    (Some 739000) (Some 739010) duration_days 3 [] 2 0 0 (Some 5000%Q)
    0.1%Q ["balanced"] TravelStyle.BALANCED ["hotel"; "apartment"] [] [] []
    [] None [].

(** A state as it reaches the synthesis agent. *)
Definition ranked_state (duration_days : option Z)
    (flights : list FlightOption) (hotels : list AccommodationOption)
  : AgentState :=
  AgentState.mk "Rome for 10 days with 5000 EUR, from Copenhagen, 2 adults"
    None None (Some (intent duration_days)) flights hotels [] None [] []
    "taste_profiled" [].

Definition state_two_hotels : AgentState :=
  ranked_state (Some 10) [flight_500; flight_900] [hotel_220; hotel_80].

(** The parsed duration is zero days. *)
Definition state_zero_days : AgentState :=
  ranked_state (Some 0) [flight_500] [hotel_80].

(** The same party with an infant, for ten days. *)
Definition intent_with_infant : TravelIntent :=
  TravelIntent.mk (Some "Copenhagen") (Some "Rome, Italy") None None
    (Some 739000) (Some 739010) (Some 10) 3 [] 2 0 1 (Some 5000%Q)
    0.1%Q ["balanced"] TravelStyle.BALANCED ["hotel"; "apartment"] [] [] []
    [] None [].

Definition state_with_infant : AgentState :=
  AgentState.mk
    "Rome for 10 days with 5000 EUR, from Copenhagen, 2 adults and a baby"
    None None (Some intent_with_infant) [flight_500] [hotel_80] [] None []
    [] "taste_profiled" [].

(** A ten-day trip that starts on 9999-12-30, the last day but one of
    the calendar. *)
Definition intent_last_days : TravelIntent :=
  TravelIntent.mk (Some "Copenhagen") (Some "Rome, Italy") None None
    (Some (date_max - 1)) None (Some 10) 3 [] 2 0 0 (Some 5000%Q)
    0.1%Q ["balanced"] TravelStyle.BALANCED ["hotel"; "apartment"] [] [] []
    [] None [].

Definition state_last_days : AgentState :=
  AgentState.mk "Rome for 10 days from 30 December 9999"
    None None (Some intent_last_days) [flight_500] [hotel_80] [] None []
    [] "taste_profiled" [].

(** A run of [n] digits. *)
Fixpoint ones (n : nat) : string :=
  match n with
  | O => EmptyString
  | S n' => String "1" (ones n')
  end.

(** Entries of the city tables of the clients. *)
Definition iata_code (location : string) : string :=
  if String.eqb location "Copenhagen" then "CPH"
  else if String.eqb location "Rome, Italy" then "ROM"
  else if String.eqb location "Paris, France" then "PAR"
  else "XXX".

Definition alternative_airports (city primary_code : string)
  : list string :=
  if String.eqb city "Rome, Italy" then ["FCO"; "CIA"]
  else if String.eqb city "Paris, France" then ["CDG"; "ORY"]
  else [].

(** An installation with the given keys and remote services.  The random
    generator always draws the lower bound and [round] is exact. *)
Definition make_env (serpapi_key : string)
    (hotelbeds_key booking_key : option string)
    (google_flights :
       list Event -> string -> string -> TravelIntent ->
       Py.result (list FlightOption))
    (flight_offers_search :
       list Event -> string -> string -> TravelIntent -> nat ->
       Py.result (list FlightOption))
    (hotelbeds amadeus_hotels booking :
       list Event -> TravelIntent -> nat ->
       Py.result (list AccommodationOption))
    (extract_intent : string -> Py.result TravelIntent) : Env :=
  Build_Env serpapi_key hotelbeds_key hotelbeds_key booking_key
    iata_code iata_code alternative_airports
    google_flights flight_offers_search
    hotelbeds amadeus_hotels booking
    (fun _ a _ => a) (fun _ a _ => a) (fun q _ => q)
    739000 0 extract_intent (Py.Ok tt) (Py.Ok tt) (Py.Ok tt).

Definition no_flights
  : list Event -> string -> string -> TravelIntent ->
    Py.result (list FlightOption) :=
  fun _ _ _ _ => Py.Raise "connection refused".

Definition no_offers
  : list Event -> string -> string -> TravelIntent -> nat ->
    Py.result (list FlightOption) :=
  fun _ _ _ _ _ => Py.Raise "connection refused".

Definition no_hotels
  : list Event -> TravelIntent -> nat ->
    Py.result (list AccommodationOption) :=
  fun _ _ _ => Py.Raise "connection refused".

(** No key is configured and no remote service answers. *)
Definition offline (extract_intent : string -> Py.result TravelIntent)
  : Env :=
  make_env "" (Some "") (Some "") no_flights no_offers no_hotels no_hotels
    no_hotels extract_intent.


(** Google Flights finds nothing; Amadeus has one offer, into Ciampino. *)
Definition ciampino_only : Env :=
  make_env "key" (Some "") (Some "")
    (fun _ _ _ _ => Py.Ok [])
    (fun _ origin dest _ _ =>
       if String.eqb origin "CPH" && String.eqb dest "CIA"
       then Py.Ok [flight_500] else Py.Ok [])
    no_hotels no_hotels no_hotels
    (fun _ => Py.Ok (intent (Some 10))).

(** A request from which neither destination nor budget was extracted. *)
Definition vague_intent : TravelIntent :=
  TravelIntent.mk (Some "Copenhagen") None None None None None None 3 []
    1 0 0 None 0.1%Q ["balanced"] TravelStyle.BALANCED ["hotel"; "apartment"]
    [] [] [] [] None [].

(** Offline, with an intent parser that extracts the vague request. *)
Definition offline_vague : Env := offline (fun _ => Py.Ok vague_intent).

(** Two direct flights, the dearer one twice as fast, and the factor
    0.92 (the binary64 number nearest to it). *)
Definition flight64_fast : Binary64.flight :=
  Binary64.mk_flight 100 300 0.
Definition flight64_cheap : Binary64.flight :=
  Binary64.mk_flight 70 600 0.
Definition factor_092 : float := 0x1.d70a3d70a3d71p-1%float.

(** An award ticket: the fare is zero. *)
Definition flight_free : FlightOption := flight 0 315 0.

(** An installation with the city tables of the two flight clients, a
    SerpAPI key, and no remote service that answers. *)
Definition with_city_tables : Env :=
  Build_Env "key" None None None
    SerpAPIFlightService._get_airport_code
    AmadeusFlightService._get_iata_code
    AmadeusFlightService._get_alternative_airports
    no_flights no_offers no_hotels no_hotels no_hotels
    (fun _ a _ => a) (fun _ a _ => a) (fun q _ => q)
    739000 0 (fun _ => Py.Ok (intent (Some 10)))
    (Py.Ok tt) (Py.Ok tt) (Py.Ok tt).

End Samples.

(* ================================================================== *)
(** * Properties *)
(* ================================================================== *)


(** ** Facts about the run-time conventions *)

Module PyFacts.

Lemma Qltb_lt (x y : Q) : Py.Qltb x y = true <-> (x < y)%Q.
Proof.
  unfold Py.Qltb. rewrite negb_true_iff. split; intro H.
  - apply Qnot_le_lt. intro Hle. apply Qle_bool_iff in Hle. congruence.
  - destruct (Qle_bool y x) eqn:E; [|reflexivity].
    apply Qle_bool_iff in E. exfalso. exact (Qlt_not_le _ _ H E).
Qed.

Lemma Qltb_ge (x y : Q) : Py.Qltb x y = false <-> (y <= x)%Q.
Proof.
  unfold Py.Qltb. rewrite negb_false_iff. apply Qle_bool_iff.
Qed.

Lemma Qltb_compat (x x' y y' : Q) :
  (x == x')%Q -> (y == y')%Q -> Py.Qltb x y = Py.Qltb x' y'.
Proof.
  intros Hx Hy. unfold Py.Qltb. now rewrite Hx, Hy.
Qed.

Lemma truthy_float_Some (b : Q) :
  Py.truthy_float (Some b) = true <-> ~ (b == 0)%Q.
Proof.
  simpl. rewrite negb_true_iff. split; intro H.
  - intro E. apply Qeq_bool_iff in E. congruence.
  - destruct (Qeq_bool b 0) eqn:E; [|reflexivity].
    apply Qeq_bool_iff in E. contradiction.
Qed.

(** *** [mapM] *)

Lemma mapM_Ok_map {A B} (f : A -> Py.result B) (g : A -> B) (l : list A) :
  (forall x, In x l -> f x = Py.Ok (g x)) ->
  Py.mapM f l = Py.Ok (map g l).
Proof.
  induction l as [|x l IH]; intro H; simpl; [reflexivity|].
  rewrite (H x (or_introl eq_refl)). simpl.
  rewrite IH by (intros y Hy; apply H; now right). reflexivity.
Qed.

Lemma mapM_total {A B} (f : A -> Py.result B) (l : list A) :
  (forall x, In x l -> exists y, f x = Py.Ok y) ->
  exists r, Py.mapM f l = Py.Ok r.
Proof.
  induction l as [|x l IH]; intro H; simpl.
  - now exists [].
  - destruct (H x (or_introl eq_refl)) as [y Hy]. rewrite Hy. simpl.
    destruct IH as [r Hr]; [intros z Hz; apply H; now right|].
    rewrite Hr. simpl. now exists (y :: r).
Qed.

(** With a key attached to every element, the elements are unchanged. *)
Lemma mapM_keyed_fst {A K} (key : A -> Py.result K) (l : list A)
    (r : list (A * K)) :
  Py.mapM (fun x => Py.bind (key x) (fun k => Py.Ok (x, k))) l = Py.Ok r ->
  map fst r = l /\ Forall (fun p => key (fst p) = Py.Ok (snd p)) r.
Proof.
  revert r. induction l as [|x l IH]; intros r H; simpl in H.
  - inversion H. split; constructor.
  - destruct (key x) as [k|e] eqn:Ek; simpl in H; [|discriminate].
    destruct (Py.mapM _ l) as [ys|e] eqn:El; simpl in H; [|discriminate].
    inversion H; subst. destruct (IH ys eq_refl) as [H1 H2].
    split; simpl; [now rewrite H1|]. constructor; assumption.
Qed.

(** *** Sorting *)

Section Sorting.
Context {A : Type} (before : A -> A -> bool).

Lemma insert_by_perm (x : A) (l : list A) :
  Permutation (Py.insert_by before x l) (x :: l).
Proof.
  induction l as [|y l IH]; simpl; [reflexivity|].
  destruct (before y x); [|reflexivity].
  rewrite IH. apply perm_swap.
Qed.

Lemma sort_by_perm (l : list A) : Permutation (Py.sort_by before l) l.
Proof.
  induction l as [|x l IH]; simpl; [reflexivity|].
  unfold Py.sort_by in *. simpl.
  rewrite insert_by_perm. now constructor.
Qed.

Lemma sort_by_In (x : A) (l : list A) :
  In x (Py.sort_by before l) <-> In x l.
Proof.
  split; apply Permutation_in;
    [apply sort_by_perm | apply Permutation_sym, sort_by_perm].
Qed.

Lemma sort_by_length (l : list A) :
  List.length (Py.sort_by before l) = List.length l.
Proof. apply Permutation_length, sort_by_perm. Qed.

(** [le x y]: [y] does not have to come strictly before [x]. *)
Let le (x y : A) : Prop := before y x = false.

Hypothesis le_total : forall x y, before x y = true -> before y x = false.
Hypothesis le_trans :
  forall x y z, before y x = false -> before z y = false ->
                before z x = false.

Lemma insert_by_sorted (x : A) (l : list A) :
  StronglySorted le l -> StronglySorted le (Py.insert_by before x l).
Proof.
  induction 1 as [|y l Hs IH Hall]; simpl.
  - constructor; constructor.
  - destruct (before y x) eqn:E.
    + constructor; [assumption|].
      apply Forall_forall. intros z Hz.
      apply (Permutation_in _ (insert_by_perm x l)) in Hz.
      destruct Hz as [<-|Hz].
      * apply le_total. exact E.
      * rewrite Forall_forall in Hall. now apply Hall.
    + constructor; [constructor; assumption|].
      constructor; [exact E|].
      rewrite Forall_forall in *. intros z Hz.
      unfold le. apply le_trans with y; [exact E | apply Hall, Hz].
Qed.

Lemma sort_by_sorted (l : list A) : StronglySorted le (Py.sort_by before l).
Proof.
  induction l as [|x l IH]; [constructor|].
  unfold Py.sort_by in *. simpl. now apply insert_by_sorted.
Qed.
End Sorting.

(** Two lists related element by element stay related when sorted, if the
    two orders agree on related elements. *)
Section SortRel.
Context {A B : Type} (R : A -> B -> Prop).
Context (beforeA : A -> A -> bool) (beforeB : B -> B -> bool).
Hypothesis agree :
  forall x x' y y', R x x' -> R y y' -> beforeA x y = beforeB x' y'.

Lemma insert_by_rel x x' l l' :
  R x x' -> Forall2 R l l' ->
  Forall2 R (Py.insert_by beforeA x l) (Py.insert_by beforeB x' l').
Proof.
  intros Hx Hl. induction Hl as [|y y' l l' Hy Hl IH]; simpl.
  - constructor; [assumption|constructor].
  - rewrite (agree Hy Hx). destruct (beforeB y' x').
    + constructor; assumption.
    + constructor; [assumption|]. constructor; assumption.
Qed.

Lemma sort_by_rel l l' :
  Forall2 R l l' ->
  Forall2 R (Py.sort_by beforeA l) (Py.sort_by beforeB l').
Proof.
  induction 1 as [|x x' l l' Hx Hl IH]; [constructor|].
  unfold Py.sort_by in *. simpl. now apply insert_by_rel.
Qed.
End SortRel.

Lemma StronglySorted_impl {A} (P P' : A -> A -> Prop) (l : list A) :
  (forall a b, P a b -> P' a b) -> StronglySorted P l -> StronglySorted P' l.
Proof.
  intros HP. induction 1 as [|x l Hs IH Hall]; constructor; [assumption|].
  eapply Forall_impl; [|exact Hall]. intros a Ha. now apply HP.
Qed.

Lemma sorted_sorted {A} (key : A -> Q) (l : list A) :
  StronglySorted (fun a b => (key a <= key b)%Q) (Py.sorted key l).
Proof.
  unfold Py.sorted.
  eapply StronglySorted_impl; [|apply sort_by_sorted].
  - intros a b H. simpl in H. now apply Qltb_ge in H.
  - intros x y H. apply Qltb_ge. apply Qltb_lt in H. now apply Qlt_le_weak.
  - intros x y z H1 H2. apply Qltb_ge. apply Qltb_ge in H1, H2.
    eapply Qle_trans; eassumption.
Qed.

Lemma sorted_reverse_sorted {A} (key : A -> Q) (l : list A) :
  StronglySorted (fun a b => (key b <= key a)%Q) (Py.sorted_reverse key l).
Proof.
  unfold Py.sorted_reverse.
  eapply StronglySorted_impl; [|apply sort_by_sorted].
  - intros a b H. simpl in H. now apply Qltb_ge in H.
  - intros x y H. apply Qltb_ge. apply Qltb_lt in H. now apply Qlt_le_weak.
  - intros x y z H1 H2. apply Qltb_ge. apply Qltb_ge in H1, H2.
    eapply Qle_trans; eassumption.
Qed.

End PyFacts.

(** ** The flight optimizer *)

Module FlightOptimizerFacts.
Import SearchOrchestratorAgent.

Lemma take_In {A} (n : nat) (l : list A) (x : A) :
  In x (Py.take n l) -> In x l.
Proof. unfold Py.take. revert l. induction n; intros [|y l] H; simpl in *;
  try contradiction. destruct H as [H|H]; [now left | right; auto]. Qed.

Lemma take_length {A} (n : nat) (l : list A) :
  (List.length (Py.take n l) <= n)%nat.
Proof. unfold Py.take. apply firstn_le_length. Qed.

(** What the ranking returns was in the pool. *)
Lemma rank_flights_In flights r f :
  rank_flights flights = Py.Ok r -> In f r -> In f flights.
Proof.
  unfold rank_flights. intros H Hf.
  destruct (Py.mapM _ flights) as [ws|e] eqn:E; simpl in H; [|discriminate].
  inversion H; subst; clear H.
  apply PyFacts.mapM_keyed_fst in E. destruct E as [E _].
  rewrite <- E. apply in_map_iff in Hf. destruct Hf as [p [<- Hp]].
  apply in_map. apply take_In in Hp.
  unfold Py.sorted_reverse in Hp. now apply PyFacts.sort_by_In in Hp.
Qed.

Lemma rank_flights_length flights r :
  rank_flights flights = Py.Ok r -> (List.length r <= 10)%nat.
Proof.
  unfold rank_flights. intros H.
  destruct (Py.mapM _ flights) as [ws|e] eqn:E; simpl in H; [|discriminate].
  inversion H; subst. rewrite length_map. apply take_length.
Qed.

Lemma budget_filter_In (b : Q) flights f :
  In f (budget_filter b flights) <->
  In f flights /\ (FlightOption.total_price f <= 0.4 * b)%Q.
Proof.
  unfold budget_filter. rewrite filter_In, Qle_bool_iff.
  now rewrite (Qmult_comm b).
Qed.

Lemma min_float_le (l : list Q) (m : Q) :
  Py.min_float l = Py.Ok m -> forall x, In x l -> (m <= x)%Q.
Proof.
  destruct l as [|a l]; simpl; [discriminate|]. intro H. injection H as <-.
  assert (G : forall l a,
             (fold_left (fun m y => if Py.Qltb y m then y else m) l a <= a)%Q
             /\ forall x, In x l ->
                  (fold_left (fun m y => if Py.Qltb y m then y else m) l a
                   <= x)%Q).
  { clear. induction l as [|y l IH]; intro a; simpl.
    - split; [apply Qle_refl | contradiction].
    - destruct (Py.Qltb y a) eqn:E.
      + destruct (IH y) as [H1 H2]. apply PyFacts.Qltb_lt in E.
        split; [eapply Qle_trans; [exact H1 | now apply Qlt_le_weak]|].
        intros x [<-|Hx]; auto.
      + destruct (IH a) as [H1 H2]. apply PyFacts.Qltb_ge in E.
        split; [exact H1|].
        intros x [<-|Hx]; [eapply Qle_trans; eassumption | auto]. }
  destruct (G l a) as [G1 G2]. intros x [<-|Hx]; [exact G1 | now apply G2].
Qed.

Lemma _optimize_flights_budget (b : Q) flights :
  Qeq_bool b 0 = false -> flights <> [] ->
  _optimize_flights flights (Some b)
  = match budget_filter b flights with
    | [] => Py.Ok []
    | _ :: _ => rank_flights (budget_filter b flights)
    end.
Proof.
  intros Hz Hne. unfold _optimize_flights.
  destruct flights as [|f0 fs]; [congruence|].
  cbn [Py.truthy_list negb]. rewrite Hz.
  now destruct (budget_filter b (f0 :: fs)).
Qed.

Lemma _optimize_flights_In (b : Q) flights r f :
  Qeq_bool b 0 = false ->
  _optimize_flights flights (Some b) = Py.Ok r -> In f r ->
  In f (budget_filter b flights).
Proof.
  intros Hz H Hf. destruct flights as [|f0 fs].
  - inversion H; subst. contradiction.
  - rewrite _optimize_flights_budget in H by congruence.
    destruct (budget_filter b (f0 :: fs)) as [|g gs] eqn:E.
    + inversion H; subst. contradiction.
    + now apply (rank_flights_In H).
Qed.

End FlightOptimizerFacts.

(** ** Scaling every price of a pool *)

Module ScaleFacts.
Import SearchOrchestratorAgent Statements.

Lemma Qle_bool_scale (c x y : Q) :
  (0 < c)%Q -> Qle_bool (c * x) (c * y) = Qle_bool x y.
Proof.
  intro Hc. apply eq_true_iff_eq. rewrite !Qle_bool_iff.
  now apply Qmult_le_l.
Qed.

Lemma Qltb_scale (c x y : Q) :
  (0 < c)%Q -> Py.Qltb (c * x) (c * y) = Py.Qltb x y.
Proof. intro Hc. unfold Py.Qltb. now rewrite Qle_bool_scale. Qed.

Lemma Qeq_bool_scale_0 (c x : Q) :
  (0 < c)%Q -> Qeq_bool (c * x) 0 = Qeq_bool x 0.
Proof.
  intro Hc. apply eq_true_iff_eq. rewrite !Qeq_bool_iff. split; intro H.
  - apply Qmult_integral in H. destruct H as [H|H]; [|exact H].
    rewrite H in Hc. inversion Hc.
  - rewrite H. ring.
Qed.

Lemma fold_max_scale (c : Q) (l : list Q) (x : Q) :
  (0 < c)%Q ->
  fold_left (fun m y => if Py.Qltb m y then y else m) (map (Qmult c) l)
    (c * x)%Q
  = (c * fold_left (fun m y => if Py.Qltb m y then y else m) l x)%Q.
Proof.
  intro Hc. revert x. induction l as [|y l IH]; intro x; simpl;
    [reflexivity|].
  rewrite Qltb_scale by assumption.
  destruct (Py.Qltb x y); apply IH.
Qed.

Lemma max_float_scale (c : Q) (flights : list FlightOption) :
  (0 < c)%Q ->
  Py.max_float (map FlightOption.total_price (map (scale_price c) flights))
  = map_result (Qmult c)
      (Py.max_float (map FlightOption.total_price flights)).
Proof.
  intro Hc. rewrite map_map. destruct flights as [|f fs]; [reflexivity|].
  simpl. f_equal. rewrite <- fold_max_scale by assumption.
  now rewrite map_map.
Qed.

Lemma durations_scale (c : Q) (flights : list FlightOption) :
  map FlightOption.total_duration_minutes (map (scale_price c) flights)
  = map FlightOption.total_duration_minutes flights.
Proof. rewrite map_map. reflexivity. Qed.

(** The score of a flight does not change with the scale of the prices. *)
Lemma score_flight_scale (c : Q) flights f :
  (0 < c)%Q ->
  result_rel Qeq (score_flight flights f)
    (score_flight (map (scale_price c) flights) (scale_price c f)).
Proof.
  intro Hc. unfold score_flight.
  rewrite max_float_scale, durations_scale by assumption.
  destruct (Py.max_float (map FlightOption.total_price flights))
    as [m|e]; simpl; [|reflexivity].
  unfold Py.truediv at 1 3. rewrite Qeq_bool_scale_0 by assumption.
  destruct (Qeq_bool m 0) eqn:Em; simpl; [reflexivity|].
  destruct (Py.max_int _) as [d|e]; simpl; [|reflexivity].
  destruct (Py.truediv _ (inject_Z d)) as [r|e]; simpl; [|reflexivity].
  assert (Hm : ~ (m == 0)%Q) by (now apply Qeq_bool_neq).
  assert (Hc0 : ~ (c == 0)%Q).
  { intro E. rewrite E in Hc. inversion Hc. }
  assert (E : (c * FlightOption.total_price f / (c * m)
               == FlightOption.total_price f / m)%Q) by (now field).
  now rewrite E.
Qed.

Lemma mapM_rel {A B A' B'} (R : B -> B' -> Prop)
    (f : A -> Py.result B) (f' : A' -> Py.result B') (g : A -> A')
    (l : list A) :
  (forall x, result_rel R (f x) (f' (g x))) ->
  result_rel (Forall2 R) (Py.mapM f l) (Py.mapM f' (map g l)).
Proof.
  intro H. induction l as [|x l IH]; simpl; [constructor|].
  specialize (H x).
  destruct (f x) as [y|e], (f' (g x)) as [y'|e']; simpl in *;
    try contradiction; [|assumption].
  destruct (Py.mapM f l) as [ys|e], (Py.mapM f' (map g l)) as [ys'|e'];
    simpl in *; try contradiction; [|assumption].
  now constructor.
Qed.

Lemma Forall2_take {A B} (R : A -> B -> Prop) (n : nat) l l' :
  Forall2 R l l' -> Forall2 R (Py.take n l) (Py.take n l').
Proof.
  unfold Py.take. intro H. revert n.
  induction H; intros [|n]; simpl; constructor; auto.
Qed.

(** Computed on exact rationals, the ranking does not change when every
    total price is multiplied by a constant c > 0: the same flights come
    in the same order (each at its scaled price), and the ranking fails on
    the scaled pool exactly when it fails on the original one.  The code
    computes on binary64 numbers, where this fails ([FloatRankingFacts]
    below). *)
Lemma exact_ranking_scale_invariant (flights : list FlightOption)
    (c : Q) :
  (0 < c)%Q ->
  rank_flights (map (scale_price c) flights)
  = map_result (map (scale_price c)) (rank_flights flights)
  /\ _optimize_flights (map (scale_price c) flights) None
     = map_result (map (scale_price c)) (_optimize_flights flights None).
Proof.
  intro Hc.
  assert (Hrank : rank_flights (map (scale_price c) flights)
                  = map_result (map (scale_price c)) (rank_flights flights)).
  { unfold rank_flights.
    pose (R := fun (p : FlightOption * Q) (p' : FlightOption * Q) =>
                 fst p' = scale_price c (fst p) /\ (snd p == snd p')%Q).
    assert (HM := @mapM_rel _ _ _ _ R
      (fun f => s <- score_flight flights f ;; Py.Ok (f, s))
      (fun f => s <- score_flight (map (scale_price c) flights) f ;;
                Py.Ok (f, s))
      (scale_price c) flights).
    match type of HM with ?P -> _ => assert (HP : P) end.
    { intro f. pose proof (score_flight_scale flights f Hc) as Hs.
      destruct (score_flight flights f) as [s|e],
               (score_flight (map (scale_price c) flights) (scale_price c f))
                 as [s'|e']; simpl in *; try contradiction; [|assumption].
      split; [reflexivity | assumption]. }
    specialize (HM HP). clear HP.
    destruct (Py.mapM _ flights) as [ws|e],
             (Py.mapM _ (map (scale_price c) flights)) as [ws'|e'];
      simpl in HM |- *; try contradiction; [|now subst].
    f_equal.
    assert (HS : Forall2 R (Py.take 10 (Py.sorted_reverse snd ws))
                   (Py.take 10 (Py.sorted_reverse snd ws'))).
    { apply Forall2_take. unfold Py.sorted_reverse.
      apply PyFacts.sort_by_rel with (R := R); [|assumption].
      intros x x' y y' [_ Hx] [_ Hy]. now apply PyFacts.Qltb_compat. }
    induction HS as [|p p' l l' [Hp _] _ IH]; simpl; [reflexivity|].
    now rewrite Hp, IH. }
  split; [exact Hrank|].
  unfold _optimize_flights.
  destruct flights as [|f fs]; [reflexivity|]. exact Hrank.
Qed.

End ScaleFacts.

(** ** The flight ranking on binary64 numbers *)

Module FloatRankingFacts.
Import Statements.

Lemma mapM_rel_In {A B A' B'} (R : B -> B' -> Prop)
    (f : A -> Py.result B) (f' : A' -> Py.result B') (g : A -> A')
    (l : list A) :
  (forall x, In x l -> result_rel R (f x) (f' (g x))) ->
  result_rel (Forall2 R) (Py.mapM f l) (Py.mapM f' (map g l)).
Proof.
  intro H. induction l as [|x l IH]; simpl; [constructor|].
  pose proof (H x (or_introl eq_refl)) as Hx.
  specialize (IH (fun y Hy => H y (or_intror Hy))).
  destruct (f x) as [y|e], (f' (g x)) as [y'|e']; simpl in *;
    try contradiction; [|assumption].
  destruct (Py.mapM f l) as [ys|e], (Py.mapM f' (map g l)) as [ys'|e'];
    simpl in *; try contradiction; [|assumption].
  now constructor.
Qed.

(** The score reads the prices through the quotient of the price and the
    greatest price only. *)
Lemma score_flight_ratio flights flights' f f' :
  price_ratio64 flights' f' = price_ratio64 flights f ->
  map Binary64.total_duration_minutes flights'
  = map Binary64.total_duration_minutes flights ->
  Binary64.total_duration_minutes f' = Binary64.total_duration_minutes f ->
  Binary64.number_of_stops f' = Binary64.number_of_stops f ->
  Binary64.score_flight flights' f' = Binary64.score_flight flights f.
Proof.
  intros Hr Hd Hf Hs. unfold Binary64.score_flight, price_ratio64 in *.
  rewrite Hd, Hf, Hs.
  destruct (Binary64.max_float (map Binary64.total_price flights'))
    as [m'|e'],
    (Binary64.max_float (map Binary64.total_price flights)) as [m|e];
    cbn [Py.bind] in *;
    first [ rewrite Hr; reflexivity
          | rewrite <- Hr; reflexivity
          | injection Hr as ->; reflexivity ].
Qed.

Lemma scale_durations (c : float) (flights : list Binary64.flight) :
  map Binary64.total_duration_minutes (map (scale_price64 c) flights)
  = map Binary64.total_duration_minutes flights.
Proof. rewrite map_map. reflexivity. Qed.

(** *** Multiplying by a power of two *)

Lemma Prim2SF_inj (x y : float) : Prim2SF x = Prim2SF y -> x = y.
Proof.
  intro H. rewrite <- (SF2Prim_Prim2SF x), <- (SF2Prim_Prim2SF y).
  now rewrite H.
Qed.

(** A positive normal number has a mantissa of 53 bits. *)
Lemma normal_digits (x : float) (m : positive) (e : Z) :
  Prim2SF x = S754_finite false m e -> -1074 < e ->
  digits2_pos m = 53%positive.
Proof.
  intros Hx He. pose proof (Prim2SF_valid x) as V. rewrite Hx in V.
  unfold valid_binary, bounded, canonical_mantissa in V.
  apply andb_prop in V. destruct V as [V1 _].
  apply Z.eqb_eq in V1.
  unfold fexp, SpecFloat.emin, prec, emax in *.
  assert (Z.pos (digits2_pos m) = 53) by lia.
  congruence.
Qed.

(** The product with [2^k] is exact: the mantissa stays, the exponent
    moves by [k]. *)
Lemma mul_power_of_two (c x : float) (k : Z) (m : positive) (e : Z) :
  power_of_two64 c k ->
  Prim2SF x = S754_finite false m e ->
  -1074 < e -> -1074 < e + k <= 971 ->
  Prim2SF (PrimFloat.mul c x) = S754_finite false m (e + k).
Proof.
  intros Hc Hx He Hk. pose proof (normal_digits Hx He) as Hd.
  rewrite FloatAxioms.mul_spec, Hc, Hx. unfold SF64mul, SFmul.
  cbn [xorb Pos.mul].
  unfold binary_round_aux, shr_fexp. cbn [Zdigits2 digits2_pos].
  rewrite Hd. cbn [Pos.succ].
  unfold fexp, SpecFloat.emin, prec, emax.
  replace (Z.max (105 + (k - 52 + e) - 53) (3 - 1024 - 53) - (k - 52 + e))
    with 52 by lia.
  cbn [shr shr_record_of_loc SpecFloat.iter_pos shr_1 orb shr_m
       loc_of_shr_record round_nearest_even Zdigits2].
  rewrite Hd.
  replace (Z.max (53 + (k - 52 + e + 52) - 53) (3 - 1024 - 53)
           - (k - 52 + e + 52)) with 0 by lia.
  cbn [shr shr_record_of_loc shr_m].
  replace (k - 52 + e + 52 <=? 1024 - 53) with true
    by (symmetry; apply Z.leb_le; lia).
  f_equal. lia.
Qed.

(** A quotient depends on the difference of the exponents only. *)
Lemma div_shift (m1 m2 : positive) (e1 e2 k : Z) :
  SF64div (S754_finite false m1 (e1 + k)) (S754_finite false m2 (e2 + k))
  = SF64div (S754_finite false m1 e1) (S754_finite false m2 e2).
Proof.
  unfold SF64div, SFdiv, SFdiv_core_binary.
  replace (Zdigits2 (Z.pos m1) + (e1 + k) - (Zdigits2 (Z.pos m2) + (e2 + k)))
    with (Zdigits2 (Z.pos m1) + e1 - (Zdigits2 (Z.pos m2) + e2)) by lia.
  replace (e1 + k - (e2 + k)) with (e1 - e2) by lia.
  reflexivity.
Qed.

Lemma div_scale (c x y : float) (k : Z) :
  power_of_two64 c k -> normal64 k x -> normal64 k y ->
  PrimFloat.div (PrimFloat.mul c x) (PrimFloat.mul c y) = PrimFloat.div x y.
Proof.
  intros Hc (mx & ex & Hx & Ex & Kx) (my & ey & Hy & Ey & Ky).
  apply Prim2SF_inj. rewrite !FloatAxioms.div_spec.
  rewrite (mul_power_of_two Hc Hx), (mul_power_of_two Hc Hy), Hx, Hy
    by lia.
  apply div_shift.
Qed.

Lemma ltb_scale (c x y : float) (k : Z) :
  power_of_two64 c k -> normal64 k x -> normal64 k y ->
  PrimFloat.ltb (PrimFloat.mul c x) (PrimFloat.mul c y) = PrimFloat.ltb x y.
Proof.
  intros Hc (mx & ex & Hx & Ex & Kx) (my & ey & Hy & Ey & Ky).
  rewrite !FloatAxioms.ltb_spec.
  rewrite (mul_power_of_two Hc Hx), (mul_power_of_two Hc Hy), Hx, Hy
    by lia.
  unfold SFltb, SFcompare.
  now rewrite (Z.add_comm ex k), (Z.add_comm ey k), Z.add_compare_mono_l.
Qed.

Lemma normal_nonzero (k : Z) (x : float) :
  normal64 k x -> PrimFloat.eqb x 0 = false.
Proof.
  intros (m & e & Hx & _). rewrite FloatAxioms.eqb_spec, Hx. reflexivity.
Qed.

Lemma scaled_normal (c x : float) (k : Z) :
  power_of_two64 c k -> normal64 k x -> normal64 0 (PrimFloat.mul c x).
Proof.
  intros Hc (m & e & Hx & Ex & Kx). exists m, (e + k).
  split; [apply (mul_power_of_two Hc Hx); lia|]. lia.
Qed.

(** The greatest price of the scaled pool is the greatest price,
    scaled. *)
Lemma max_price_power_of_two (c : float) (k : Z) (l : list float)
    (x : float) :
  power_of_two64 c k -> normal64 k x -> Forall (normal64 k) l ->
  fold_left (fun m y => if PrimFloat.ltb m y then y else m)
    (map (PrimFloat.mul c) l) (PrimFloat.mul c x)
  = PrimFloat.mul c
      (fold_left (fun m y => if PrimFloat.ltb m y then y else m) l x)
  /\ normal64 k
       (fold_left (fun m y => if PrimFloat.ltb m y then y else m) l x).
Proof.
  intros Hc Hx Hl. revert x Hx.
  induction Hl as [|y l Hy _ IH]; intros x Hx; cbn [map fold_left];
    [now split|].
  rewrite (ltb_scale Hc Hx Hy).
  destruct (PrimFloat.ltb x y); now apply IH.
Qed.

(** Multiplying every price by a power of two, within the normal range,
    leaves the quotient of every flight as it is. *)
Lemma price_ratio_scale (c : float) (k : Z)
    (flights : list Binary64.flight) (f : Binary64.flight) :
  power_of_two64 c k ->
  Forall (fun g => normal64 k (Binary64.total_price g)) flights ->
  In f flights ->
  price_ratio64 (map (scale_price64 c) flights) (scale_price64 c f)
  = price_ratio64 flights f.
Proof.
  intros Hc Hall Hf. unfold price_ratio64.
  assert (Hnf : normal64 k (Binary64.total_price f)).
  { rewrite Forall_forall in Hall. now apply Hall. }
  destruct flights as [|g gs]; [contradiction|].
  inversion Hall as [|g' gs' Hg Hgs]; subst.
  cbn [map Binary64.max_float scale_price64 Binary64.total_price Py.bind].
  rewrite map_map.
  assert (Hgs' : Forall (normal64 k) (map Binary64.total_price gs)).
  { apply Forall_forall. intros x Hx. apply in_map_iff in Hx.
    destruct Hx as (h & <- & Hh). rewrite Forall_forall in Hgs.
    now apply Hgs. }
  destruct (max_price_power_of_two Hc Hg Hgs') as [Hmax Hnmax].
  rewrite map_map in Hmax.
  change (fun x => Binary64.total_price (scale_price64 c x))
    with (fun x => PrimFloat.mul c (Binary64.total_price x)).
  rewrite Hmax. unfold Binary64.truediv.
  rewrite (normal_nonzero Hnmax).
  rewrite (normal_nonzero (scaled_normal Hc Hnmax)).
  now rewrite (div_scale Hc Hnf Hnmax).
Qed.

(** C9, as the code has it.  The ranking reads the prices through the
    binary64 quotients [price / max_price] only: multiplying every total
    price by a constant [c] leaves every score and the ranking unchanged
    (the same flights in the same order, each at its scaled price, and a
    failure on the one pool is a failure on the other) whenever it leaves
    the quotient of every flight unchanged.  It does so when [c] is a
    power of two and the prices, scaled or not, are normal numbers: the
    products are exact then.  The pool and the scaled pool are in the
    range the binary64 model speaks for. *)
Theorem flight_ranking_scale_invariant (flights : list Binary64.flight)
    (c : float) :
  Forall in_range64 flights ->
  Forall in_range64 (map (scale_price64 c) flights) ->
  ((forall f, In f flights ->
      price_ratio64 (map (scale_price64 c) flights) (scale_price64 c f)
      = price_ratio64 flights f) ->
   (forall f, In f flights ->
      Binary64.score_flight (map (scale_price64 c) flights)
        (scale_price64 c f)
      = Binary64.score_flight flights f)
   /\ Binary64.rank_flights (map (scale_price64 c) flights)
      = map_result (map (scale_price64 c)) (Binary64.rank_flights flights))
  /\ (forall k,
        power_of_two64 c k ->
        Forall (fun f => normal64 k (Binary64.total_price f)) flights ->
        (forall f, In f flights ->
           price_ratio64 (map (scale_price64 c) flights) (scale_price64 c f)
           = price_ratio64 flights f)
        /\ Binary64.rank_flights (map (scale_price64 c) flights)
           = map_result (map (scale_price64 c))
               (Binary64.rank_flights flights)).
Proof.
  intros _ _.
  assert (Hmain :
    (forall f, In f flights ->
       price_ratio64 (map (scale_price64 c) flights) (scale_price64 c f)
       = price_ratio64 flights f) ->
    (forall f, In f flights ->
       Binary64.score_flight (map (scale_price64 c) flights)
         (scale_price64 c f)
       = Binary64.score_flight flights f)
    /\ Binary64.rank_flights (map (scale_price64 c) flights)
       = map_result (map (scale_price64 c))
           (Binary64.rank_flights flights)).
  { intro Hratio.
    assert (Hscore : forall f, In f flights ->
              Binary64.score_flight (map (scale_price64 c) flights)
                (scale_price64 c f)
              = Binary64.score_flight flights f).
    { intros f Hf. apply score_flight_ratio;
        [now apply Hratio | apply scale_durations | reflexivity
        | reflexivity]. }
    split; [exact Hscore|].
    unfold Binary64.rank_flights.
    pose (R := fun (p : Binary64.flight * float)
                   (p' : Binary64.flight * float) =>
                 fst p' = scale_price64 c (fst p) /\ snd p' = snd p).
    assert (HM : result_rel (Forall2 R)
                   (Py.mapM
                      (fun f => s <- Binary64.score_flight flights f ;;
                                Py.Ok (f, s)) flights)
                   (Py.mapM
                      (fun f =>
                         s <- Binary64.score_flight
                                (map (scale_price64 c) flights) f ;;
                         Py.Ok (f, s))
                      (map (scale_price64 c) flights))).
    { apply mapM_rel_In. intros f Hf. rewrite (Hscore f Hf).
      destruct (Binary64.score_flight flights f); simpl;
        [now split | reflexivity]. }
    destruct (Py.mapM _ flights) as [ws|e],
             (Py.mapM _ (map (scale_price64 c) flights)) as [ws'|e'];
      simpl in HM |- *; try contradiction; [|now subst].
    f_equal.
    assert (HS : Forall2 R (Py.take 10 (Binary64.sorted_reverse snd ws))
                   (Py.take 10 (Binary64.sorted_reverse snd ws'))).
    { apply ScaleFacts.Forall2_take. unfold Binary64.sorted_reverse.
      apply PyFacts.sort_by_rel with (R := R); [|assumption].
      intros x x' y y' [_ Hx] [_ Hy]. now rewrite Hx, Hy. }
    induction HS as [|p p' l l' [Hp _] _ IH]; simpl; [reflexivity|].
    now rewrite Hp, IH. }
  split; [exact Hmain|].
  intros k Hc Hall.
  assert (Hratio : forall f, In f flights ->
            price_ratio64 (map (scale_price64 c) flights)
              (scale_price64 c f)
            = price_ratio64 flights f).
  { intros f Hf. now apply (price_ratio_scale Hc Hall). }
  split; [exact Hratio | exact (proj2 (Hmain Hratio))].
Qed.

(** Doubling the prices of the two sample flights: 2 is a power of two,
    and 100, 70, 200 and 140 are normal numbers. *)
Lemma flight_ranking_scale_invariant_witness :
  let flights := [Samples.flight64_fast; Samples.flight64_cheap] in
  Forall in_range64 flights
  /\ Forall in_range64 (map (scale_price64 2) flights)
  /\ power_of_two64 2 1
  /\ Forall (fun f => normal64 1 (Binary64.total_price f)) flights
  /\ Binary64.rank_flights (map (scale_price64 2) flights)
     = map_result (map (scale_price64 2)) (Binary64.rank_flights flights).
Proof.
  cbv zeta.
  assert (H1 : Forall in_range64
                 [Samples.flight64_fast; Samples.flight64_cheap]).
  { repeat constructor; cbn; lia. }
  assert (H2 : Forall in_range64
                 (map (scale_price64 2)
                    [Samples.flight64_fast; Samples.flight64_cheap])).
  { repeat constructor; cbn; lia. }
  assert (H3 : power_of_two64 2 1) by reflexivity.
  assert (H4 : Forall (fun f => normal64 1 (Binary64.total_price f))
                 [Samples.flight64_fast; Samples.flight64_cheap]).
  { repeat constructor; do 2 eexists;
      (split; [vm_compute; reflexivity | lia]). }
  split; [exact H1|]. split; [exact H2|]. split; [exact H3|].
  split; [exact H4|].
  exact (proj2 (proj2 (@flight_ranking_scale_invariant
                         [Samples.flight64_fast; Samples.flight64_cheap] 2
                         H1 H2) 1 H3 H4)).
Defined.

(** C9 as stated fails.  Of the two sample flights the cheaper one is
    ranked first, by a score of 0.35000000000000003 against
    0.34999999999999998; with every price multiplied by 0.92 both score
    0.34999999999999998, and the stable sort leaves the dearer flight
    first, as it is in the pool. *)
Lemma ranking_changes_with_scale :
  let fast := Samples.flight64_fast in
  let cheap := Samples.flight64_cheap in
  let c := Samples.factor_092 in
  PrimFloat.ltb 0 c = true
  /\ Forall in_range64 [fast; cheap]
  /\ Forall in_range64 (map (scale_price64 c) [fast; cheap])
  /\ Binary64.rank_flights [fast; cheap] = Py.Ok [cheap; fast]
  /\ Binary64.rank_flights (map (scale_price64 c) [fast; cheap])
     = Py.Ok [scale_price64 c fast; scale_price64 c cheap]
  /\ Binary64.rank_flights (map (scale_price64 c) [fast; cheap])
     <> map_result (map (scale_price64 c))
          (Binary64.rank_flights [fast; cheap]).
Proof.
  cbv zeta.
  assert (E1 : Binary64.rank_flights
                 [Samples.flight64_fast; Samples.flight64_cheap]
               = Py.Ok [Samples.flight64_cheap; Samples.flight64_fast])
    by (vm_compute; reflexivity).
  assert (E2 : Binary64.rank_flights
                 (map (scale_price64 Samples.factor_092)
                    [Samples.flight64_fast; Samples.flight64_cheap])
               = Py.Ok
                   [scale_price64 Samples.factor_092 Samples.flight64_fast;
                    scale_price64 Samples.factor_092
                      Samples.flight64_cheap])
    by (vm_compute; reflexivity).
  split; [reflexivity|].
  split; [repeat constructor; cbn; lia|].
  split; [repeat constructor; cbn; lia|].
  split; [exact E1|]. split; [exact E2|].
  rewrite E1, E2. cbn [map_result map]. intro H.
  apply (f_equal
           (fun r =>
              match r with
              | Py.Ok (f :: _) => Binary64.total_duration_minutes f
              | _ => 0
              end)) in H.
  vm_compute in H. discriminate H.
Qed.

End FloatRankingFacts.

(** ** The flight score *)

Module FlightScoreFacts.
Import SearchOrchestratorAgent Statements.

(** On a pool whose greatest price and greatest duration are not zero,
    the score is the weighted sum of the three complements, the stops
    component being [1 - stops/3] as it is. *)
Lemma score_flight_formula flights f max_price max_duration :
  Py.max_float (map FlightOption.total_price flights) = Py.Ok max_price ->
  Py.max_int (map FlightOption.total_duration_minutes flights)
  = Py.Ok max_duration ->
  ~ (max_price == 0)%Q -> max_duration <> 0 ->
  result_rel Qeq (score_flight flights f)
    (Py.Ok (unclamped_flight_score max_price max_duration f)).
Proof.
  intros Hp Hd Hp0 Hd0. unfold score_flight. rewrite Hp, Hd. simpl.
  unfold Py.truediv.
  destruct (Qeq_bool max_price 0) eqn:E1;
    [apply Qeq_bool_iff in E1; contradiction|].
  destruct (Qeq_bool (inject_Z max_duration) 0) eqn:E2.
  { apply Qeq_bool_iff in E2. exfalso. apply Hd0.
    unfold Qeq in E2. simpl in E2. lia. }
  simpl. unfold unclamped_flight_score. ring.
Qed.

(** With at most three stops the clamp of the specification is idle. *)
Lemma unclamped_is_spec max_price max_duration f :
  FlightOption.number_of_stops f <= 3 ->
  (unclamped_flight_score max_price max_duration f
   == spec_flight_score max_price max_duration f)%Q.
Proof.
  intro H. unfold unclamped_flight_score, spec_flight_score.
  assert (Hge : (0 <= 1 - inject_Z (FlightOption.number_of_stops f) / 3)%Q).
  { assert (Hq : (inject_Z (FlightOption.number_of_stops f) <= 3)%Q).
    { change 3%Q with (inject_Z 3). now rewrite <- Zle_Qle. }
    assert (E : (inject_Z (FlightOption.number_of_stops f) / 3
                 == inject_Z (FlightOption.number_of_stops f) * (1 # 3))%Q)
      by reflexivity.
    rewrite E. lra. }
  unfold Py.max2.
  destruct (Py.Qltb 0 _) eqn:E; [reflexivity|].
  apply PyFacts.Qltb_ge in E.
  assert (E0 : (1 - inject_Z (FlightOption.number_of_stops f) / 3 == 0)%Q)
    by (now apply Qle_antisym).
  now rewrite E0.
Qed.

(** The ranking keeps the first ten flights of the pool sorted by
    descending score. *)
Lemma rank_flights_descending flights r :
  rank_flights flights = Py.Ok r ->
  exists scored,
    r = map fst (Py.take 10 scored)
    /\ Permutation (map fst scored) flights
    /\ StronglySorted (fun a b => (snd b <= snd a)%Q) scored
    /\ Forall (fun p => score_flight flights (fst p) = Py.Ok (snd p)) scored.
Proof.
  unfold rank_flights. intro H.
  destruct (Py.mapM _ flights) as [ws|e] eqn:E; [|discriminate].
  cbn [Py.bind] in H. injection H as <-.
  apply PyFacts.mapM_keyed_fst in E. destruct E as [E1 E2].
  exists (Py.sorted_reverse snd ws).
  split; [reflexivity|].
  split; [rewrite <- E1; apply Permutation_map, PyFacts.sort_by_perm|].
  split; [apply PyFacts.sorted_reverse_sorted|].
  apply Forall_forall. intros p Hp. rewrite Forall_forall in E2.
  apply E2. unfold Py.sorted_reverse in Hp.
  now apply PyFacts.sort_by_In in Hp.
Qed.

(** C6, at a pool with a four-stop flight.  The code scores the four-stop
    flight -1/60 where the formula of the specification, whose stops
    component is clamped at 0, gives 1/20; the code therefore ranks the
    three-stop flight first and the specification the four-stop one. *)
Theorem score_flight_four_stops :
  let pool := [Samples.flight_four_stops; Samples.flight_three_stops] in
  result_rel Qeq (score_flight pool Samples.flight_four_stops)
    (Py.Ok (- (1 # 60))%Q)
  /\ (spec_flight_score 100 600 Samples.flight_four_stops == 1 # 20)%Q
  /\ _optimize_flights pool None
     = Py.Ok [Samples.flight_three_stops; Samples.flight_four_stops]
  /\ Py.sorted_reverse (spec_flight_score 100 600) pool
     = [Samples.flight_four_stops; Samples.flight_three_stops].
Proof.
  cbv zeta. split; [vm_compute; reflexivity|].
  split; [vm_compute; reflexivity|].
  split; vm_compute; reflexivity.
Qed.

End FlightScoreFacts.

(** ** Lodging selections *)

Module LodgingSelectionFacts.
Import SearchOrchestratorAgent Statements.

Lemma count_if_app {A} (p : A -> bool) (l l' : list A) :
  count_if p (l ++ l') = (count_if p l + count_if p l')%nat.
Proof. unfold count_if. now rewrite filter_app, length_app. Qed.

Lemma count_if_le_length {A} (p : A -> bool) (l : list A) :
  (count_if p l <= List.length l)%nat.
Proof. apply filter_length_le. Qed.

Lemma count_if_none {A} (p : A -> bool) (l : list A) :
  Forall (fun x => p x = false) l -> count_if p l = 0%nat.
Proof.
  unfold count_if. induction 1 as [|x l Hx _ IH]; simpl; [reflexivity|].
  now rewrite Hx.
Qed.

Lemma count_if_take {A} (p : A -> bool) (n : nat) (l : list A) :
  (count_if p (Py.take n l) <= count_if p l)%nat.
Proof.
  unfold count_if, Py.take. revert n.
  induction l as [|x l IH]; intros [|n]; simpl; try lia.
  specialize (IH n). destruct (p x); simpl; lia.
Qed.

Lemma Forall_take {A} (P : A -> Prop) (n : nat) (l : list A) :
  Forall P l -> Forall P (Py.take n l).
Proof.
  intro H. apply Forall_forall. intros x Hx.
  rewrite Forall_forall in H. apply H.
  now apply FlightOptimizerFacts.take_In in Hx.
Qed.

Lemma add_to_range_ok r h : ranges_ok r -> ranges_ok (add_to_range r h).
Proof.
  intros (Hl & Hm & Hh). unfold add_to_range, ranges_ok.
  destruct (Py.Qltb (AccommodationOption.price_per_night h) 100) eqn:E1;
    simpl.
  - repeat split; try assumption. apply Forall_app. split; [assumption|].
    constructor; [exact E1 | constructor].
  - destruct (Py.Qltb (AccommodationOption.price_per_night h) 200) eqn:E2;
      simpl; repeat split; try assumption; apply Forall_app;
      (split; [assumption|]); (constructor; [|constructor]).
    + unfold mid_bucket. now rewrite E1, E2.
    + unfold high_bucket. now rewrite E2.
Qed.

Lemma fold_ranges_ok ranked r :
  ranges_ok r -> ranges_ok (fold_left add_to_range ranked r).
Proof.
  revert r. induction ranked as [|h l IH]; intros r Hr; simpl;
    [assumption|]. apply IH. now apply add_to_range_ok.
Qed.

Lemma buckets_disjoint h :
  (low_bucket h = true -> mid_bucket h = false /\ high_bucket h = false)
  /\ (mid_bucket h = true -> low_bucket h = false /\ high_bucket h = false)
  /\ (high_bucket h = true -> low_bucket h = false /\ mid_bucket h = false).
Proof.
  unfold low_bucket, mid_bucket, high_bucket.
  assert (H : Py.Qltb (AccommodationOption.price_per_night h) 100 = true ->
              Py.Qltb (AccommodationOption.price_per_night h) 200 = true).
  { intro E1. apply PyFacts.Qltb_lt in E1. apply PyFacts.Qltb_lt.
    eapply Qlt_trans; [exact E1 | reflexivity]. }
  destruct (Py.Qltb (AccommodationOption.price_per_night h) 100),
           (Py.Qltb (AccommodationOption.price_per_night h) 200);
    simpl; repeat split; try congruence.
  all: specialize (H eq_refl); congruence.
Qed.

Lemma select_by_price_range_caps ranked :
  let r := select_by_price_range ranked in
  (count_if low_bucket r <= 4)%nat /\ (count_if mid_bucket r <= 4)%nat
  /\ (count_if high_bucket r <= 2)%nat /\ (List.length r <= 15)%nat.
Proof.
  unfold select_by_price_range.
  destruct (@fold_ranges_ok ranked (mk_ranges [] [] []))
    as (Hl & Hm & Hh); [repeat split; constructor|].
  set (r := fold_left add_to_range ranked (mk_ranges [] [] [])) in *.
  cbv zeta.
  assert (L : forall p (l : list AccommodationOption) n,
                (count_if p (Py.take n l) <= n)%nat).
  { intros p l n. etransitivity; [apply count_if_le_length|].
    apply FlightOptimizerFacts.take_length. }
  assert (Z0 : forall (p q : AccommodationOption -> bool) l n,
                 Forall (fun h => q h = true) l ->
                 (forall h, q h = true -> p h = false) ->
                 count_if p (Py.take n l) = 0%nat).
  { intros p q l n Hq Hpq. apply count_if_none. apply Forall_take.
    eapply Forall_impl; [|exact Hq]. intros h. apply Hpq. }
  pose proof (fun h => proj1 (buckets_disjoint h)) as Dl.
  pose proof (fun h => proj1 (proj2 (buckets_disjoint h))) as Dm.
  pose proof (fun h => proj2 (proj2 (buckets_disjoint h))) as Dh.
  repeat split.
  - etransitivity; [apply count_if_take|]. rewrite !count_if_app.
    rewrite (Z0 low_bucket mid_bucket (mid r) 4%nat Hm
               (fun h H => proj1 (Dm h H))).
    rewrite (Z0 low_bucket high_bucket (high r) 2%nat Hh
               (fun h H => proj1 (Dh h H))).
    specialize (L low_bucket (low r) 4%nat). lia.
  - etransitivity; [apply count_if_take|]. rewrite !count_if_app.
    rewrite (Z0 mid_bucket low_bucket (low r) 4%nat Hl
               (fun h H => proj1 (Dl h H))).
    rewrite (Z0 mid_bucket high_bucket (high r) 2%nat Hh
               (fun h H => proj2 (Dh h H))).
    specialize (L mid_bucket (mid r) 4%nat). lia.
  - etransitivity; [apply count_if_take|]. rewrite !count_if_app.
    rewrite (Z0 high_bucket low_bucket (low r) 4%nat Hl
               (fun h H => proj2 (Dl h H))).
    rewrite (Z0 high_bucket mid_bucket (mid r) 4%nat Hm
               (fun h H => proj2 (Dm h H))).
    specialize (L high_bucket (high r) 2%nat). lia.
  - apply FlightOptimizerFacts.take_length.
Qed.

(** The hotel score never raises on a hotel of the pool. *)
Lemma score_hotel_total hotels style h :
  In h hotels -> exists s, score_hotel hotels style h = Py.Ok s.
Proof.
  intro Hin. unfold score_hotel.
  destruct hotels as [|h0 hs]; [contradiction|].
  cbn [map Py.max_float Py.bind].
  set (m := fold_left _ _ _).
  assert (Hmp : Qeq_bool (if Qeq_bool m 0 then 1%Q else m) 0 = false).
  { destruct (Qeq_bool m 0) eqn:E; [reflexivity | exact E]. }
  unfold Py.truediv. rewrite Hmp.
  destruct (Py.str_in style ["budget"; "backpacker"]);
    [|destruct (Py.str_in style ["luxury"; "comfort"])];
    cbn [Py.bind]; eexists; reflexivity.
Qed.

Lemma _optimize_hotels_total hotels budget style :
  exists ranked,
    _optimize_hotels hotels budget style
    = Py.Ok (select_by_price_range ranked).
Proof.
  unfold _optimize_hotels.
  destruct hotels as [|h0 hs]; [now exists []|].
  cbn [Py.truthy_list negb].
  set (pool := match budget with Some _ => _ | None => _ end).
  destruct (@PyFacts.mapM_total _ _
              (fun h => s <- score_hotel pool style h ;; Py.Ok (h, s)) pool)
    as [ws Hws].
  { intros h Hh. destruct (score_hotel_total style Hh) as [s Hs].
    rewrite Hs. now eexists. }
  rewrite Hws. cbn [Py.bind]. now eexists.
Qed.

Import TasteProfilerAgent.

Lemma select_loop_length max_results scored s :
  (List.length (selected s) <= max_results)%nat ->
  (List.length (selected (select_loop max_results scored s))
   <= max_results)%nat.
Proof.
  revert s. induction scored as [|[hotel score] rest IH]; intros s Hs;
    simpl; [assumption|].
  destruct (max_results <=? List.length (selected s))%nat eqn:E;
    [assumption|].
  apply Nat.leb_gt in E.
  destruct (_ && _); apply IH; [|assumption].
  simpl. rewrite length_app. simpl. lia.
Qed.

Lemma fill_loop_length scored sel remaining :
  0 < remaining ->
  Z.of_nat (List.length (fill_loop scored sel remaining))
  <= Z.of_nat (List.length sel) + remaining.
Proof.
  revert sel remaining.
  induction scored as [|[hotel score] rest IH]; intros sel remaining Hr;
    simpl; [lia|].
  destruct (negb (hotel_in hotel sel)).
  - destruct (remaining - 1 =? 0) eqn:E.
    + rewrite length_app. simpl. lia.
    + apply Z.eqb_neq in E.
      etransitivity; [apply IH; lia|].
      rewrite length_app. simpl. lia.
  - now apply IH.
Qed.

Lemma _select_diverse_hotels_length scored max_results :
  (List.length (_select_diverse_hotels scored max_results)
   <= max_results)%nat.
Proof.
  unfold _select_diverse_hotels.
  set (s := select_loop max_results scored _).
  assert (Hs : (List.length (selected s) <= max_results)%nat).
  { apply select_loop_length. simpl. lia. }
  cbv zeta. unfold Py.len.
  destruct (0 <? _) eqn:E; [|assumption].
  apply Z.ltb_lt in E.
  pose proof (@fill_loop_length scored (selected s) _ E). lia.
Qed.

(** C8. For every list of hotels in score order the diversity selection
    of the optimizer returns at most 4 hotels below 100 a night, at most 4
    from 100 to below 200 and at most 2 at 200 or above, 15 in all at
    most; [_optimize_hotels] always returns such a selection; and the
    diverse selection of the re-ranker returns at most 12 hotels. *)
Theorem lodging_diversity_caps :
  (forall ranked,
     let r := select_by_price_range ranked in
     (count_if low_bucket r <= 4)%nat /\ (count_if mid_bucket r <= 4)%nat
     /\ (count_if high_bucket r <= 2)%nat /\ (List.length r <= 15)%nat)
  /\ (forall hotels budget style,
        exists r,
          _optimize_hotels hotels budget style = Py.Ok r
          /\ (count_if low_bucket r <= 4)%nat
          /\ (count_if mid_bucket r <= 4)%nat
          /\ (count_if high_bucket r <= 2)%nat
          /\ (List.length r <= 15)%nat)
  /\ (forall scored_hotels,
        (List.length (_select_diverse_hotels scored_hotels 12) <= 12)%nat).
Proof.
  split; [exact select_by_price_range_caps|]. split.
  - intros hotels budget style.
    destruct (_optimize_hotels_total hotels budget style) as [ranked H].
    eexists. split; [exact H|]. apply select_by_price_range_caps.
  - intros scored. apply _select_diverse_hotels_length.
Qed.

End LodgingSelectionFacts.

(** ** The synthesis agent *)

Module SynthesisFacts.
Import SynthesisAgent Statements.

Lemma insert_by_map {A B} (g : A -> B) (bA : A -> A -> bool)
    (bB : B -> B -> bool) (x : A) (l : list A) :
  (forall x y, bB (g x) (g y) = bA x y) ->
  Py.insert_by bB (g x) (map g l) = map g (Py.insert_by bA x l).
Proof.
  intro H. induction l as [|y l IH]; simpl; [reflexivity|].
  rewrite H. destruct (bA y x); simpl; [now rewrite IH | reflexivity].
Qed.

Lemma sort_by_map {A B} (g : A -> B) (bA : A -> A -> bool)
    (bB : B -> B -> bool) (l : list A) :
  (forall x y, bB (g x) (g y) = bA x y) ->
  Py.sort_by bB (map g l) = map g (Py.sort_by bA l).
Proof.
  intro H. unfold Py.sort_by. induction l as [|x l IH]; simpl;
    [reflexivity|]. rewrite IH. now apply insert_by_map.
Qed.

(** Sorting by a key that never raises is sorting by its value. *)
Lemma sorted_by_key_total {A} (key : A -> Py.result Q) (k : A -> Q)
    (l : list A) :
  (forall x, In x l -> key x = Py.Ok (k x)) ->
  sorted_by_key key l = Py.Ok (Py.sorted k l).
Proof.
  intro H. unfold sorted_by_key.
  rewrite (@PyFacts.mapM_Ok_map _ _ _ (fun x => (x, k x))).
  - cbn [Py.bind]. f_equal. unfold Py.sorted.
    rewrite (@sort_by_map _ _ (fun x => (x, k x))
               (fun y x => Py.Qltb (k y) (k x))) by reflexivity.
    rewrite map_map. simpl. apply map_id.
  - intros x Hx. now rewrite (H x Hx).
Qed.

(** A key that raises on some element makes the sort raise. *)
Lemma sorted_by_key_raises {A} (key : A -> Py.result Q) (l : list A) x e :
  In x l -> key x = Py.Raise e ->
  exists e', sorted_by_key key l = Py.Raise e'.
Proof.
  intros Hx He. unfold sorted_by_key.
  assert (G : exists e', Py.mapM (fun x => k <- key x ;; Py.Ok (x, k)) l
                         = Py.Raise e').
  { induction l as [|y l IH]; [contradiction|]. simpl.
    destruct (key y) as [ky|ey] eqn:Ey; cbn [Py.bind]; [|now eexists].
    destruct Hx as [->|Hx]; [congruence|].
    destruct (IH Hx) as [e' He']. rewrite He'. now eexists. }
  destruct G as [e' He']. rewrite He'. now eexists.
Qed.

Lemma balanced_key_ok f :
  FlightOption.number_of_stops f <> 3 ->
  balanced_key f = Py.Ok (balanced_metric f).
Proof.
  intro H. unfold balanced_key, Py.truediv, balanced_metric.
  destruct (Qeq_bool _ 0) eqn:E; [|reflexivity].
  apply Qeq_bool_iff in E. change 0%Q with (inject_Z 0) in E.
  apply (proj1 (inject_Z_injective _ _)) in E. lia.
Qed.

Lemma balanced_key_three_stops f :
  FlightOption.number_of_stops f = 3 ->
  balanced_key f = Py.Raise "division by zero".
Proof. intro H. unfold balanced_key. now rewrite H. Qed.

Lemma index_Ok {A} (l : list A) (i : nat) :
  (i < List.length l)%nat ->
  exists x, Py.index l i = Py.Ok x /\ nth_error l i = Some x.
Proof.
  intro H. unfold Py.index. destruct (nth_error l i) as [x|] eqn:E.
  - now exists x.
  - apply nth_error_None in E. lia.
Qed.

Lemma mid_index_lt n : (0 < n)%nat -> (mid_index n < n)%nat.
Proof.
  intro H. unfold mid_index. destruct (n =? 2)%nat; [assumption|].
  apply Nat.div_lt; lia.
Qed.

Lemma sorted_head_least {A} (key : A -> Q) (l : list A) (x : A) :
  nth_error (Py.sorted key l) 0 = Some x ->
  forall y, In y l -> (key x <= key y)%Q.
Proof.
  intros Hx y Hy. pose proof (PyFacts.sorted_sorted key l) as Hs.
  unfold Py.sorted in *.
  apply (proj2 (@PyFacts.sort_by_In _ (fun y x => Py.Qltb (key y) (key x))
                  y l)) in Hy.
  destruct (Py.sort_by _ l) as [|z zs]; [discriminate|].
  simpl in Hx. injection Hx as ->.
  inversion Hs as [|? ? _ Hall]; subst.
  destruct Hy as [<-|Hy]; [apply Qle_refl|].
  rewrite Forall_forall in Hall. now apply Hall.
Qed.

Lemma build_Ok state intent rate prefix tag summary why tradeoffs f hs :
  AgentState.parsed_intent state = Some intent ->
  build state rate prefix tag summary why tradeoffs f hs
  = Py.Ok
      (Itinerary.new
         (prefix ++ Py.str_opt_str (TravelIntent.destination intent))%string
         (summary (Py.int_or (TravelIntent.duration_days intent) 7)) tag f
         hs [] (FlightOption.total_price f) (accommodation_cost_of hs) 0%Q
         (inject_Z (food_cost intent rate))
         (FlightOption.total_price f + accommodation_cost_of hs + 0
          + inject_Z (food_cost intent rate))%Q
         why tradeoffs).
Proof. intro H. unfold build, intent_of. now rewrite H. Qed.

End SynthesisFacts.


(** ** Cost breakdown of the itineraries *)

Module CostFacts.
Import SynthesisAgent Statements.

Lemma sum_float_fold (l : list Q) (a : Q) :
  (fold_left Qplus l a == a + fold_right Qplus 0 l)%Q.
Proof.
  revert a. induction l as [|x l IH]; intro a; simpl.
  - ring.
  - rewrite IH. ring.
Qed.

Lemma accommodation_cost_of_total (hs : list AccommodationOption) :
  (accommodation_cost_of hs == lodging_total hs)%Q.
Proof.
  unfold accommodation_cost_of, Py.sum_float, lodging_total.
  rewrite sum_float_fold.
  induction hs as [|h hs IH]; simpl; [ring|].
  rewrite <- IH. ring.
Qed.

Lemma calculate_total_sum (a b c d : Q) :
  (Itinerary.calculate_total (a + b + c + d) a b c d == a + b + c + d)%Q.
Proof.
  unfold Itinerary.calculate_total.
  destruct (Qeq_bool _ 0); reflexivity.
Qed.

Lemma build_built_at state rate prefix tag summary why tradeoffs f h it :
  In f (AgentState.flight_options state) ->
  In h (AgentState.accommodation_options state) ->
  build state rate prefix tag summary why tradeoffs f [h] = Py.Ok it ->
  built_at state tag rate it.
Proof.
  intros Hf Hh H. unfold build, intent_of in H.
  destruct (AgentState.parsed_intent state) as [intent|] eqn:Hi;
    [|discriminate].
  cbn [Py.bind] in H. injection H as <-. exists intent.
  unfold Itinerary.new. cbn.
  split; [exact Hi|]. split; [reflexivity|]. split; [exact Hf|].
  split; [intros h' [<-|[]]; exact Hh|]. split; [reflexivity|].
  split; [apply (accommodation_cost_of_total [h])|].
  split; [reflexivity|]. split; [reflexivity|].
  apply calculate_total_sum.
Qed.

Lemma index_In {A} (l : list A) (i : nat) (x : A) :
  Py.index l i = Py.Ok x -> In x l.
Proof.
  unfold Py.index. destruct (nth_error l i) as [y|] eqn:E; [|discriminate].
  intro H. injection H as <-. eapply nth_error_In. exact E.
Qed.

Lemma sorted_In {A} (key : A -> Q) (l : list A) (x : A) :
  In x (Py.sorted key l) -> In x l.
Proof. unfold Py.sorted. apply PyFacts.sort_by_In. Qed.

Lemma sorted_reverse_In {A} (key : A -> Q) (l : list A) (x : A) :
  In x (Py.sorted_reverse key l) -> In x l.
Proof. unfold Py.sorted_reverse. apply PyFacts.sort_by_In. Qed.

Lemma sorted_pair_In {A} (key : A -> Z * Z) (l : list A) (x : A) :
  In x (Py.sorted_pair key l) -> In x l.
Proof. unfold Py.sorted_pair. apply PyFacts.sort_by_In. Qed.

Lemma sorted_by_key_In {A} (key : A -> Py.result Q) (l r : list A) (x : A) :
  sorted_by_key key l = Py.Ok r -> In x r -> In x l.
Proof.
  unfold sorted_by_key. intros H Hx.
  destruct (Py.mapM _ l) as [keyed|e] eqn:E; [|discriminate].
  cbn [Py.bind] in H. injection H as <-.
  apply PyFacts.mapM_keyed_fst in E. destruct E as [E _]. rewrite <- E.
  apply in_map_iff in Hx. destruct Hx as [p [<- Hp]].
  apply in_map. now apply sorted_In in Hp.
Qed.

Lemma budget_built_at state it :
  _create_budget_itinerary state = Some it -> built_at state "Budget" 40 it.
Proof.
  unfold _create_budget_itinerary, try_budget_itinerary. intro H.
  destruct (Py.sorted FlightOption.total_price _) as [|f0 fs] eqn:Ef;
    [discriminate|].
  destruct (Py.index (f0 :: fs) 0) as [f|e] eqn:If; [|discriminate].
  cbn [Py.bind] in H.
  destruct (Py.sorted AccommodationOption.price_per_night _) as [|h0 hs]
    eqn:Eh; [discriminate|].
  destruct (Py.index (h0 :: hs) 0) as [h|e] eqn:Ih; [|discriminate].
  cbn [Py.bind] in H.
  destruct (build _ _ _ _ _ _ _ _ _) as [it'|e] eqn:Eb; [|discriminate].
  cbn [Py.bind Py.try_except] in H. injection H as <-.
  apply index_In in If, Ih. rewrite <- Ef in If. rewrite <- Eh in Ih.
  apply sorted_In in If, Ih.
  exact (build_built_at If Ih Eb).
Qed.

Lemma balanced_built_at state it :
  _create_balanced_itinerary state = Some it ->
  built_at state "Balanced Family" 60 it.
Proof.
  unfold _create_balanced_itinerary, try_balanced_itinerary. intro H.
  destruct (sorted_by_key balanced_key _) as [[|f0 fs]|e] eqn:Ef;
    try discriminate.
  cbn [Py.bind] in H.
  destruct (Py.index (f0 :: fs) _) as [f|e] eqn:If; [|discriminate].
  cbn [Py.bind] in H.
  destruct (Py.sorted AccommodationOption.price_per_night _) as [|h0 hs]
    eqn:Eh; [discriminate|].
  destruct (Py.index (h0 :: hs) _) as [h|e] eqn:Ih; [|discriminate].
  cbn [Py.bind] in H.
  destruct (build _ _ _ _ _ _ _ _ _) as [it'|e] eqn:Eb; [|discriminate].
  cbn [Py.bind Py.try_except] in H. injection H as <-.
  apply index_In in If, Ih. rewrite <- Eh in Ih.
  apply sorted_In in Ih. apply (sorted_by_key_In Ef) in If.
  exact (build_built_at If Ih Eb).
Qed.

Lemma premium_built_at state it :
  _create_premium_itinerary state = Some it -> built_at state "Luxury" 100 it.
Proof.
  unfold _create_premium_itinerary, try_premium_itinerary. intro H.
  destruct (Py.sorted_pair _ _) as [|f0 fs] eqn:Ef; [discriminate|].
  destruct (Py.index (f0 :: fs) 0) as [f|e] eqn:If; [|discriminate].
  cbn [Py.bind] in H.
  destruct (Py.sorted_reverse AccommodationOption.price_per_night _)
    as [|h0 hs] eqn:Eh; [discriminate|].
  destruct (Py.index (h0 :: hs) 0) as [h|e] eqn:Ih; [|discriminate].
  cbn [Py.bind] in H.
  destruct (build _ _ _ _ _ _ _ _ _) as [it'|e] eqn:Eb; [|discriminate].
  cbn [Py.bind Py.try_except] in H. injection H as <-.
  apply index_In in If, Ih. rewrite <- Ef in If. rewrite <- Eh in Ih.
  apply sorted_pair_In in If. apply sorted_reverse_In in Ih.
  exact (build_built_at If Ih Eb).
Qed.

Lemma opt_to_list_In {A} (o : option A) (x : A) :
  In x (opt_to_list o) -> o = Some x.
Proof. destruct o; simpl; [intros [<-|[]]; reflexivity | contradiction]. Qed.

(** C5, as the code has it.  Every itinerary the synthesis agent produces
    (style Budget, Balanced Family or Luxury, at the rate 40, 60 or 100) has
    a flight and a lodging from the pools, flight cost equal to the price
    of its flight, lodging cost equal to the sum of the total prices of its
    lodgings, activities cost zero, food cost equal to the days times the
    rate times the number of adults and children, where the days are
    [duration_days], or 7 when that is absent or zero, and a total equal to
    the sum of the four components. *)
Theorem itinerary_costs (state : AgentState) (it : Itinerary) :
  AgentState.itineraries state = [] ->
  In it (AgentState.itineraries (synthesize state)) ->
  exists intent rate,
    AgentState.parsed_intent state = Some intent
    /\ In (Itinerary.style_tag it, rate) style_rates
    /\ In (Itinerary.flights it) (AgentState.flight_options state)
    /\ (forall h, In h (Itinerary.accommodations it) ->
                  In h (AgentState.accommodation_options state))
    /\ Itinerary.flight_cost it
       = FlightOption.total_price (Itinerary.flights it)
    /\ (Itinerary.accommodation_cost it
        == lodging_total (Itinerary.accommodations it))%Q
    /\ (Itinerary.activities_cost it == 0)%Q
    /\ (Itinerary.estimated_food_cost it
        == inject_Z
             (Py.int_or (TravelIntent.duration_days intent) 7 * rate
              * (TravelIntent.num_adults intent
                 + TravelIntent.num_children intent)))%Q
    /\ (Itinerary.total_cost it
        == Itinerary.flight_cost it + Itinerary.accommodation_cost it
           + Itinerary.activities_cost it
           + Itinerary.estimated_food_cost it)%Q.
Proof.
  intros Hempty Hin. unfold synthesize in Hin.
  set (st := AgentState.append_message _ state) in *.
  assert (G : forall tag rate, built_at st tag rate it ->
                In (tag, rate) style_rates ->
                exists intent rate,
                  AgentState.parsed_intent state = Some intent
                  /\ In (Itinerary.style_tag it, rate) style_rates
                  /\ In (Itinerary.flights it)
                       (AgentState.flight_options state)
                  /\ (forall h, In h (Itinerary.accommodations it) ->
                        In h (AgentState.accommodation_options state))
                  /\ Itinerary.flight_cost it
                     = FlightOption.total_price (Itinerary.flights it)
                  /\ (Itinerary.accommodation_cost it
                      == lodging_total (Itinerary.accommodations it))%Q
                  /\ (Itinerary.activities_cost it == 0)%Q
                  /\ (Itinerary.estimated_food_cost it
                      == inject_Z
                           (Py.int_or (TravelIntent.duration_days intent) 7
                            * rate
                            * (TravelIntent.num_adults intent
                               + TravelIntent.num_children intent)))%Q
                  /\ (Itinerary.total_cost it
                      == Itinerary.flight_cost it
                         + Itinerary.accommodation_cost it
                         + Itinerary.activities_cost it
                         + Itinerary.estimated_food_cost it)%Q).
  { intros tag rate (intent & H1 & H2 & H3) Htag. exists intent, rate.
    split; [exact H1|]. split; [now rewrite H2|]. exact H3. }
  destruct (negb _ || negb _).
  - simpl in Hin. rewrite Hempty in Hin. contradiction.
  - simpl in Hin. apply in_app_or in Hin. destruct Hin as [Hin|Hin].
    + apply opt_to_list_In, budget_built_at in Hin.
      apply (G _ _ Hin). simpl. auto.
    + apply in_app_or in Hin. destruct Hin as [Hin|Hin].
      * apply opt_to_list_In, balanced_built_at in Hin.
        apply (G _ _ Hin). simpl. auto.
      * apply opt_to_list_In, premium_built_at in Hin.
        apply (G _ _ Hin). simpl. auto.
Qed.

Lemma itinerary_costs_witness :
  AgentState.itineraries Samples.state_two_hotels = []
  /\ exists it,
       In it (AgentState.itineraries (synthesize Samples.state_two_hotels))
       /\ (Itinerary.total_cost it
           == Itinerary.flight_cost it + Itinerary.accommodation_cost it
              + Itinerary.activities_cost it
              + Itinerary.estimated_food_cost it)%Q.
Proof.
  split; [reflexivity|].
  assert (Hin : exists it,
            In it (AgentState.itineraries
                     (synthesize Samples.state_two_hotels))).
  { eexists. vm_compute. left. reflexivity. }
  destruct Hin as [it Hin]. exists it. split; [exact Hin|].
  destruct (@itinerary_costs Samples.state_two_hotels it eq_refl Hin)
    as (intent & rate & _ & _ & _ & _ & _ & _ & _ & _ & Htotal).
  exact Htotal.
Defined.

(** C5 as stated fails in two ways.  When the parsed duration is zero
    days, the budget itinerary of two adults is charged 7 days of food,
    560, where the duration times the rate times the travelers is 0.  And
    an infant is not charged: for two adults and an infant, ten days, the
    food cost is 800, where ten days at 40 for three travelers are
    1200. *)
Lemma food_cost_not_as_claimed :
  (exists it claimed,
     In it (AgentState.itineraries (synthesize Samples.state_zero_days))
     /\ Itinerary.style_tag it = "Budget"
     /\ spec_food_cost (Samples.intent (Some 0)) 40 = Some claimed
     /\ (Itinerary.estimated_food_cost it == 560)%Q
     /\ ~ (Itinerary.estimated_food_cost it == inject_Z claimed)%Q)
  /\ (exists it claimed,
        In it (AgentState.itineraries
                 (synthesize Samples.state_with_infant))
        /\ Itinerary.style_tag it = "Budget"
        /\ spec_food_cost Samples.intent_with_infant 40 = Some claimed
        /\ claimed = 1200
        /\ (Itinerary.estimated_food_cost it == 800)%Q
        /\ ~ (Itinerary.estimated_food_cost it == inject_Z claimed)%Q).
Proof.
  split.
  - eexists. exists 0. split; [vm_compute; left; reflexivity|].
    split; [reflexivity|]. split; [reflexivity|].
    split; [reflexivity|]. discriminate.
  - eexists. exists 1200. split; [vm_compute; left; reflexivity|].
    split; [reflexivity|]. split; [reflexivity|]. split; [reflexivity|].
    split; [reflexivity|]. discriminate.
Qed.

(** With a parsed request and two non-empty pools the budget and the
    premium itinerary are always produced. *)
Lemma budget_and_premium_produced state intent :
  AgentState.parsed_intent state = Some intent ->
  AgentState.flight_options state <> [] ->
  AgentState.accommodation_options state <> [] ->
  (exists it, _create_budget_itinerary state = Some it)
  /\ (exists it, _create_premium_itinerary state = Some it).
Proof.
  intros Hi Hf Hh.
  assert (N : forall A (l l' : list A),
            List.length l = List.length l' -> l' <> [] ->
            exists x xs, l = x :: xs).
  { intros A [|x xs] [|y ys] HL Hne; simpl in *; try congruence.
    now exists x, xs. }
  split.
  - unfold _create_budget_itinerary, try_budget_itinerary.
    destruct (N _ (Py.sorted FlightOption.total_price
                     (AgentState.flight_options state)) _
                (PyFacts.sort_by_length _ _) Hf) as (f & fs & ->).
    destruct (N _ (Py.sorted AccommodationOption.price_per_night
                     (AgentState.accommodation_options state)) _
                (PyFacts.sort_by_length _ _) Hh) as (h & hs & ->).
    cbn [Py.index nth_error Py.bind].
    rewrite (SynthesisFacts.build_Ok _ _ _ _ _ _ _ _ Hi).
    cbn [Py.bind Py.try_except]. now eexists.
  - unfold _create_premium_itinerary, try_premium_itinerary.
    destruct (N _ (Py.sorted_pair
                     (fun f => (FlightOption.number_of_stops f,
                                FlightOption.total_duration_minutes f))
                     (AgentState.flight_options state)) _
                (PyFacts.sort_by_length _ _) Hf) as (f & fs & ->).
    destruct (N _ (Py.sorted_reverse AccommodationOption.price_per_night
                     (AgentState.accommodation_options state)) _
                (PyFacts.sort_by_length _ _) Hh) as (h & hs & ->).
    cbn [Py.index nth_error Py.bind].
    rewrite (SynthesisFacts.build_Ok _ _ _ _ _ _ _ _ Hi).
    cbn [Py.bind Py.try_except]. now eexists.
Qed.

End CostFacts.


(** ** The balanced itinerary *)

Module BalancedFacts.
Import SynthesisAgent Statements SynthesisFacts.

(** With a parsed request, two non-empty pools and no flight of exactly
    three stops the balanced itinerary exists and is selected by rank. *)
Lemma balanced_itinerary_exists (state : AgentState)
    (intent : TravelIntent) :
  AgentState.parsed_intent state = Some intent ->
  AgentState.flight_options state <> [] ->
  AgentState.accommodation_options state <> [] ->
  (forall f, In f (AgentState.flight_options state) ->
             FlightOption.number_of_stops f <> 3) ->
  exists it ranked by_price h,
    _create_balanced_itinerary state = Some it
    (* the flight *)
    /\ Permutation ranked (AgentState.flight_options state)
    /\ StronglySorted
         (fun a b => (balanced_metric a <= balanced_metric b)%Q) ranked
    /\ nth_error ranked (List.length ranked / 2) = Some (Itinerary.flights it)
    (* the lodging *)
    /\ Permutation by_price (AgentState.accommodation_options state)
    /\ StronglySorted
         (fun a b => (AccommodationOption.price_per_night a
                      <= AccommodationOption.price_per_night b)%Q) by_price
    /\ Itinerary.accommodations it = [h]
    /\ nth_error by_price
         (if (List.length by_price =? 2)%nat then 0
          else List.length by_price / 2)%nat = Some h
    /\ (List.length (AgentState.accommodation_options state) = 2%nat ->
        forall h', In h' (AgentState.accommodation_options state) ->
          (AccommodationOption.price_per_night h
           <= AccommodationOption.price_per_night h')%Q).
Proof.
  intros Hintent Hf Hh Hstops.
  set (flights := AgentState.flight_options state) in *.
  set (hotels := AgentState.accommodation_options state) in *.
  set (ranked := Py.sorted balanced_metric flights).
  set (by_price := Py.sorted AccommodationOption.price_per_night hotels).
  assert (Lr : List.length ranked = List.length flights)
    by apply PyFacts.sort_by_length.
  assert (Lp : List.length by_price = List.length hotels)
    by apply PyFacts.sort_by_length.
  assert (Nf : (0 < List.length ranked)%nat).
  { rewrite Lr. destruct flights; [congruence | simpl; lia]. }
  assert (Nh : (0 < List.length by_price)%nat).
  { rewrite Lp. destruct hotels; [congruence | simpl; lia]. }
  destruct (@index_Ok _ ranked (List.length ranked / 2))
    as [f [If Ef]]; [apply Nat.div_lt; lia|].
  destruct (@index_Ok _ by_price (mid_index (List.length by_price)))
    as [h [Ih Eh]]; [now apply mid_index_lt|].
  assert (Hrun : try_balanced_itinerary state
                 = Py.bind
                     (build state 60 "Balanced Option - " "Balanced Family"
                        balanced_summary balanced_why balanced_tradeoffs
                        f [h])
                     (fun it => Py.Ok (Some it))).
  { unfold try_balanced_itinerary. fold flights. fold hotels.
    rewrite (@sorted_by_key_total _ balanced_key balanced_metric)
      by (intros x Hx; apply balanced_key_ok; now apply Hstops).
    cbn [Py.bind]. fold ranked.
    destruct ranked as [|r0 rs] eqn:Er; [simpl in Nf; lia|].
    rewrite <- Er in *. rewrite If. cbn [Py.bind]. fold by_price.
    destruct by_price as [|p0 ps] eqn:Ep; [simpl in Nh; lia|].
    rewrite <- Ep in *. rewrite Ih. reflexivity. }
  rewrite (build_Ok _ _ _ _ _ _ _ _ Hintent) in Hrun. cbn [Py.bind] in Hrun.
  eexists. exists ranked, by_price, h.
  split; [unfold _create_balanced_itinerary; rewrite Hrun; reflexivity|].
  split; [apply PyFacts.sort_by_perm|].
  split; [apply PyFacts.sorted_sorted|].
  split; [exact Ef|].
  split; [apply PyFacts.sort_by_perm|].
  split; [apply PyFacts.sorted_sorted|].
  split; [reflexivity|].
  split; [exact Eh|].
  intros H2 h' Hh'. apply (@sorted_head_least _ _ hotels h); [|assumption].
  fold by_price. unfold mid_index in Eh. rewrite Lp, H2 in Eh. exact Eh.
Qed.


(** With the two candidates priced 80 and 220, in either order, the
    balanced itinerary takes the one at 80. *)
Example balanced_two_hotels_80_220 :
  option_map Itinerary.accommodations
    (_create_balanced_itinerary Samples.state_two_hotels)
  = Some [Samples.hotel_80]
  /\ option_map Itinerary.accommodations
       (_create_balanced_itinerary
          (Samples.ranked_state (Some 10)
             [Samples.flight_500; Samples.flight_900]
             [Samples.hotel_80; Samples.hotel_220]))
     = Some [Samples.hotel_80].
Proof. split; vm_compute; reflexivity. Qed.

(** A flight with exactly three stops leaves the run without a balanced
    itinerary: its metric divides by zero. *)
Lemma balanced_itinerary_three_stops state f :
  In f (AgentState.flight_options state) ->
  FlightOption.number_of_stops f = 3 ->
  _create_balanced_itinerary state = None.
Proof.
  intros Hin H3. unfold _create_balanced_itinerary, try_balanced_itinerary.
  destruct (sorted_by_key_raises Hin (balanced_key_three_stops H3))
    as [e He].
  rewrite He. reflexivity.
Qed.





End BalancedFacts.


(** ** The flight fallback chain *)

Module FlightSearchFacts.
Import Statements.

Section ForReturn.
Context {X A : Type}.

Lemma for_return_ext (xs : list X) (body : X -> IO (list A))
    (rest rest' : IO (list A)) :
  (forall tr, rest tr = rest' tr) ->
  forall tr, IO.for_return xs body rest tr = IO.for_return xs body rest' tr.
Proof.
  intro H. induction xs as [|x xs IH]; intro tr; simpl; [apply H|].
  unfold IO.bind. destruct (body x tr) as [[r|e] tr']; [|reflexivity].
  destruct (Py.truthy_list r); [reflexivity | apply IH].
Qed.

Lemma for_return_app (xs ys : list X) (body : X -> IO (list A))
    (rest : IO (list A)) :
  forall tr,
    IO.for_return (xs ++ ys) body rest tr
    = IO.for_return xs body (IO.for_return ys body rest) tr.
Proof.
  induction xs as [|x xs IH]; intro tr; simpl; [reflexivity|].
  unfold IO.bind. destruct (body x tr) as [[r|e] tr']; [|reflexivity].
  destruct (Py.truthy_list r); [reflexivity | apply IH].
Qed.

Lemma for_return_map {Y} (g : Y -> X) (ys : list Y)
    (body : X -> IO (list A)) (rest : IO (list A)) :
  forall tr,
    IO.for_return (map g ys) body rest tr
    = IO.for_return ys (fun y => body (g y)) rest tr.
Proof.
  induction ys as [|y ys IH]; intro tr; simpl; [reflexivity|].
  unfold IO.bind. destruct (body (g y) tr) as [[r|e] tr']; [|reflexivity].
  destruct (Py.truthy_list r); [reflexivity | apply IH].
Qed.
End ForReturn.

Section Amadeus.
Variable env : Env.
Variable intent : TravelIntent.
Variable max_results : nat.

Let step := amadeus_step env intent max_results.

Lemma combinations_for_return (origins dests : list string)
    (rest : IO (list FlightOption)) :
  forall tr,
    AmadeusFlightService.combinations env origins dests intent max_results
      rest tr
    = IO.for_return (list_prod origins dests) step rest tr.
Proof.
  induction origins as [|o os IH]; intro tr; simpl; [reflexivity|].
  rewrite for_return_app, for_return_map.
  apply for_return_ext. exact IH.
Qed.

(** The search of one route makes one call and never raises. *)
Lemma step_run (route : string * string) (tr : list Event) :
  exists flights outcome,
    step route tr
    = (Py.Ok flights,
       tr ++ [Call (AmadeusFlights (fst route) (snd route)) outcome])
    /\ (flights = [] <-> outcome <> Found)
    /\ (flights <> [] ->
        flight_offers_search env tr (fst route) (snd route) intent
          max_results = Py.Ok flights).
Proof.
  unfold step, amadeus_step, AmadeusFlightService._search_route,
    IO.try_except, IO.call.
  destruct (flight_offers_search env tr (fst route) (snd route) intent
              max_results) as [[|f fs]|e] eqn:E; simpl.
  - exists [], Empty. repeat split; congruence.
  - exists (f :: fs), Found. repeat split; congruence.
  - exists [], Raised. unfold IO.ret. repeat split; congruence.
Qed.

(** The steps are taken in order; all but the last one find nothing; the
    last one is the only one that can find something, and then its answer
    is returned at once; an empty result means that every step was taken. *)
Lemma chain_trace (routes : list (string * string)) (tr : list Event) :
  exists flights outcomes,
    IO.for_return routes step (IO.ret []) tr
    = (Py.Ok flights, tr ++ route_calls routes outcomes)
    /\ (List.length outcomes <= List.length routes)%nat
    /\ ((flights = []
         /\ List.length outcomes = List.length routes
         /\ Forall (fun o => o <> Found) outcomes)
        \/ (flights <> []
            /\ exists earlier route,
                 outcomes = earlier ++ [Found]
                 /\ Forall (fun o => o <> Found) earlier
                 /\ nth_error routes (List.length earlier) = Some route
                 /\ flight_offers_search env
                      (tr ++ route_calls routes earlier)
                      (fst route) (snd route) intent max_results
                    = Py.Ok flights)).
Proof.
  revert tr. induction routes as [|route routes IH]; intro tr.
  - exists [], []. simpl. unfold IO.ret, route_calls. simpl.
    rewrite app_nil_r. split; [reflexivity|]. split; [lia|]. left. auto.
  - destruct (step_run route tr) as (flights & outcome & Hrun & Hout & Hans).
    simpl. unfold IO.bind. rewrite Hrun.
    destruct flights as [|f fs]; cbn [Py.truthy_list].
    + destruct (IH (tr ++ [Call (AmadeusFlights (fst route) (snd route))
                              outcome]))
        as (flights' & outcomes & Hrest & Hlen & Hcases).
      exists flights', (outcome :: outcomes). rewrite Hrest.
      split; [unfold route_calls; simpl; now rewrite <- app_assoc|].
      split; [simpl; lia|].
      destruct Hcases as [(H1 & H2 & H3)|(H1 & earlier & r & H2 & H3 & H4 & H5)].
      * left. split; [exact H1|]. split; [simpl; lia|].
        constructor; [now apply Hout | exact H3].
      * right. split; [exact H1|]. exists (outcome :: earlier), r.
        split; [now rewrite H2|].
        split; [constructor; [now apply Hout | exact H3]|].
        split; [exact H4|].
        unfold route_calls in *. simpl. rewrite <- app_assoc in H5. exact H5.
    + exists (f :: fs), [outcome].
      assert (Hf : outcome = Found).
      { destruct outcome; try reflexivity;
          (assert (Hn : f :: fs = []) by (apply Hout; discriminate));
          discriminate. }
      subst outcome. unfold IO.ret, route_calls. simpl.
      rewrite combine_nil. simpl.
      split; [reflexivity|]. split; [lia|]. right.
      split; [discriminate|]. exists [], route. simpl.
      split; [reflexivity|]. split; [constructor|]. split; [reflexivity|].
      rewrite app_nil_r. apply Hans. discriminate.
Qed.

(** The search of [AmadeusFlightService] is the chain over the routes in
    the order of the specification. *)
Lemma search_flights_chain :
  searchable intent = true ->
  forall tr,
    AmadeusFlightService.search_flights env intent max_results tr
    = IO.for_return
        (amadeus_routes
           (_get_iata_code env (Py.str_opt_str (TravelIntent.origin intent)))
           (_get_iata_code env
              (Py.str_opt_str (TravelIntent.destination intent)))
           (_get_alternative_airports env
              (Py.str_opt_str (TravelIntent.origin intent))
              (_get_iata_code env
                 (Py.str_opt_str (TravelIntent.origin intent))))
           (_get_alternative_airports env
              (Py.str_opt_str (TravelIntent.destination intent))
              (_get_iata_code env
                 (Py.str_opt_str (TravelIntent.destination intent)))))
        step (IO.ret []) tr.
Proof.
  intros Hs tr. unfold searchable in Hs.
  apply andb_prop in Hs. destruct Hs as [Hs H4].
  apply andb_prop in Hs. destruct Hs as [Hs H3].
  apply andb_prop in Hs. destruct Hs as [H1 H2].
  unfold AmadeusFlightService.search_flights.
  rewrite H1, H2, H3, H4. cbn [negb orb]. cbv zeta.
  unfold amadeus_routes. cbn [IO.for_return].
  unfold IO.bind. unfold step at 1. unfold amadeus_step. cbn [fst snd].
  destruct (AmadeusFlightService._search_route env _ _ intent max_results tr)
    as [[r|e] tr']; [|reflexivity].
  destruct (Py.truthy_list r); [reflexivity|].
  rewrite for_return_app, for_return_map. apply for_return_ext. intro tr1.
  rewrite for_return_app, for_return_map. apply for_return_ext. intro tr2.
  apply combinations_for_return.
Qed.

Lemma search_flights_unsearchable :
  searchable intent = false ->
  forall tr,
    AmadeusFlightService.search_flights env intent max_results tr
    = (Py.Ok [], tr).
Proof.
  intros Hs tr. unfold searchable in Hs.
  unfold AmadeusFlightService.search_flights.
  destruct (Py.truthy_str (TravelIntent.origin intent)),
           (Py.truthy_str (TravelIntent.destination intent));
    try reflexivity.
  destruct (Py.truthy_opt (TravelIntent.departure_date intent)),
           (Py.truthy_opt (TravelIntent.return_date intent));
    try reflexivity.
  discriminate.
Qed.
End Amadeus.

(** SerpAPI first; Amadeus only when SerpAPI raised or found nothing; an
    exception of Amadeus is an empty result. *)
Lemma _search_flights_async_order (self : SearchOrchestratorAgent.t)
    (intent : TravelIntent) (tr : list Event) :
  SearchOrchestratorAgent._search_flights_async self intent tr
  = match FlightService.search_flights
            (SearchOrchestratorAgent.serpapi_service self) intent 15%nat tr
    with
    | (Py.Ok (f :: fs), tr1) => (Py.Ok (f :: fs), tr1)
    | (_, tr1) =>
        match FlightService.search_flights
                (SearchOrchestratorAgent.amadeus_service self) intent 15%nat
                tr1
        with
        | (Py.Ok flights, tr2) => (Py.Ok flights, tr2)
        | (Py.Raise _, tr2) => (Py.Ok [], tr2)
        end
    end.
Proof.
  unfold SearchOrchestratorAgent._search_flights_async, IO.bind,
    IO.try_except, IO.ret.
  destruct (FlightService.search_flights _ intent 15%nat tr)
    as [[[|f fs]|e] tr1]; cbn [Py.truthy_list]; try reflexivity.
Qed.



(** In the sample installation the offer into Ciampino is found at the
    third step, after SerpAPI and two Amadeus routes found nothing, and no
    further route is tried. *)
Example ciampino_found_third :
  SearchOrchestratorAgent._search_flights_async
    (SearchOrchestratorAgent.new Samples.ciampino_only false)
    (Samples.intent (Some 10)) []
  = (Py.Ok [Samples.flight_500],
     [Call (SerpAPI "CPH" "ROM") Empty;
      Call (AmadeusFlights "CPH" "ROM") Empty;
      Call (AmadeusFlights "CPH" "FCO") Empty;
      Call (AmadeusFlights "CPH" "CIA") Found]).
Proof. vm_compute. reflexivity. Qed.

End FlightSearchFacts.


(** ** The lodging fallback chain *)

Module HotelSearchFacts.
Import Statements.

Ltac break_oracles :=
  repeat match goal with
         | |- context [match ?x with Py.Ok _ => _ | Py.Raise _ => _ end] =>
             destruct x as [[|? ?]|?] eqn:?;
             cbn [Py.truthy_list fst snd classify] in *
         end.










End HotelSearchFacts.


(** ** The search orchestrator and its two branches *)

Module SearchFacts.
Import SearchOrchestratorAgent Statements.

Ltac state_simpl :=
  cbn [AgentState.flight_options AgentState.accommodation_options
       AgentState.errors AgentState.agent_messages AgentState.parsed_intent
       AgentState.itineraries AgentState.current_step
       AgentState.set_flight_options AgentState.set_accommodation_options
       AgentState.append_error AgentState.append_message
       AgentState.set_current_step AgentState.set_itineraries
       AgentState.set_parsed_intent fst snd] in *.








End SearchFacts.

(** ** The workflow *)

Module WorkflowFacts.
Import TravelConciergeWorkflow Statements.

Lemma lacks_false_iff intent :
  lacks_destination_and_budget intent = false <->
  Py.truthy_str (TravelIntent.destination intent) = true
  \/ Py.truthy_float (TravelIntent.total_budget intent) = true.
Proof.
  unfold lacks_destination_and_budget.
  destruct (Py.truthy_str _), (Py.truthy_float _); simpl; intuition congruence.
Qed.

Lemma gate_absent state :
  AgentState.parsed_intent state = None ->
  _should_continue_after_intent state = (end_, state).
Proof. intro H. unfold _should_continue_after_intent. now rewrite H. Qed.

Lemma gate_lacking state intent :
  AgentState.parsed_intent state = Some intent ->
  lacks_destination_and_budget intent = true ->
  _should_continue_after_intent state
  = (end_,
     AgentState.append_error
       "Missing critical information: destination or budget" state).
Proof.
  intros H L. unfold _should_continue_after_intent. rewrite H.
  unfold lacks_destination_and_budget in L. now rewrite L.
Qed.

Lemma gate_continue state intent :
  AgentState.parsed_intent state = Some intent ->
  lacks_destination_and_budget intent = false ->
  _should_continue_after_intent state = (continue, state).
Proof.
  intros H L. unfold _should_continue_after_intent. rewrite H.
  unfold lacks_destination_and_budget in L. now rewrite L.
Qed.

Ltac finish :=
  repeat (split;
          [first [ reflexivity | discriminate
                 | intros; first [ reflexivity | congruence
                                 | eexists; reflexivity ] ]|]);
  intros; first [ discriminate | congruence | eexists; reflexivity ].




(** C1. A run whose parsed request is absent, or has neither destination
    nor total budget, ends at the first gate: only the intent parser node
    runs, so no flight or lodging provider is called; [run] returns
    success false, no itinerary and an error list of one diagnostic, which
    is the message of the gate when the request is present, and otherwise
    the error the intent parser logged, or the exception of its
    constructor.  The gate answers [end_] in these two cases, appending its
    message in the second one, and [continue] whenever the request is
    present with a destination or a budget. *)
Theorem gate_ends_run (env : Env) (user_message : string)
    (user_id : option string) :
  (parsed_request env user_message user_id = None
   \/ exists intent,
        parsed_request env user_message user_id = Some intent
        /\ Py.truthy_str (TravelIntent.destination intent) = false
        /\ Py.truthy_float (TravelIntent.total_budget intent) = false) ->
  let result := fst (run env user_message user_id) in
  let trace := snd (run env user_message user_id) in
  success result = false
  /\ itineraries result = []
  /\ errors result <> []
  /\ trace = [Node "parse_intent"]
  /\ Forall (fun e => is_provider_call e = false) trace
  /\ (parsed_request env user_message user_id <> None ->
      errors result
      = ["Missing critical information: destination or budget"])
  /\ (parsed_request env user_message user_id = None ->
      exists diagnostic, errors result = [diagnostic])
  (* the gate itself *)
  /\ (forall state,
        AgentState.parsed_intent state = None ->
        _should_continue_after_intent state = (end_, state))
  /\ (forall state intent,
        AgentState.parsed_intent state = Some intent ->
        Py.truthy_str (TravelIntent.destination intent) = false ->
        Py.truthy_float (TravelIntent.total_budget intent) = false ->
        _should_continue_after_intent state
        = (end_,
           AgentState.append_error
             "Missing critical information: destination or budget" state))
  /\ (forall state intent,
        AgentState.parsed_intent state = Some intent ->
        Py.truthy_str (TravelIntent.destination intent) = true
        \/ Py.truthy_float (TravelIntent.total_budget intent) = true ->
        _should_continue_after_intent state = (continue, state)).
Proof.
  intros Hreq result trace.
  assert (Hrun :
    success result = false /\ itineraries result = []
    /\ errors result <> [] /\ trace = [Node "parse_intent"]
    /\ (parsed_request env user_message user_id <> None ->
        errors result
        = ["Missing critical information: destination or budget"])
    /\ (parsed_request env user_message user_id = None ->
        exists diagnostic, errors result = [diagnostic])).
  { subst result trace. revert Hreq.
    unfold parsed_request, run, ainvoke, run_node, IO.bind, IO.log, IO.ret,
      IO.lift, IntentParserAgent.parse_intent_node, IO.bind, IO.lift, IO.ret.
    destruct (IntentParserAgent_init env) as [[]|e]; cbn [app fst snd].
    2: { intros _. cbn. finish. }
    unfold IntentParserAgent.parse_intent.
    cbn [AgentState.user_message AgentState.new].
    destruct (extract_intent env user_message) as [intent|e].
    - cbn [AgentState.parsed_intent AgentState.set_current_step
           AgentState.append_message AgentState.set_parsed_intent].
      intros [H|(intent' & H & Hd & Hb)]; [discriminate|].
      injection H as <-.
      unfold _should_continue_after_intent.
      cbn [AgentState.parsed_intent AgentState.set_current_step
           AgentState.append_message AgentState.set_parsed_intent].
      rewrite Hd, Hb. cbn. finish.
    - intros _. cbn. finish. }
  destruct Hrun as (H1 & H2 & H3 & H4 & H5 & H6).
  split; [exact H1|]. split; [exact H2|]. split; [exact H3|].
  split; [exact H4|].
  split; [rewrite H4; repeat constructor|].
  split; [exact H5|]. split; [exact H6|].
  split; [exact gate_absent|].
  split.
  { intros state intent Hi Hd Hb. apply (gate_lacking Hi).
    unfold lacks_destination_and_budget. now rewrite Hd, Hb. }
  intros state intent Hi Hor. apply (gate_continue Hi).
  now apply lacks_false_iff.
Qed.

Lemma gate_ends_run_witness :
  (parsed_request Samples.offline_vague "somewhere nice" None = None
   \/ exists intent,
        parsed_request Samples.offline_vague "somewhere nice" None
        = Some intent
        /\ Py.truthy_str (TravelIntent.destination intent) = false
        /\ Py.truthy_float (TravelIntent.total_budget intent) = false)
  /\ success (fst (run Samples.offline_vague "somewhere nice" None)) = false
  /\ snd (run Samples.offline_vague "somewhere nice" None)
     = [Node "parse_intent"].
Proof.
  assert (H : parsed_request Samples.offline_vague "somewhere nice" None
              = None
              \/ exists intent,
                   parsed_request Samples.offline_vague "somewhere nice" None
                   = Some intent
                   /\ Py.truthy_str (TravelIntent.destination intent) = false
                   /\ Py.truthy_float (TravelIntent.total_budget intent)
                      = false).
  { right. exists Samples.vague_intent. repeat split. }
  split; [exact H|].
  destruct (@gate_ends_run Samples.offline_vague "somewhere nice" None H)
    as (H1 & _ & _ & H4 & _).
  split; [exact H1 | exact H4].
Defined.

(** The same when the extraction fails: the error of the intent parser is
    the diagnostic. *)
Example extraction_failure_ends_run :
  run (Samples.offline (fun _ => Py.Raise "rate limit")) "Rome" None
  = (mk_result false [] ["Intent Parser Error: rate limit"]
       ["Intent Parser Error: rate limit"] None
       (Some (mk_metadata 0 0 0)),
     [Node "parse_intent"]).
Proof. reflexivity. Qed.

End WorkflowFacts.

(** ** More about the two optimizers *)

Module OptimizerFacts.
Import SearchOrchestratorAgent Statements.

Lemma mapM_Raise {A B} (f : A -> Py.result B) (l : list A) (e : Py.exn) :
  Py.mapM f l = Py.Raise e -> exists x, In x l /\ f x = Py.Raise e.
Proof.
  induction l as [|x l IH]; simpl; [discriminate|].
  destruct (f x) as [y|e'] eqn:Ex; simpl.
  - destruct (Py.mapM f l) as [ys|e'] eqn:El; simpl; [discriminate|].
    intro H. destruct (IH H) as (z & Hz & Hf).
    exists z. split; [now right | exact Hf].
  - intro H. exists x. split; [now left | congruence].
Qed.

Lemma mapM_head_Raise {A B} (f : A -> Py.result B) (x : A) (l : list A)
    (e : Py.exn) :
  f x = Py.Raise e -> Py.mapM f (x :: l) = Py.Raise e.
Proof. intro H. simpl. now rewrite H. Qed.

(** The optimizer ranks the admissible flights, if there are any. *)
Lemma _optimize_flights_admissible flights budget :
  _optimize_flights flights budget
  = match admissible_flights flights budget with
    | [] => Py.Ok []
    | _ :: _ => rank_flights (admissible_flights flights budget)
    end.
Proof.
  unfold _optimize_flights, admissible_flights.
  destruct flights as [|f fs].
  - cbn. now destruct (Py.truthy_float budget).
  - cbn [Py.truthy_list negb].
    destruct budget as [b|]; cbn [Py.truthy_float Py.float_or];
      [|reflexivity].
    destruct (Qeq_bool b 0); cbn [negb]; [reflexivity|].
    now destruct (budget_filter b (f :: fs)).
Qed.

Lemma Qeq_bool_inject_Z_0 (z : Z) : Qeq_bool (inject_Z z) 0 = (z =? 0).
Proof.
  unfold Qeq_bool, inject_Z. cbn [Qnum Qden].
  rewrite Z.mul_1_r. destruct z; reflexivity.
Qed.

(** The score of one flight divides by the two maxima of the pool. *)
Lemma score_flight_cases flights f max_price max_duration :
  Py.max_float (map FlightOption.total_price flights) = Py.Ok max_price ->
  Py.max_int (map FlightOption.total_duration_minutes flights)
  = Py.Ok max_duration ->
  (Qeq_bool max_price 0 = true \/ max_duration = 0 ->
   score_flight flights f = Py.Raise "division by zero")
  /\ (Qeq_bool max_price 0 = false -> max_duration <> 0 ->
      exists s, score_flight flights f = Py.Ok s).
Proof.
  intros Hp Hd. unfold score_flight. rewrite Hp, Hd. cbn [Py.bind].
  unfold Py.truediv. rewrite Qeq_bool_inject_Z_0. split.
  - intros [H| ->].
    + now rewrite H.
    + destruct (Qeq_bool max_price 0); reflexivity.
  - intros H1 H2. rewrite H1. cbn [Py.bind].
    apply Z.eqb_neq in H2. rewrite H2. cbn [Py.bind]. now eexists.
Qed.

Lemma max_float_In (l : list Q) (m : Q) : Py.max_float l = Py.Ok m -> In m l.
Proof.
  destruct l as [|x l]; [discriminate|]. cbn [Py.max_float].
  intro H. injection H as <-. revert x.
  induction l as [|y l IH]; intro x; cbn [fold_left]; [now left|].
  destruct (IH (if Py.Qltb x y then y else x)) as [H|H];
    [|right; now right].
  rewrite <- H. destruct (Py.Qltb x y); [right; now left | now left].
Qed.

Lemma max_int_In (l : list Z) (m : Z) : Py.max_int l = Py.Ok m -> In m l.
Proof.
  destruct l as [|x l]; [discriminate|]. cbn [Py.max_int].
  intro H. injection H as <-. revert x.
  induction l as [|y l IH]; intro x; cbn [fold_left]; [now left|].
  destruct (IH (if x <? y then y else x)) as [H|H];
    [|right; now right].
  rewrite <- H. destruct (x <? y); [right; now left | now left].
Qed.

Lemma rank_flights_Raise flights e :
  rank_flights flights = Py.Raise e -> e = "division by zero".
Proof.
  unfold rank_flights. intro H.
  destruct (Py.mapM _ flights) as [ws|e'] eqn:E; [discriminate|].
  cbn [Py.bind] in H. injection H as <-.
  apply mapM_Raise in E. destruct E as (f & Hf & E).
  destruct flights as [|f0 fs]; [contradiction|].
  destruct (@score_flight_cases (f0 :: fs) f _ _ eq_refl eq_refl)
    as [H1 H2].
  destruct (Qeq_bool _ 0) eqn:Ep in H1, H2.
  - rewrite H1 in E by now left. cbn in E. congruence.
  - destruct (Z.eq_dec
                (fold_left (fun m y => if m <? y then y else m)
                   (map FlightOption.total_duration_minutes fs)
                   (FlightOption.total_duration_minutes f0)) 0) as [Ed|Ed].
    + rewrite H1 in E by now right. cbn in E. congruence.
    + destruct (H2 eq_refl Ed) as [s Hs]. rewrite Hs in E. discriminate.
Qed.

(** X1. What the flight optimizer returns is a selection from the
    admissible flights (those within 40% of a specified budget, all of
    them without one): at most ten, none invented and none repeated more
    often than in the pool, and all of them when there are at most ten.
    The only exception it raises is that of a division by zero, in the
    score. *)
Theorem optimized_flights_from_pool (flights : list FlightOption)
    (budget : option Q) :
  match _optimize_flights flights budget with
  | Py.Ok r =>
      (List.length r <= 10)%nat
      /\ (exists dropped,
            Permutation (r ++ dropped) (admissible_flights flights budget))
      /\ ((List.length (admissible_flights flights budget) <= 10)%nat ->
          Permutation r (admissible_flights flights budget))
  | Py.Raise e => exists x, Py.truediv x 0 = Py.Raise e
  end.
Proof.
  rewrite _optimize_flights_admissible.
  destruct (admissible_flights flights budget) as [|f fs] eqn:Epool.
  - split; [simpl; lia|]. split; [now exists []|]. intros _. constructor.
  - destruct (rank_flights (f :: fs)) as [r|e] eqn:R;
      [|apply rank_flights_Raise in R; subst e; now exists 0%Q].
    destruct (FlightScoreFacts.rank_flights_descending R)
      as (scored & -> & Hperm & _ & _).
    split; [rewrite length_map; apply FlightOptimizerFacts.take_length|].
    split.
    + exists (map fst (skipn 10 scored)).
      rewrite <- map_app. unfold Py.take. rewrite firstn_skipn.
      exact Hperm.
    + intro Hlen. unfold Py.take. rewrite firstn_all2; [exact Hperm|].
      rewrite <- (length_map fst). rewrite (Permutation_length Hperm).
      exact Hlen.
Qed.

(** X2. The ranking raises ZeroDivisionError exactly when the greatest
    price or the longest duration of the pool is 0, and returns otherwise;
    so a pool whose flights all have a positive price and a positive
    duration is ranked whatever the budget. *)
Theorem flight_ranking_zero_division (flights : list FlightOption) :
  (forall max_price max_duration,
     Py.max_float (map FlightOption.total_price flights) = Py.Ok max_price ->
     Py.max_int (map FlightOption.total_duration_minutes flights)
     = Py.Ok max_duration ->
     ((exists e, rank_flights flights = Py.Raise e)
      <-> (max_price == 0)%Q \/ max_duration = 0)
     /\ ((exists r, rank_flights flights = Py.Ok r)
         <-> ~ (max_price == 0)%Q /\ max_duration <> 0))
  /\ (forall budget,
        (forall f, In f flights ->
           (0 < FlightOption.total_price f)%Q
           /\ 0 < FlightOption.total_duration_minutes f) ->
        exists r, _optimize_flights flights budget = Py.Ok r).
Proof.
  assert (Hcases : forall pool max_price max_duration,
    Py.max_float (map FlightOption.total_price pool) = Py.Ok max_price ->
    Py.max_int (map FlightOption.total_duration_minutes pool)
    = Py.Ok max_duration ->
    ((max_price == 0)%Q \/ max_duration = 0 ->
     rank_flights pool = Py.Raise "division by zero")
    /\ (~ (max_price == 0)%Q /\ max_duration <> 0 ->
        exists r, rank_flights pool = Py.Ok r)).
  { intros pool mp md Hp Hd. split.
    - intro Hz. destruct pool as [|f0 fs]; [discriminate|].
      unfold rank_flights.
      rewrite (@mapM_head_Raise _ _ _ f0 fs "division by zero");
        [reflexivity|].
      destruct (score_flight_cases f0 Hp Hd) as [H1 _].
      rewrite H1; [reflexivity|].
      destruct Hz as [Hz|Hz]; [left; now apply Qeq_bool_iff | now right].
    - intros [H1 H2]. unfold rank_flights.
      destruct (@PyFacts.mapM_total _ _
                  (fun f => s <- score_flight pool f ;; Py.Ok (f, s)) pool)
        as [ws Hws].
      { intros f _. destruct (score_flight_cases f Hp Hd) as [_ H].
        destruct H as [s Hs]; [|exact H2|].
        - destruct (Qeq_bool mp 0) eqn:E; [|reflexivity].
          apply Qeq_bool_iff in E. contradiction.
        - rewrite Hs. now eexists. }
      rewrite Hws. cbn [Py.bind]. now eexists. }
  split.
  - intros mp md Hp Hd. destruct (Hcases flights mp md Hp Hd) as [H1 H2].
    split; split.
    + intros [e HR]. destruct (Qeq_dec mp 0) as [E|E]; [now left|].
      destruct (Z.eq_dec md 0) as [E'|E']; [now right|].
      destruct (H2 (conj E E')) as [r Hr]. congruence.
    + intro Hz. eexists. exact (H1 Hz).
    + intros [r Hr]. split.
      * intro E. rewrite H1 in Hr by now left. discriminate.
      * intro E. rewrite H1 in Hr by now right. discriminate.
    + exact H2.
  - intros budget Hpos. rewrite _optimize_flights_admissible.
    destruct (admissible_flights flights budget) as [|f fs] eqn:Epool;
      [now eexists|].
    assert (Hsub : forall g, In g (f :: fs) -> In g flights).
    { intros g Hg. rewrite <- Epool in Hg. unfold admissible_flights in Hg.
      destruct (Py.truthy_float budget); [|exact Hg].
      now apply FlightOptimizerFacts.budget_filter_In in Hg. }
    destruct (Py.max_float (map FlightOption.total_price (f :: fs)))
      as [mp|] eqn:Hp; [|discriminate].
    destruct (Py.max_int (map FlightOption.total_duration_minutes (f :: fs)))
      as [md|] eqn:Hd; [|discriminate].
    destruct (Hcases (f :: fs) mp md Hp Hd) as [_ H]. apply H.
    apply max_float_In in Hp. apply max_int_In in Hd.
    apply in_map_iff in Hp. destruct Hp as (g & <- & Hg).
    apply in_map_iff in Hd. destruct Hd as (g' & <- & Hg').
    destruct (Hpos g (Hsub g Hg)) as [P1 _].
    destruct (Hpos g' (Hsub g' Hg')) as [_ P2].
    split; [|lia]. intro E. rewrite E in P1. now apply Qlt_irrefl in P1.
Qed.

End OptimizerFacts.

(** ** The budget filter of the flight optimizer *)

Module BudgetFilterFacts.
Import SearchOrchestratorAgent Statements.

(** A pool of flights that all cost something and last some time is
    ranked. *)
Lemma rank_flights_returns (pool : list FlightOption) :
  (forall f, In f pool ->
     (0 < FlightOption.total_price f)%Q
     /\ 0 < FlightOption.total_duration_minutes f) ->
  exists r, rank_flights pool = Py.Ok r.
Proof.
  intro Hpos. destruct pool as [|f fs]; [now eexists|].
  destruct (Py.max_float (map FlightOption.total_price (f :: fs)))
    as [mp|] eqn:Hp; [|discriminate].
  destruct (Py.max_int (map FlightOption.total_duration_minutes (f :: fs)))
    as [md|] eqn:Hd; [|discriminate].
  assert (Hmp : Qeq_bool mp 0 = false).
  { pose proof (OptimizerFacts.max_float_In Hp) as Hin.
    apply in_map_iff in Hin. destruct Hin as (g & <- & Hg).
    destruct (Hpos g Hg) as [P _].
    destruct (Qeq_bool (FlightOption.total_price g) 0) eqn:E;
      [|reflexivity].
    apply Qeq_bool_iff in E. rewrite E in P. now apply Qlt_irrefl in P. }
  assert (Hmd : md <> 0).
  { pose proof (OptimizerFacts.max_int_In Hd) as Hin.
    apply in_map_iff in Hin. destruct Hin as (g & <- & Hg).
    destruct (Hpos g Hg) as [_ P]. lia. }
  unfold rank_flights.
  destruct (@PyFacts.mapM_total _ _
              (fun g => s <- score_flight (f :: fs) g ;; Py.Ok (g, s))
              (f :: fs)) as [ws Hws].
  { intros g _.
    destruct (OptimizerFacts.score_flight_cases g Hp Hd) as [_ H].
    destruct (H Hmp Hmd) as [sc ->]. now eexists. }
  rewrite Hws. cbn [Py.bind]. now eexists.
Qed.

(** What the ranking returns: the ten best of the pool, all of it when it
    has at most ten flights. *)
Lemma rank_flights_selection pool r :
  rank_flights pool = Py.Ok r ->
  List.length r = Nat.min 10 (List.length pool)
  /\ exists dropped, Permutation (r ++ dropped) pool.
Proof.
  intro R.
  destruct (FlightScoreFacts.rank_flights_descending R)
    as (scored & -> & Hperm & _ & _).
  split.
  - rewrite length_map. unfold Py.take. rewrite length_firstn.
    rewrite <- (Permutation_length Hperm), length_map. reflexivity.
  - exists (map fst (skipn 10 scored)).
    rewrite <- map_app. unfold Py.take. rewrite firstn_skipn.
    exact Hperm.
Qed.

(** C3. For every flight pool and every specified budget (one that passes
    the test [if budget:]), the budget filter keeps exactly the flights
    whose total price is at most 0.4 * budget and removes exactly those
    above it, and the optimizer goes on with the flights kept and with
    nothing else: what it returns are the ten best of them, all of them
    when they are at most ten, so that every flight within the threshold
    is returned then and no flight above it ever is.  When every price,
    or the cheapest one, exceeds the threshold, [_optimize_flights]
    returns the empty pool.  It does return when the flights kept have a
    positive price and a positive duration. *)
Theorem budget_filter_exact (flights : list FlightOption) (b : Q) :
  Py.truthy_float (Some b) = true ->
  let threshold := (0.4 * b)%Q in
  let kept := budget_filter b flights in
  (forall f, In f kept <->
             In f flights /\ (FlightOption.total_price f <= threshold)%Q)
  /\ (forall f, In f flights ->
        (~ In f kept <-> (threshold < FlightOption.total_price f)%Q))
  /\ _optimize_flights flights (Some b) = _optimize_flights kept None
  /\ (forall r,
        _optimize_flights flights (Some b) = Py.Ok r ->
        List.length r = Nat.min 10 (List.length kept)
        /\ (exists dropped, Permutation (r ++ dropped) kept)
        /\ (forall f, In f r ->
              In f flights
              /\ (FlightOption.total_price f <= threshold)%Q)
        /\ ((List.length kept <= 10)%nat ->
            forall f,
              In f r <->
              In f flights
              /\ (FlightOption.total_price f <= threshold)%Q))
  /\ ((forall f, In f flights ->
         (threshold < FlightOption.total_price f)%Q) ->
      _optimize_flights flights (Some b) = Py.Ok [])
  /\ (forall cheapest_price,
        Py.min_float (map FlightOption.total_price flights)
        = Py.Ok cheapest_price ->
        (threshold < cheapest_price)%Q ->
        _optimize_flights flights (Some b) = Py.Ok [])
  /\ ((forall f, In f kept ->
         (0 < FlightOption.total_price f)%Q
         /\ 0 < FlightOption.total_duration_minutes f) ->
      exists r, _optimize_flights flights (Some b) = Py.Ok r).
Proof.
  intros Hb threshold kept.
  assert (Hz : Qeq_bool b 0 = false).
  { simpl in Hb. now apply negb_true_iff in Hb. }
  assert (Hkept : forall f,
            In f kept <->
            In f flights /\ (FlightOption.total_price f <= threshold)%Q).
  { intro f. apply FlightOptimizerFacts.budget_filter_In. }
  assert (Hopt : _optimize_flights flights (Some b)
                 = match kept with
                   | [] => Py.Ok []
                   | _ :: _ => rank_flights kept
                   end).
  { rewrite OptimizerFacts._optimize_flights_admissible.
    unfold admissible_flights. rewrite Hb. cbn [Py.float_or].
    rewrite Hz. reflexivity. }
  assert (Hall : (forall f, In f flights ->
                    (threshold < FlightOption.total_price f)%Q) ->
                 _optimize_flights flights (Some b) = Py.Ok []).
  { intros Habove. rewrite Hopt.
    destruct kept as [|g gs]; [reflexivity|]. exfalso.
    destruct (proj1 (Hkept g) (or_introl eq_refl)) as [Hin Hle].
    exact (Qlt_not_le _ _ (Habove g Hin) Hle). }
  assert (Hsel : forall r,
            _optimize_flights flights (Some b) = Py.Ok r ->
            List.length r = Nat.min 10 (List.length kept)
            /\ exists dropped, Permutation (r ++ dropped) kept).
  { intros r Hr. rewrite Hopt in Hr. destruct kept as [|g gs] eqn:E.
    - injection Hr as <-. split; [reflexivity|]. now exists [].
    - now apply rank_flights_selection. }
  split; [exact Hkept|]. split; [|split; [|split; [|split; [|split]]]].
  - intros f Hin. split.
    + intros Hnot. apply Qnot_le_lt. intro Hle. apply Hnot.
      apply Hkept. now split.
    + intros Hlt Hin'. apply Hkept in Hin'.
      exact (Qlt_not_le _ _ Hlt (proj2 Hin')).
  - rewrite Hopt, OptimizerFacts._optimize_flights_admissible.
    unfold admissible_flights. cbn [Py.truthy_float]. reflexivity.
  - intros r Hr. destruct (Hsel r Hr) as (Hlen & dropped & Hperm).
    split; [exact Hlen|]. split; [now exists dropped|]. split.
    + intros f Hf. apply Hkept.
      apply (Permutation_in _ Hperm). apply in_or_app. now left.
    + intros Hten f. rewrite <- Hkept.
      assert (Hd : dropped = []).
      { apply Permutation_length in Hperm. rewrite length_app in Hperm.
        destruct dropped; [reflexivity|]. cbn [List.length] in Hperm. lia. }
      subst dropped. rewrite app_nil_r in Hperm. split.
      * apply (Permutation_in _ Hperm).
      * apply (Permutation_in _ (Permutation_sym Hperm)).
  - exact Hall.
  - intros m Hm Hlt. apply Hall. intros f Hf.
    eapply Qlt_le_trans; [exact Hlt|].
    apply (FlightOptimizerFacts.min_float_le Hm). now apply in_map.
  - intro Hpos. rewrite Hopt. destruct kept as [|g gs] eqn:E;
      [now eexists|].
    now apply rank_flights_returns.
Qed.

(** The flight for 500 is within 40% of 2000, the one for 900 is not. *)
Lemma budget_filter_exact_witness :
  Py.truthy_float (Some 2000%Q) = true
  /\ forall r,
       _optimize_flights [Samples.flight_500; Samples.flight_900]
         (Some 2000%Q) = Py.Ok r ->
       forall f, In f r <-> f = Samples.flight_500.
Proof.
  split; [reflexivity|]. intros r Hr f.
  destruct (@budget_filter_exact [Samples.flight_500; Samples.flight_900]
              2000%Q eq_refl) as (_ & _ & _ & H & _).
  destruct (H r Hr) as (Hlen & (dropped & Hperm) & _ & _).
  change (budget_filter 2000 [Samples.flight_500; Samples.flight_900])
    with [Samples.flight_500] in Hlen, Hperm.
  destruct r as [|g [|g' r]]; try discriminate Hlen.
  destruct dropped; [|apply Permutation_length in Hperm; discriminate].
  apply Permutation_length_1_inv in Hperm. injection Hperm as ->.
  cbn [In]. intuition.
Defined.

End BudgetFilterFacts.

(** ** More about the search orchestrator *)

Module SearchStateFacts.
Import SearchOrchestratorAgent Statements.

Lemma extends_refl {A} (l : list A) : extends l l.
Proof. exists []. now rewrite app_nil_r. Qed.

Lemma extends_app {A} (l more : list A) : extends (l ++ more) l.
Proof. now exists more. Qed.

Lemma extends_trans {A} (l1 l2 l3 : list A) :
  extends l1 l2 -> extends l2 l3 -> extends l1 l3.
Proof.
  intros [m1 ->] [m2 ->]. exists (m2 ++ m1). now rewrite app_assoc.
Qed.

(** What [search_with] leaves alone, and what it only appends to. *)
Lemma search_with_frame intent state flight_results hotel_results :
  let s := search_with intent state flight_results hotel_results in
  extends (AgentState.agent_messages s) (AgentState.agent_messages state)
  /\ extends (AgentState.errors s) (AgentState.errors state)
  /\ AgentState.parsed_intent s = AgentState.parsed_intent state
  /\ AgentState.itineraries s = AgentState.itineraries state
  /\ AgentState.user_message s = AgentState.user_message state.
Proof.
  cbv zeta. unfold search_with, optimize_results, handle_results.
  destruct flight_results, hotel_results; SearchFacts.state_simpl;
    destruct (_optimize_flights _ _); SearchFacts.state_simpl;
    try destruct (_optimize_hotels _ _ _); SearchFacts.state_simpl;
    cbn [AgentState.user_message];
    repeat split; unfold extends; rewrite <- ?app_assoc;
    first [ eexists; reflexivity | exists []; now rewrite app_nil_r ].
Qed.

(** X3. A ZeroDivisionError of the flight ranking is caught by [search]:
    it is reported once in the errors and once in the messages, the step
    is not advanced, and both pools stay as the providers returned them,
    neither filtered by the budget nor ranked. *)
Theorem optimizer_failure_recorded (intent : TravelIntent)
    (state : AgentState) (flights : list FlightOption)
    (hotel_results : Py.result (list AccommodationOption)) (e : Py.exn) :
  _optimize_flights flights (TravelIntent.total_budget intent)
  = Py.Raise e ->
  let s := search_with intent state (Py.Ok flights) hotel_results in
  let msg := ("Search Orchestrator Error: " ++ e)%string in
  AgentState.flight_options s = flights
  /\ AgentState.accommodation_options s
     = match hotel_results with
       | Py.Ok hotels => hotels
       | Py.Raise _ => []
       end
  /\ AgentState.current_step s = AgentState.current_step state
  /\ AgentState.errors s
     = AgentState.errors state
       ++ match hotel_results with
          | Py.Ok _ => []
          | Py.Raise e' => [("Hotel search error: " ++ e')%string]
          end
       ++ [msg]
  /\ AgentState.agent_messages s
     = AgentState.agent_messages state
       ++ ["Search Orchestrator: Searching for flights and hotels..."; msg].
Proof.
  intro H. cbv zeta. unfold search_with, optimize_results, handle_results.
  destruct hotel_results; SearchFacts.state_simpl; rewrite H;
    SearchFacts.state_simpl; rewrite <- ?app_assoc; repeat split.
Qed.

Lemma optimizer_failure_recorded_witness :
  exists e,
    _optimize_flights [Samples.flight_free]
      (TravelIntent.total_budget (Samples.intent (Some 10)))
    = Py.Raise e
    /\ AgentState.flight_options
         (search_with (Samples.intent (Some 10))
            (AgentState.new "Rome for 10 days" None)
            (Py.Ok [Samples.flight_free]) (Py.Ok [Samples.hotel_80]))
       = [Samples.flight_free].
Proof.
  eexists. split; [reflexivity|].
  exact (proj1 (@optimizer_failure_recorded (Samples.intent (Some 10))
                  (AgentState.new "Rome for 10 days" None)
                  [Samples.flight_free] (Py.Ok [Samples.hotel_80]) _
                  eq_refl)).
Defined.

(** X4. [search] only appends to the messages and the errors, and leaves
    the request, the user message and the itineraries alone.  Without a
    parsed request it calls no provider, keeps both pools and reports the
    missing request. *)
Theorem search_appends_only (self : t) (state : AgentState)
    (tr : list Event) :
  exists s' calls,
    search self state tr = (Py.Ok s', tr ++ calls)
    /\ extends (AgentState.agent_messages s') (AgentState.agent_messages state)
    /\ extends (AgentState.errors s') (AgentState.errors state)
    /\ AgentState.parsed_intent s' = AgentState.parsed_intent state
    /\ AgentState.itineraries s' = AgentState.itineraries state
    /\ AgentState.user_message s' = AgentState.user_message state
    /\ (AgentState.parsed_intent state = None ->
        calls = []
        /\ AgentState.flight_options s' = AgentState.flight_options state
        /\ AgentState.accommodation_options s'
           = AgentState.accommodation_options state
        /\ AgentState.errors s'
           = AgentState.errors state
             ++ ["Search Orchestrator: No parsed intent found"]).
Proof.
  unfold search. destruct (AgentState.parsed_intent state) as [intent|] eqn:E.
  - destruct (_search_flights_async self intent []) as [fr fc].
    destruct (HotelService.search_hotels _ intent 20%nat []) as [hr hc].
    eexists _, _. split; [reflexivity|].
    destruct (search_with_frame intent state fr hr) as (H1 & H2 & H3 & H4 & H5).
    rewrite H3, H4, H5.
    do 5 (split; [first [assumption | reflexivity]|]). discriminate.
  - unfold IO.ret. eexists _, []. rewrite app_nil_r. split; [reflexivity|].
    SearchFacts.state_simpl. cbn [AgentState.user_message].
    do 5 (split; [first [apply extends_app | assumption | reflexivity]|]).
    intros _. repeat split.
Qed.

(** The ranges are filled from the ranked hotels only. *)
Lemma fold_ranges_In ranked r h :
  In h (low (fold_left add_to_range ranked r))
  \/ In h (mid (fold_left add_to_range ranked r))
  \/ In h (high (fold_left add_to_range ranked r)) ->
  In h ranked \/ In h (low r) \/ In h (mid r) \/ In h (high r).
Proof.
  revert r. induction ranked as [|x ranked IH]; intros r H;
    cbn [fold_left] in H; [now right|].
  apply IH in H. destruct H as [H|H]; [left; now right|].
  unfold add_to_range in H.
  destruct (Py.Qltb (AccommodationOption.price_per_night x) 100);
    [|destruct (Py.Qltb (AccommodationOption.price_per_night x) 200)];
    cbn [low mid high] in H; rewrite ?in_app_iff in H; cbn [In] in H;
    intuition (subst; auto; left; now left).
Qed.

Lemma select_by_price_range_In ranked h :
  In h (select_by_price_range ranked) -> In h ranked.
Proof.
  unfold select_by_price_range. intro H.
  apply FlightOptimizerFacts.take_In in H.
  rewrite !in_app_iff in H.
  destruct (@fold_ranges_In ranked (mk_ranges [] [] []) h) as [G|G].
  - destruct H as [H|[H|H]]; apply FlightOptimizerFacts.take_In in H;
      auto.
  - exact G.
  - cbn in G. intuition.
Qed.

(** The optimizer scores and selects the admissible hotels. *)
Lemma _optimize_hotels_In hotels budget style r h :
  _optimize_hotels hotels budget style = Py.Ok r -> In h r ->
  In h (admissible_hotels hotels budget).
Proof.
  unfold _optimize_hotels, admissible_hotels.
  destruct hotels as [|h0 hs].
  { cbn. intro H. injection H as <-. contradiction. }
  cbn [Py.truthy_list negb].
  set (pool := match budget with Some _ => _ | None => _ end).
  assert (Hpool :
    pool = if Py.truthy_float budget
           then filter
                  (fun h =>
                     Qle_bool (AccommodationOption.total_price h)
                       (Py.float_or budget 0 * 0.4)%Q)
                  (h0 :: hs)
           else h0 :: hs).
  { unfold pool. destruct budget as [b|]; [|reflexivity].
    cbn [Py.truthy_float Py.float_or]. now destruct (Qeq_bool b 0). }
  rewrite <- Hpool. clearbody pool.
  destruct (Py.mapM _ pool) as [ws|e] eqn:E; [|discriminate].
  cbn [Py.bind]. intro H. injection H as <-. intro Hh.
  apply select_by_price_range_In in Hh.
  apply PyFacts.mapM_keyed_fst in E. destruct E as [E _]. rewrite <- E.
  apply in_map_iff in Hh. destruct Hh as (p & <- & Hp). apply in_map.
  unfold Py.sorted_reverse in Hp. now apply PyFacts.sort_by_In in Hp.
Qed.

(** X5. The hotel optimizer always returns, and only hotels of the pool;
    with a specified budget every hotel it returns costs at most 40% of
    the budget for the whole stay. *)
Theorem optimized_hotels_from_pool (hotels : list AccommodationOption)
    (budget : option Q) (style : string) :
  exists r,
    _optimize_hotels hotels budget style = Py.Ok r
    /\ (forall h, In h r -> In h hotels)
    /\ (forall b,
          budget = Some b -> Py.truthy_float budget = true ->
          forall h, In h r ->
            (AccommodationOption.total_price h <= 0.4 * b)%Q).
Proof.
  destruct (LodgingSelectionFacts._optimize_hotels_total hotels budget style)
    as [ranked H].
  eexists. split; [exact H|]. split.
  - intros h Hh. apply (_optimize_hotels_In H) in Hh.
    unfold admissible_hotels in Hh.
    destruct (Py.truthy_float budget); [|exact Hh].
    now apply filter_In in Hh.
  - intros b -> Hb h Hh. apply (_optimize_hotels_In H) in Hh.
    unfold admissible_hotels in Hh. rewrite Hb in Hh.
    apply filter_In in Hh. destruct Hh as [_ Hh].
    apply Qle_bool_iff in Hh. cbn [Py.float_or] in Hh.
    cbn [Py.truthy_float] in Hb. apply negb_true_iff in Hb.
    rewrite Hb in Hh. now rewrite (Qmult_comm 0.4).
Qed.

End SearchStateFacts.

(** ** More about the provider clients *)

Module ProviderFacts.
Import Statements.

Lemma searchable_false_cases intent :
  searchable intent = false ->
  negb (Py.truthy_str (TravelIntent.origin intent))
  || negb (Py.truthy_str (TravelIntent.destination intent)) = true
  \/ negb (Py.truthy_opt (TravelIntent.departure_date intent))
     || negb (Py.truthy_opt (TravelIntent.return_date intent)) = true.
Proof.
  unfold searchable.
  destruct (Py.truthy_str (TravelIntent.origin intent)),
    (Py.truthy_str (TravelIntent.destination intent)),
    (Py.truthy_opt (TravelIntent.departure_date intent)),
    (Py.truthy_opt (TravelIntent.return_date intent)); cbn; auto.
Qed.

(** One run of the SerpAPI client. *)
Lemma serpapi_run env intent max_results tr :
  exists flights calls,
    SerpAPIFlightService.search_flights env intent max_results tr
    = (Py.Ok flights, tr ++ calls)
    /\ (List.length flights <= max_results)%nat
    /\ (List.length calls <= 1)%nat
    /\ Forall (fun e => is_flight_call e = true) calls
    /\ (serpapi_key env = "" \/ searchable intent = false ->
        flights = [] /\ calls = [])
    /\ (flights <> [] ->
        exists answer,
          google_flights env tr (departure_id env intent)
            (arrival_id env intent) intent = Py.Ok answer
          /\ flights = Py.take max_results answer
          /\ calls
             = [Call (SerpAPI (departure_id env intent)
                        (arrival_id env intent)) Found]).
Proof.
  unfold SerpAPIFlightService.search_flights, departure_id, arrival_id.
  destruct (String.eqb (serpapi_key env) "") eqn:Ek.
  { exists [], []. unfold IO.ret. rewrite app_nil_r.
    repeat split; simpl; try lia; try constructor; congruence. }
  apply String.eqb_neq in Ek.
  destruct (negb (Py.truthy_str (TravelIntent.origin intent))
            || negb (Py.truthy_str (TravelIntent.destination intent)))
    eqn:E1.
  { exists [], []. unfold IO.ret. rewrite app_nil_r.
    repeat split; simpl; try lia; try constructor; congruence. }
  destruct (negb (Py.truthy_opt (TravelIntent.departure_date intent))
            || negb (Py.truthy_opt (TravelIntent.return_date intent)))
    eqn:E2.
  { exists [], []. unfold IO.ret. rewrite app_nil_r.
    repeat split; simpl; try lia; try constructor; congruence. }
  assert (Hs : ~ (serpapi_key env = "" \/ searchable intent = false)).
  { intros [H|H]; [contradiction|].
    apply searchable_false_cases in H. destruct H; congruence. }
  unfold IO.try_except, IO.bind, IO.call, IO.ret.
  destruct (google_flights env tr _ _ intent) as [[|f fs]|e] eqn:Eg;
    cbn [classify]; eexists _, _; (split; [reflexivity|]).
  - unfold Py.take. rewrite firstn_nil.
    repeat split; simpl; try lia; try (repeat constructor);
      try contradiction; congruence.
  - split; [apply FlightOptimizerFacts.take_length|].
    split; [simpl; lia|]. split; [repeat constructor|].
    split; [intro; contradiction|].
    intros _. exists (f :: fs). repeat split.
  - repeat split; simpl; try lia; try (repeat constructor);
      try contradiction; congruence.
Qed.

(** X6. The SerpAPI client never raises and sends at most one request;
    without a key, an origin, a destination or one of the two dates it
    sends none and finds nothing; what it finds is the first
    [max_results] flights of the answer to that one request. *)
Theorem serpapi_search_contained (env : Env) (intent : TravelIntent)
    (max_results : nat) (tr : list Event) :
  exists flights calls,
    SerpAPIFlightService.search_flights env intent max_results tr
    = (Py.Ok flights, tr ++ calls)
    /\ (List.length flights <= max_results)%nat
    /\ (List.length calls <= 1)%nat
    /\ Forall (fun e => is_flight_call e = true) calls
    /\ (serpapi_key env = "" \/ searchable intent = false ->
        flights = [] /\ calls = [])
    /\ (flights <> [] ->
        exists answer,
          google_flights env tr (departure_id env intent)
            (arrival_id env intent) intent = Py.Ok answer
          /\ flights = Py.take max_results answer
          /\ calls
             = [Call (SerpAPI (departure_id env intent)
                        (arrival_id env intent)) Found]).
Proof. apply serpapi_run. Qed.

Lemma route_calls_flight routes outcomes :
  Forall (fun e => is_flight_call e = true) (route_calls routes outcomes).
Proof.
  unfold route_calls. apply Forall_forall. intros e He.
  apply in_map_iff in He. now destruct He as (ro & <- & _).
Qed.

(** One run of the Amadeus client. *)
Lemma amadeus_run env intent max_results tr :
  exists flights calls,
    AmadeusFlightService.search_flights env intent max_results tr
    = (Py.Ok flights, tr ++ calls)
    /\ Forall (fun e => is_flight_call e = true) calls
    /\ (searchable intent = false -> flights = [] /\ calls = []).
Proof.
  destruct (searchable intent) eqn:Es.
  - rewrite FlightSearchFacts.search_flights_chain by exact Es.
    match goal with
    | |- context [IO.for_return ?routes _ _ _] =>
        destruct (FlightSearchFacts.chain_trace env intent max_results
                    routes tr) as (flights & outcomes & H & _)
    end.
    exists flights. eexists. split; [exact H|].
    split; [apply route_calls_flight | discriminate].
  - exists [], []. rewrite app_nil_r.
    split; [now apply FlightSearchFacts.search_flights_unsearchable|].
    split; [constructor | now split].
Qed.

(** The SerpAPI client when Google Flights answers with flights. *)
Lemma serpapi_found env intent max_results tr answer :
  serpapi_key env <> "" -> searchable intent = true ->
  google_flights env tr (departure_id env intent) (arrival_id env intent)
    intent = Py.Ok answer ->
  answer <> [] ->
  SerpAPIFlightService.search_flights env intent max_results tr
  = (Py.Ok (Py.take max_results answer),
     tr ++ [Call (SerpAPI (departure_id env intent) (arrival_id env intent))
              Found]).
Proof.
  intros Hk Hs Hg Hne. unfold departure_id, arrival_id in *.
  unfold SerpAPIFlightService.search_flights.
  apply String.eqb_neq in Hk. rewrite Hk.
  unfold searchable in Hs. apply andb_prop in Hs. destruct Hs as [Hs H4].
  apply andb_prop in Hs. destruct Hs as [Hs H3].
  apply andb_prop in Hs. destruct Hs as [H1 H2].
  rewrite H1, H2, H3, H4. cbn [negb orb].
  unfold IO.try_except, IO.bind, IO.call, IO.ret. rewrite Hg.
  destruct answer; [congruence|]. reflexivity.
Qed.

(** One run of the flight search with the two clients of the repository. *)
Lemma flight_search_run env use_mock_hotels intent tr :
  exists flights calls,
    SearchOrchestratorAgent._search_flights_async
      (SearchOrchestratorAgent.new env use_mock_hotels) intent tr
    = (Py.Ok flights, tr ++ calls)
    /\ Forall (fun e => is_flight_call e = true) calls
    /\ (searchable intent = false -> flights = [] /\ calls = []).
Proof.
  rewrite FlightSearchFacts._search_flights_async_order.
  cbn [SearchOrchestratorAgent.new SearchOrchestratorAgent.serpapi_service
       SearchOrchestratorAgent.amadeus_service
       SerpAPIFlightService.new AmadeusFlightService.new
       FlightService.search_flights].
  destruct (serpapi_run env intent 15 tr)
    as (f1 & c1 & H1 & _ & _ & Hc1 & Hu1 & _).
  destruct (amadeus_run env intent 15 (tr ++ c1))
    as (f2 & c2 & H2 & Hc2 & Hu2).
  rewrite H1. destruct f1 as [|f fs].
  - rewrite H2. exists f2, (c1 ++ c2). rewrite app_assoc.
    split; [reflexivity|]. split; [now apply Forall_app|].
    intro Hs. destruct (Hu1 (or_intror Hs)) as [_ ->].
    destruct (Hu2 Hs) as [-> ->]. now split.
  - exists (f :: fs), c1. split; [reflexivity|]. split; [exact Hc1|].
    intro Hs. destruct (Hu1 (or_intror Hs)). discriminate.
Qed.

(** X7. With the two flight clients of the repository the flight search
    never raises and logs requests to flight providers only; a request
    without origin, destination or dates is not sent anywhere; and when
    Google Flights answers with flights, they are returned (the first 15)
    after that single request, Amadeus not being asked. *)
Theorem flight_search_contained (env : Env) (use_mock_hotels : bool)
    (intent : TravelIntent) (tr : list Event) :
  exists flights calls,
    SearchOrchestratorAgent._search_flights_async
      (SearchOrchestratorAgent.new env use_mock_hotels) intent tr
    = (Py.Ok flights, tr ++ calls)
    /\ Forall (fun e => is_flight_call e = true) calls
    /\ (searchable intent = false -> flights = [] /\ calls = [])
    /\ (forall answer,
          serpapi_key env <> "" -> searchable intent = true ->
          google_flights env tr (departure_id env intent)
            (arrival_id env intent) intent = Py.Ok answer ->
          answer <> [] ->
          flights = Py.take 15 answer
          /\ calls
             = [Call (SerpAPI (departure_id env intent)
                        (arrival_id env intent)) Found]).
Proof.
  destruct (flight_search_run env use_mock_hotels intent tr)
    as (flights & calls & H & Hc & Hu).
  exists flights, calls. split; [exact H|]. split; [exact Hc|].
  split; [exact Hu|].
  intros answer Hk Hs Hg Hne.
  rewrite FlightSearchFacts._search_flights_async_order in H.
  cbn [SearchOrchestratorAgent.new SearchOrchestratorAgent.serpapi_service
       SerpAPIFlightService.new FlightService.search_flights] in H.
  rewrite (serpapi_found 15 Hk Hs Hg Hne) in H.
  destruct answer as [|a answer]; [congruence|].
  change (Py.take 15 (a :: answer)) with (a :: Py.take 14 answer) in *.
  injection H as <- H. apply app_inv_head in H. now subst.
Qed.

End ProviderFacts.

(** ** More about the lodging search *)

Module LodgingSearchFacts.
Import Statements.

(** One run of the lodging search. *)
Lemma hotel_search_run env use_mock intent max_results tr :
  exists hotels calls,
    HotelSearchService.search_hotels env use_mock intent max_results tr
    = (Py.Ok hotels, tr ++ calls)
    /\ Forall (fun e => is_lodging_event e = true) calls
    /\ (List.length calls <= 4)%nat
    /\ (Py.truthy_str (TravelIntent.destination intent) = false ->
        hotels = [] /\ calls = []).
Proof.
  unfold HotelSearchService.search_hotels,
    HotelSearchService._search_booking_com,
    HotelSearchService._generate_mock_hotels,
    IO.bind, IO.try_except, IO.call, IO.ret, IO.log.
  destruct (Py.truthy_str (TravelIntent.destination intent)); cbn [negb].
  2: { exists [], []. rewrite app_nil_r. repeat split; simpl; auto. }
  destruct use_mock;
    [|destruct (Py.truthy_str (hotelbeds_api_key env)
                && Py.truthy_str (hotelbeds_api_secret env));
      destruct (Py.truthy_str (booking_com_api_key env));
      HotelSearchFacts.break_oracles];
    repeat rewrite <- app_assoc; cbn [app];
    eexists _, _; (split; [reflexivity|]);
    (split; [repeat constructor|]);
    (split; [simpl; lia | discriminate]).
Qed.




End LodgingSearchFacts.

(** ** More about the taste profiler *)

Module TasteFacts.
Import TasteProfilerAgent Statements.

Lemma clamp_unit (x : Q) : (0 <= Py.min2 1.0 (Py.max2 0.0 x) <= 1)%Q.
Proof.
  unfold Py.min2, Py.max2.
  destruct (Py.Qltb 0.0 x) eqn:E1.
  - apply PyFacts.Qltb_lt in E1. destruct (Py.Qltb x 1.0) eqn:E2.
    + apply PyFacts.Qltb_lt in E2. split; lra.
    + split; lra.
  - destruct (Py.Qltb 0.0 1.0) eqn:E2.
    + split; lra.
    + apply PyFacts.Qltb_ge in E2. lra.
Qed.

Ltac peel H :=
  repeat match type of H with
         | Py.bind ?c _ = _ =>
             destruct c; cbn [Py.bind] in H; [|discriminate]
         end.

Lemma _score_flight_clamped f p i s :
  _score_flight f p i = Py.Ok s ->
  exists x, s = Py.min2 1.0 (Py.max2 0.0 x).
Proof.
  unfold _score_flight. intro H. peel H. injection H as <-. now eexists.
Qed.

Lemma _score_hotel_clamped h p i s :
  _score_hotel h p i = Py.Ok s ->
  exists x, s = Py.min2 1.0 (Py.max2 0.0 x).
Proof.
  unfold _score_hotel. intro H. peel H. injection H as <-. now eexists.
Qed.

(** X10. The taste score of a flight and the taste score of a lodging
    are always between 0 and 1. *)
Theorem taste_scores_in_unit_interval :
  (forall f p i s, _score_flight f p i = Py.Ok s -> (0 <= s <= 1)%Q)
  /\ (forall h p i s, _score_hotel h p i = Py.Ok s -> (0 <= s <= 1)%Q).
Proof.
  split; intros x p i s H;
    [apply _score_flight_clamped in H | apply _score_hotel_clamped in H];
    destruct H as [y ->]; apply clamp_unit.
Qed.

(** 40% of a budget that passes [if budget:] is not zero. *)
Lemma budget_of_nonzero i b :
  budget_of i = Some b -> Qeq_bool (b * 0.4) 0 = false.
Proof.
  unfold budget_of. destruct i as [intent|]; [|discriminate].
  destruct (TravelIntent.total_budget intent) as [b'|]; [|discriminate].
  destruct (Qeq_bool b' 0) eqn:E; [discriminate|].
  intro H. injection H as <-.
  destruct (Qeq_bool (b' * 0.4) 0) eqn:E'; [|reflexivity].
  apply Qeq_bool_iff in E'.
  assert (Hb : (b' == 0)%Q) by lra.
  apply Qeq_bool_iff in Hb. congruence.
Qed.

(** The flight score fails on the first outbound segment only. *)
Lemma _score_flight_cases f p i :
  (String.eqb (TasteProfile.comfort_level p) "high" = true
   /\ FlightOption.outbound_segments f = [] ->
   _score_flight f p i = Py.Raise "list index out of range")
  /\ (String.eqb (TasteProfile.comfort_level p) "high" = false
      \/ FlightOption.outbound_segments f <> [] ->
      exists s, _score_flight f p i = Py.Ok s).
Proof.
  unfold _score_flight.
  destruct (budget_of i) as [b|] eqn:Eb;
    [unfold Py.truediv; rewrite (budget_of_nonzero Eb); cbn [Py.bind];
     destruct (String.eqb (TasteProfile.budget_consciousness p) "high");
     [|destruct (String.eqb (TasteProfile.budget_consciousness p) "low")]
    |];
    cbn [Py.bind];
    (destruct (String.eqb (TasteProfile.comfort_level p) "high");
     [destruct (FlightOption.outbound_segments f) as [|seg segs];
      cbn [Py.index nth_error Py.bind];
      [|destruct (negb (String.eqb (FlightSegment.booking_class seg)
                          "economy")); cbn [Py.bind]]
     |cbn [Py.bind]]);
    (split;
     [intros [H1 H2]; first [reflexivity | discriminate]
     |intros [H|H]; first [discriminate | congruence | now eexists]]).
Qed.

Lemma _score_hotel_total h p i : exists s, _score_hotel h p i = Py.Ok s.
Proof.
  unfold _score_hotel.
  destruct (budget_of i) as [b|] eqn:Eb;
    [unfold Py.truediv; rewrite (budget_of_nonzero Eb); cbn [Py.bind];
     destruct (String.eqb (TasteProfile.budget_consciousness p) "high")
    |];
    cbn [Py.bind]; now eexists.
Qed.

(** The comfort level of the profile that is made for a request is high
    exactly for the luxury and the relaxed style. *)
Lemma default_comfort_high (intent0 : option TravelIntent) :
  TasteProfile.comfort_level (_create_default_profile intent0) = "high"
  <-> exists intent,
        intent0 = Some intent
        /\ (TravelIntent.travel_style intent = TravelStyle.LUXURY
            \/ TravelIntent.travel_style intent = TravelStyle.RELAXED).
Proof.
  destruct intent0 as [intent|]; cbn.
  - unfold _infer_comfort_level.
    destruct (TravelIntent.travel_style intent) eqn:E; cbn; split;
      try discriminate;
      try (intros (i & Hi & [H|H]); injection Hi as <-; congruence);
      intros _; exists intent; (split; [reflexivity|]); auto.
  - split; [discriminate | intros (i & Hi & _); discriminate].
Qed.

(** X11. For the profile that [_create_default_profile] makes of a
    request with person-days below 2^1000 (it has every key the scores
    read), and for a request whose budget, if it counts, is at least 1:
    the taste score of a flight raises exactly when the
    comfort level of the profile is high, which it is for the luxury and
    the relaxed style, and the flight has no outbound segment (the booking
    class of the first one is looked up), and then with IndexError; the
    taste score of a lodging does not raise. *)
Theorem taste_scoring_failure :
  (forall f intent0 i,
     person_days_bounded intent0 ->
     budget_not_tiny i ->
     ((exists e,
         _score_flight f (_create_default_profile intent0) i = Py.Raise e)
      <-> (exists intent,
             intent0 = Some intent
             /\ (TravelIntent.travel_style intent = TravelStyle.LUXURY
                 \/ TravelIntent.travel_style intent = TravelStyle.RELAXED))
          /\ FlightOption.outbound_segments f = []))
  /\ (forall f intent0 i e,
        person_days_bounded intent0 ->
        budget_not_tiny i ->
        _score_flight f (_create_default_profile intent0) i = Py.Raise e ->
        e = "list index out of range")
  /\ (forall h intent0 i,
        person_days_bounded intent0 ->
        budget_not_tiny i ->
        exists s,
          _score_hotel h (_create_default_profile intent0) i = Py.Ok s).
Proof.
  assert (Hdec : forall (f : FlightOption) (p : TasteProfile),
    (String.eqb (TasteProfile.comfort_level p) "high" = true
     /\ FlightOption.outbound_segments f = [])
    \/ (String.eqb (TasteProfile.comfort_level p) "high" = false
        \/ FlightOption.outbound_segments f <> [])).
  { intros f p.
    destruct (String.eqb (TasteProfile.comfort_level p) "high");
      [|right; now left].
    destruct (FlightOption.outbound_segments f);
      [left; now split | right; right; discriminate]. }
  split; [|split].
  - intros f intent0 i _ _. rewrite <- default_comfort_high.
    set (p := _create_default_profile intent0).
    destruct (_score_flight_cases f p i) as [H1 H2]. split.
    + intros [e He]. destruct (Hdec f p) as [[Hc Hs]|H].
      * split; [now apply String.eqb_eq | exact Hs].
      * destruct (H2 H) as [s Hs]. congruence.
    + intros [Hc Hs]. eexists. apply H1. split; [|exact Hs].
      now apply String.eqb_eq.
  - intros f intent0 i e _ _ He.
    set (p := _create_default_profile intent0) in *.
    destruct (_score_flight_cases f p i) as [H1 H2].
    destruct (Hdec f p) as [H|H].
    + rewrite (H1 H) in He. congruence.
    + destruct (H2 H) as [s Hs]. congruence.
  - intros h intent0 i _ _. apply _score_hotel_total.
Qed.

(** *** The diverse selection *)

Lemma select_loop_In max_results scored s h :
  In h (selected (select_loop max_results scored s)) ->
  In h (selected s) \/ In h (map fst scored).
Proof.
  revert s. induction scored as [|[hotel score] rest IH]; intros s H;
    cbn [select_loop] in H; [now left|].
  destruct (max_results <=? List.length (selected s))%nat; [now left|].
  destruct (_ && _); apply IH in H; cbn [selected map fst In] in *.
  - rewrite in_app_iff in H. cbn [In] in H. intuition.
  - intuition.
Qed.

Lemma fill_loop_In scored sel remaining h :
  In h (fill_loop scored sel remaining) ->
  In h sel \/ In h (map fst scored).
Proof.
  revert sel remaining.
  induction scored as [|[hotel score] rest IH]; intros sel remaining H;
    cbn [fill_loop] in H; [now left|].
  cbn [map fst In].
  destruct (negb (hotel_in hotel sel)).
  - destruct (remaining - 1 =? 0).
    + rewrite in_app_iff in H. cbn [In] in H. intuition.
    + apply IH in H. rewrite in_app_iff in H. cbn [In] in H. intuition.
  - apply IH in H. intuition.
Qed.

Lemma _select_diverse_hotels_In scored max_results h :
  In h (_select_diverse_hotels scored max_results) -> In h (map fst scored).
Proof.
  unfold _select_diverse_hotels. cbv zeta.
  destruct (0 <? _); intro H.
  - apply fill_loop_In in H. destruct H as [H|H]; [|exact H].
    apply select_loop_In in H. cbn in H. intuition.
  - apply select_loop_In in H. cbn in H. intuition.
Qed.

(** The outcome of [profile]: the two pools are ranked and cut, or an
    IndexError of the flight score is reported and nothing else changes. *)
Lemma profile_cases state :
  let s := profile state in
  AgentState.parsed_intent s = AgentState.parsed_intent state
  /\ AgentState.itineraries s = AgentState.itineraries state
  /\ ((AgentState.errors s = AgentState.errors state
       /\ AgentState.agent_messages s
          = AgentState.agent_messages state
            ++ ["Taste Profiler: Analyzing your preferences...";
                "Taste Profiler: Ranked options based on your preferences"]
       /\ AgentState.current_step s = "taste_profiled"
       /\ List.length (AgentState.flight_options s)
          = Nat.min 8 (List.length (AgentState.flight_options state))
       /\ (List.length (AgentState.accommodation_options s) <= 12)%nat
       /\ (forall f, In f (AgentState.flight_options s) ->
                     In f (AgentState.flight_options state))
       /\ (forall h, In h (AgentState.accommodation_options s) ->
                     In h (AgentState.accommodation_options state)))
      \/ (AgentState.errors s
          = AgentState.errors state
            ++ ["Taste Profiler Error: list index out of range"]
          /\ AgentState.agent_messages s
             = AgentState.agent_messages state
               ++ ["Taste Profiler: Analyzing your preferences...";
                   "Taste Profiler Error: list index out of range"]
          /\ AgentState.current_step s = AgentState.current_step state
          /\ AgentState.flight_options s = AgentState.flight_options state
          /\ AgentState.accommodation_options s
             = AgentState.accommodation_options state
          /\ exists f,
               In f (AgentState.flight_options state)
               /\ FlightOption.outbound_segments f = [])).
Proof.
  cbv zeta. unfold profile, rank_options.
  cbn [AgentState.user_taste_profile AgentState.flight_options
       AgentState.accommodation_options AgentState.parsed_intent
       AgentState.append_message].
  set (tp := match AgentState.user_taste_profile state with
             | Some p => p
             | None => _create_default_profile (AgentState.parsed_intent state)
             end).
  destruct (Py.mapM _ (AgentState.flight_options state)) as [wf|e] eqn:Ef.
  - SearchFacts.state_simpl.
    destruct (Py.mapM _ (AgentState.accommodation_options state))
      as [wh|e] eqn:Eh.
    + SearchFacts.state_simpl.
      split; [reflexivity|]. split; [reflexivity|]. left.
      apply PyFacts.mapM_keyed_fst in Ef. destruct Ef as [Ef _].
      apply PyFacts.mapM_keyed_fst in Eh. destruct Eh as [Eh _].
      split; [reflexivity|].
      split; [now rewrite <- app_assoc|].
      split; [reflexivity|]. split.
      { rewrite length_map. unfold Py.take. rewrite length_firstn.
        unfold Py.sorted_reverse. rewrite PyFacts.sort_by_length.
        rewrite <- Ef. now rewrite length_map. }
      split; [apply LodgingSelectionFacts._select_diverse_hotels_length|].
      split.
      * intros f Hf. rewrite <- Ef. apply in_map_iff in Hf.
        destruct Hf as (q & <- & Hq). apply in_map.
        apply FlightOptimizerFacts.take_In in Hq.
        unfold Py.sorted_reverse in Hq. now apply PyFacts.sort_by_In in Hq.
      * intros h Hh. apply _select_diverse_hotels_In in Hh. rewrite <- Eh.
        apply in_map_iff in Hh. destruct Hh as (q & <- & Hq). apply in_map.
        unfold Py.sorted_reverse in Hq. now apply PyFacts.sort_by_In in Hq.
    + exfalso. apply OptimizerFacts.mapM_Raise in Eh.
      destruct Eh as (h & _ & Eh).
      destruct (_score_hotel_total h tp (AgentState.parsed_intent state))
        as [sc Hsc].
      rewrite Hsc in Eh. discriminate.
  - SearchFacts.state_simpl.
    split; [reflexivity|]. split; [reflexivity|]. right.
    apply OptimizerFacts.mapM_Raise in Ef. destruct Ef as (f & Hf & Ef).
    destruct (_score_flight f tp (AgentState.parsed_intent state))
      as [sc|e'] eqn:Es; [discriminate|].
    cbn [Py.bind] in Ef. injection Ef as ->.
    destruct (_score_flight_cases f tp (AgentState.parsed_intent state))
      as [H1 H2].
    destruct (String.eqb (TasteProfile.comfort_level tp) "high") eqn:Ec.
    2: { destruct H2 as [sc Hsc]; [now left | congruence]. }
    destruct (FlightOption.outbound_segments f) as [|seg segs] eqn:Eo.
    2: { destruct H2 as [sc Hsc]; [right; discriminate | congruence]. }
    rewrite H1 in Es by now split. injection Es as <-.
    split; [reflexivity|]. split; [now rewrite <- app_assoc|].
    split; [reflexivity|]. split; [reflexivity|]. split; [reflexivity|].
    exists f. now split.
Qed.

(** X12. For a state without a stored taste profile (the profile is
    then made from the request) and a request whose numbers are in range
    (a budget that counts is at least 1, the person-days are below
    2^1000), [profile] has two outcomes.  Either both pools are ranked:
    the flights are cut to 8 (all of them when there are fewer), the
    lodgings to 12 at most, nothing is added to either pool, and no error
    is recorded.  Or a flight without outbound segment made the score
    raise: the error is recorded once, the step is not advanced and both
    pools stay exactly as they were.  The request and the itineraries are
    never touched. *)
Theorem profile_outcome (state : AgentState) :
  AgentState.user_taste_profile state = None ->
  budget_not_tiny (AgentState.parsed_intent state) ->
  person_days_bounded (AgentState.parsed_intent state) ->
  let s := profile state in
  AgentState.parsed_intent s = AgentState.parsed_intent state
  /\ AgentState.itineraries s = AgentState.itineraries state
  /\ ((AgentState.errors s = AgentState.errors state
       /\ AgentState.agent_messages s
          = AgentState.agent_messages state
            ++ ["Taste Profiler: Analyzing your preferences...";
                "Taste Profiler: Ranked options based on your preferences"]
       /\ AgentState.current_step s = "taste_profiled"
       /\ List.length (AgentState.flight_options s)
          = Nat.min 8 (List.length (AgentState.flight_options state))
       /\ (List.length (AgentState.accommodation_options s) <= 12)%nat
       /\ (forall f, In f (AgentState.flight_options s) ->
                     In f (AgentState.flight_options state))
       /\ (forall h, In h (AgentState.accommodation_options s) ->
                     In h (AgentState.accommodation_options state)))
      \/ (AgentState.errors s
          = AgentState.errors state
            ++ ["Taste Profiler Error: list index out of range"]
          /\ AgentState.agent_messages s
             = AgentState.agent_messages state
               ++ ["Taste Profiler: Analyzing your preferences...";
                   "Taste Profiler Error: list index out of range"]
          /\ AgentState.current_step s = AgentState.current_step state
          /\ AgentState.flight_options s = AgentState.flight_options state
          /\ AgentState.accommodation_options s
             = AgentState.accommodation_options state
          /\ exists f,
               In f (AgentState.flight_options state)
               /\ FlightOption.outbound_segments f = [])).
Proof. intros _ _ _. apply profile_cases. Qed.

Lemma profile_outcome_witness :
  AgentState.user_taste_profile Samples.state_two_hotels = None
  /\ budget_not_tiny (AgentState.parsed_intent Samples.state_two_hotels)
  /\ person_days_bounded (AgentState.parsed_intent Samples.state_two_hotels)
  /\ AgentState.parsed_intent (profile Samples.state_two_hotels)
     = AgentState.parsed_intent Samples.state_two_hotels.
Proof.
  assert (H1 : AgentState.user_taste_profile Samples.state_two_hotels
               = None) by reflexivity.
  assert (H2 : budget_not_tiny
                 (AgentState.parsed_intent Samples.state_two_hotels)).
  { intros b Hb. cbn in Hb. injection Hb as <-. discriminate. }
  assert (H3 : person_days_bounded
                 (AgentState.parsed_intent Samples.state_two_hotels)).
  { cbn. reflexivity. }
  split; [exact H1|]. split; [exact H2|]. split; [exact H3|].
  exact (proj1 (@profile_outcome Samples.state_two_hotels H1 H2 H3)).
Defined.



(** *** Equality of lodgings *)

Lemma opt_eqb_refl {A} (eqb : A -> A -> bool) (o : option A) :
  (forall x, eqb x x = true) -> AccommodationOption.opt_eqb eqb o o = true.
Proof. intro H. destruct o; simpl; auto. Qed.

Lemma list_eqb_refl {A} (eqb : A -> A -> bool) (l : list A) :
  (forall x, eqb x x = true) -> AccommodationOption.list_eqb eqb l l = true.
Proof. intro H. induction l; simpl; [reflexivity|]. now rewrite H, IHl. Qed.

Lemma Qeq_bool_refl' (q : Q) : Qeq_bool q q = true.
Proof. apply Qeq_bool_iff. reflexivity. Qed.

Lemma eqb_refl (h : AccommodationOption) : AccommodationOption.eqb h h = true.
Proof.
  unfold AccommodationOption.eqb.
  rewrite !String.eqb_refl, !Qeq_bool_refl', !Z.eqb_refl.
  rewrite !(opt_eqb_refl _ Qeq_bool_refl'), (opt_eqb_refl _ Z.eqb_refl),
    !(opt_eqb_refl _ String.eqb_refl), (list_eqb_refl _ String.eqb_refl).
  reflexivity.
Qed.

Lemma hotel_in_app h l l' :
  hotel_in h (l ++ l') = hotel_in h l || hotel_in h l'.
Proof. unfold hotel_in. apply existsb_app. Qed.

Lemma hotel_in_last h l : hotel_in h (l ++ [h]) = true.
Proof. rewrite hotel_in_app. cbn. rewrite eqb_refl. apply orb_true_r. Qed.

(** *** The two loops of the diverse selection *)

(** The fill loop appends hotels that were not selected, in score order. *)
Lemma fill_loop_appends scored sel remaining :
  exists rest,
    fill_loop scored sel remaining = sel ++ rest
    /\ forall h, In h rest -> hotel_in h sel = false.
Proof.
  revert sel remaining.
  induction scored as [|[hotel score] more IH]; intros sel remaining;
    cbn [fill_loop].
  { exists []. rewrite app_nil_r. split; [reflexivity | intros h []]. }
  destruct (hotel_in hotel sel) eqn:Ein; cbn [negb]; [apply IH|].
  destruct (remaining - 1 =? 0).
  - exists [hotel]. split; [reflexivity|]. now intros h [<-|[]].
  - destruct (IH (sel ++ [hotel]) (remaining - 1)) as (rest & -> & Hrest).
    exists (hotel :: rest). rewrite <- app_assoc. split; [reflexivity|].
    intros h [<-|Hh]; [exact Ein|].
    apply Hrest in Hh. rewrite hotel_in_app in Hh.
    now apply orb_false_elim in Hh.
Qed.

(** It stops when the free slots are used up, or else goes through every
    hotel. *)
Lemma fill_loop_full_or_complete scored sel remaining :
  0 < remaining ->
  Z.of_nat (List.length (fill_loop scored sel remaining))
  = Z.of_nat (List.length sel) + remaining
  \/ (forall h, In h (map fst scored) ->
        hotel_in h (fill_loop scored sel remaining) = true).
Proof.
  revert sel remaining.
  induction scored as [|[hotel score] more IH]; intros sel remaining Hr;
    cbn [fill_loop map fst].
  { right. intros h []. }
  destruct (hotel_in hotel sel) eqn:Ein; cbn [negb].
  - destruct (IH sel remaining Hr) as [H|H]; [now left | right].
    intros h [<-|Hh]; [|now apply H].
    destruct (fill_loop_appends more sel remaining) as (rest & -> & _).
    rewrite hotel_in_app, Ein. reflexivity.
  - destruct (remaining - 1 =? 0) eqn:E.
    + left. apply Z.eqb_eq in E. rewrite length_app. cbn. lia.
    + apply Z.eqb_neq in E.
      destruct (IH (sel ++ [hotel]) (remaining - 1)) as [H|H]; [lia| |].
      * left. rewrite H, length_app. cbn. lia.
      * right. intros h [<-|Hh]; [|now apply H].
        destruct (fill_loop_appends more (sel ++ [hotel]) (remaining - 1))
          as (rest & -> & _).
        rewrite hotel_in_app, hotel_in_last. reflexivity.
Qed.

(** X14. The diverse selection of the re-ranker leaves a slot free only
    when the candidates run out: it returns exactly [max_results]
    lodgings, or else every candidate is in the result (up to [==]).  What
    it returns are candidates. *)
Theorem diverse_selection_full_or_complete
    (scored_hotels : list (AccommodationOption * Q)) (max_results : nat) :
  let r := _select_diverse_hotels scored_hotels max_results in
  (List.length r = max_results
   \/ forall h, In h (map fst scored_hotels) -> hotel_in h r = true)
  /\ (forall h, In h r -> In h (map fst scored_hotels)).
Proof.
  cbv zeta. split; [|intro h; apply _select_diverse_hotels_In].
  unfold _select_diverse_hotels. cbv zeta.
  set (s := select_loop max_results scored_hotels _).
  assert (Hs : (List.length (selected s) <= max_results)%nat).
  { apply LodgingSelectionFacts.select_loop_length. simpl. lia. }
  unfold Py.len. destruct (0 <? _) eqn:E.
  - apply Z.ltb_lt in E.
    destruct (fill_loop_full_or_complete scored_hotels (selected s) E)
      as [H|H]; [left; lia | now right].
  - apply Z.ltb_ge in E. left. lia.
Qed.

Lemma count_str_app type l l' :
  count_str type (l ++ l') = count_str type l + count_str type l'.
Proof.
  unfold count_str. rewrite filter_app, length_app. lia.
Qed.

Lemma count_str_single type x :
  count_str type [x] = if String.eqb type x then 1 else 0.
Proof. unfold count_str. cbn. now destruct (String.eqb type x). Qed.

Lemma count_if_single {A} (p : A -> bool) (x : A) :
  count_if p [x] = if p x then 1%nat else 0%nat.
Proof. unfold count_if. cbn. now destruct (p x). Qed.

Lemma select_loop_caps max_results scored s :
  caps_kept s -> caps_kept (select_loop max_results scored s).
Proof.
  revert s. induction scored as [|[hotel score] more IH]; intros s Hs;
    cbn [select_loop]; [assumption|].
  destruct (max_results <=? List.length (selected s))%nat; [assumption|].
  destruct (_ && _) eqn:Eadd; [|now apply IH].
  apply IH. clear IH.
  destruct Hs as (L & M & H & T & L4 & M4 & H4 & T3).
  apply andb_prop in Eadd. destruct Eadd as [Eb Et].
  apply Z.ltb_lt in Eb, Et.
  destruct (LodgingSelectionFacts.buckets_disjoint hotel) as (D1 & D2 & D3).
  unfold caps_kept. cbn [selected types_seen n_low n_mid n_high].
  rewrite !LodgingSelectionFacts.count_if_app, !count_if_single.
  assert (Ty : forall type,
    count_str type (types_seen s ++ [AccommodationOption.type hotel])
    = Z.of_nat
        (count_if (fun h => String.eqb type (AccommodationOption.type h))
           (selected s ++ [hotel]))
    /\ count_str type (types_seen s ++ [AccommodationOption.type hotel])
       <= 3).
  { intro type. rewrite count_str_app, LodgingSelectionFacts.count_if_app.
    rewrite T, count_str_single, count_if_single.
    specialize (T3 type). rewrite T in T3.
    destruct (String.eqb type (AccommodationOption.type hotel)) eqn:E;
      [|lia].
    apply String.eqb_eq in E. subst type. rewrite T in Et. lia. }
  unfold low_bucket, mid_bucket, high_bucket in *.
  destruct (Py.Qltb (AccommodationOption.price_per_night hotel) 100) eqn:E1.
  - destruct (D1 eq_refl) as [G1 G2]. rewrite G1, G2.
    repeat split; try apply Ty; lia.
  - destruct (Py.Qltb (AccommodationOption.price_per_night hotel) 200)
      eqn:E2; cbn [negb andb];
      repeat split; try apply Ty; lia.
Qed.

(** The first loop only appends. *)
Lemma select_loop_appends max_results scored s :
  exists more,
    selected (select_loop max_results scored s) = selected s ++ more.
Proof.
  revert s. induction scored as [|[hotel score] rest IH]; intro s;
    cbn [select_loop].
  - exists []. now rewrite app_nil_r.
  - destruct (max_results <=? List.length (selected s))%nat.
    { exists []. now rewrite app_nil_r. }
    destruct (_ && _); [|apply IH].
    match goal with
    | |- context [select_loop _ _ ?s1] => destruct (IH s1) as [more ->]
    end.
    cbn [selected]. rewrite <- app_assoc. now eexists.
Qed.

(** A lodging that the first loop passes over stays out for good: the
    cap that kept it out is still reached when the loop ends. *)
Lemma select_loop_maximal max_results scored s :
  caps_kept s ->
  (List.length (selected (select_loop max_results scored s))
   < max_results)%nat ->
  forall h, In h (map fst scored) ->
    In h (selected (select_loop max_results scored s))
    \/ cap_reached (selected (select_loop max_results scored s)) h.
Proof.
  revert s. induction scored as [|[hotel score] rest IH]; intros s Hs Hlen h;
    cbn [map fst]; [intros []|].
  pose proof (select_loop_caps max_results ((hotel, score) :: rest) Hs)
    as Hend.
  pose proof (select_loop_appends max_results ((hotel, score) :: rest) s)
    as [more Hmore].
  revert Hlen Hend Hmore. cbn [select_loop].
  destruct (max_results <=? List.length (selected s))%nat eqn:Efull.
  { apply Nat.leb_le in Efull. intros. lia. }
  destruct (_ && _) eqn:Eadd.
  - intros Hlen Hend Hmore [<-|Hin].
    + left.
      match goal with
      | |- context [select_loop _ _ ?s1] =>
          destruct (select_loop_appends max_results rest s1) as [more' ->]
      end.
      cbn [selected]. apply in_or_app. left. apply in_or_app. right.
      now left.
    + apply IH; [|exact Hlen|exact Hin].
      pose proof (select_loop_caps max_results [(hotel, score)] Hs) as H1.
      cbn [select_loop] in H1. rewrite Efull, Eadd in H1. exact H1.
  - intros Hlen Hend Hmore [<-|Hin]; [|now apply IH].
    right. set (s' := select_loop max_results rest s) in *.
    destruct Hs as (L & M & H & T & _).
    destruct Hend as (L' & M' & H' & T' & L4 & M4 & H4 & T3).
    rewrite L' in L4. rewrite M' in M4. rewrite H' in H4.
    assert (Hge : forall p,
              (count_if p (selected s) <= count_if p (selected s'))%nat).
    { intro p. rewrite Hmore, LodgingSelectionFacts.count_if_app. lia. }
    apply andb_false_iff in Eadd. unfold cap_reached.
    destruct Eadd as [Eb|Et].
    + apply Z.ltb_ge in Eb.
      unfold low_bucket, mid_bucket, high_bucket in *.
      destruct (Py.Qltb (AccommodationOption.price_per_night hotel) 100)
        eqn:E1.
      * left. split; [reflexivity|].
        pose proof (Hge (fun h =>
          Py.Qltb (AccommodationOption.price_per_night h) 100)). lia.
      * destruct (Py.Qltb (AccommodationOption.price_per_night hotel) 200)
          eqn:E2.
        -- right; left. split; [reflexivity|].
           pose proof (Hge (fun h =>
             negb (Py.Qltb (AccommodationOption.price_per_night h) 100)
             && Py.Qltb (AccommodationOption.price_per_night h) 200)). lia.
        -- right; right; left. split; [reflexivity|].
           pose proof (Hge (fun h =>
             negb (Py.Qltb (AccommodationOption.price_per_night h) 200))).
           lia.
    + apply Z.ltb_ge in Et. right; right; right.
      set (p := fun h : AccommodationOption =>
                  String.eqb (AccommodationOption.type hotel)
                    (AccommodationOption.type h)).
      assert (Ts : count_str (AccommodationOption.type hotel) (types_seen s)
                   = Z.of_nat (count_if p (selected s))) by exact (T _).
      assert (Ts' : count_str (AccommodationOption.type hotel)
                      (types_seen s')
                    = Z.of_nat (count_if p (selected s'))) by exact (T' _).
      specialize (T3 (AccommodationOption.type hotel)).
      pose proof (Hge p).
      change (count_if p (selected s') = 3%nat). lia.
Qed.

(** X15. The diverse selection of the re-ranker is made of two parts.
    The first one respects the caps: at most four lodgings below 100 a
    night, four from 100 to below 200, four at 200 or above, and three of
    any one type; it has at most [max_results] lodgings and, when it has
    fewer, it is complete: every candidate is in it, or a cap is reached
    for the price bucket or the type of that candidate.  The second part,
    empty when the first one already holds [max_results] lodgings, fills
    the free slots with lodgings that are not in the first part; the caps
    do not apply to it. *)
Theorem diverse_selection_caps
    (scored_hotels : list (AccommodationOption * Q)) (max_results : nat) :
  exists first rest,
    _select_diverse_hotels scored_hotels max_results = first ++ rest
    /\ (count_if low_bucket first <= 4)%nat
    /\ (count_if mid_bucket first <= 4)%nat
    /\ (count_if high_bucket first <= 4)%nat
    /\ (forall type,
          (count_if (fun h => String.eqb type (AccommodationOption.type h))
             first <= 3)%nat)
    /\ (List.length first <= max_results)%nat
    /\ ((List.length first < max_results)%nat ->
        forall h, In h (map fst scored_hotels) ->
          In h first \/ cap_reached first h)
    /\ (List.length first = max_results -> rest = [])
    /\ (forall h, In h rest -> hotel_in h first = false).
Proof.
  unfold _select_diverse_hotels. cbv zeta.
  assert (H0 : caps_kept (mk_selection [] [] 0 0 0)).
  { unfold caps_kept. cbn.
    repeat split; try lia; intros; reflexivity || (cbn; lia). }
  pose proof (@select_loop_maximal max_results scored_hotels _ H0) as Hmax.
  pose proof (@LodgingSelectionFacts.select_loop_length max_results
                scored_hotels (mk_selection [] [] 0 0 0)) as Hlen.
  cbn [selected List.length] in Hlen. specialize (Hlen (Nat.le_0_l _)).
  set (s := select_loop max_results scored_hotels _) in *.
  assert (Hs : caps_kept s) by now apply select_loop_caps.
  destruct Hs as (L & M & H & T & L4 & M4 & H4 & T3).
  assert (Hcaps :
    (count_if low_bucket (selected s) <= 4)%nat
    /\ (count_if mid_bucket (selected s) <= 4)%nat
    /\ (count_if high_bucket (selected s) <= 4)%nat
    /\ (forall type,
          (count_if (fun h => String.eqb type (AccommodationOption.type h))
             (selected s) <= 3)%nat)).
  { repeat split; try lia. intro type. specialize (T3 type).
    rewrite T in T3. lia. }
  destruct Hcaps as (C1 & C2 & C3 & C4).
  unfold Py.len. destruct (0 <? _) eqn:E.
  - apply Z.ltb_lt in E.
    destruct (fill_loop_appends scored_hotels (selected s)
                (Z.of_nat max_results - Z.of_nat (List.length (selected s))))
      as (rest & Hr & Hrest).
    exists (selected s), rest. repeat split; try assumption. lia.
  - exists (selected s), []. rewrite app_nil_r.
    repeat split; try assumption. intros h [].
Qed.

(** Five cheap hotels, room for twelve: the fourth is over the cap of its
    type and the fifth over that of its price bucket too, and the second
    loop takes them all the same. *)
Example diverse_selection_fifth_cheap :
  let cheap name := (Samples.hotel name 80 800, 0.5%Q) in
  _select_diverse_hotels
    [cheap "A"; cheap "B"; cheap "C"; cheap "D"; cheap "E"] 12
  = map fst [cheap "A"; cheap "B"; cheap "C"; cheap "D"; cheap "E"].
Proof. reflexivity. Qed.

End TasteFacts.

(** ** More about the synthesis agent *)

Module ArchetypeFacts.
Import SynthesisAgent Statements.

Lemma build_fields state rate prefix tag summary why tradeoffs f hs it :
  build state rate prefix tag summary why tradeoffs f hs = Py.Ok it ->
  Itinerary.flights it = f /\ Itinerary.accommodations it = hs
  /\ Itinerary.style_tag it = tag.
Proof.
  unfold build. destruct (intent_of state); cbn [Py.bind]; [|discriminate].
  intro H. injection H as <-. repeat split.
Qed.

(** The head of a sorted list precedes every element. *)
Lemma sort_by_head {A} (before : A -> A -> bool) (l : list A) (x : A) :
  (forall x y, before x y = true -> before y x = false) ->
  (forall x y z, before y x = false -> before z y = false ->
                 before z x = false) ->
  nth_error (Py.sort_by before l) 0 = Some x ->
  forall y, In y l -> y = x \/ before y x = false.
Proof.
  intros Htot Htrans Hx y Hy.
  pose proof (PyFacts.sort_by_sorted Htot Htrans l) as Hs.
  apply (proj2 (@PyFacts.sort_by_In _ before y l)) in Hy.
  destruct (Py.sort_by before l) as [|z zs]; [discriminate|].
  simpl in Hx. injection Hx as ->.
  inversion Hs as [|? ? _ Hall]; subst.
  destruct Hy as [<-|Hy]; [now left | right].
  rewrite Forall_forall in Hall. now apply Hall.
Qed.

Lemma sorted_reverse_head_greatest {A} (key : A -> Q) (l : list A) (x : A) :
  nth_error (Py.sorted_reverse key l) 0 = Some x ->
  forall y, In y l -> (key y <= key x)%Q.
Proof.
  intros Hx y Hy. unfold Py.sorted_reverse in Hx.
  destruct (sort_by_head (before := fun y x => Py.Qltb (key x) (key y)))
    with (l := l) (x := x) (y := y) as [->|H]; try assumption.
  - intros a b H. apply PyFacts.Qltb_ge. apply PyFacts.Qltb_lt in H.
    now apply Qlt_le_weak.
  - intros a b c H1 H2. apply PyFacts.Qltb_ge.
    apply PyFacts.Qltb_ge in H1, H2. eapply Qle_trans; eassumption.
  - apply Qle_refl.
  - now apply PyFacts.Qltb_ge in H.
Qed.

Lemma pair_ltb_false (a b : Z * Z) :
  Py.pair_ltb a b = false <->
  fst b < fst a \/ (fst b = fst a /\ snd b <= snd a).
Proof.
  unfold Py.pair_ltb. rewrite orb_false_iff, andb_false_iff.
  rewrite Z.ltb_ge, Z.eqb_neq, Z.ltb_ge. lia.
Qed.

Lemma sorted_pair_head_least {A} (key : A -> Z * Z) (l : list A) (x : A) :
  nth_error (Py.sorted_pair key l) 0 = Some x ->
  forall y, In y l ->
    fst (key x) < fst (key y)
    \/ (fst (key x) = fst (key y) /\ snd (key x) <= snd (key y)).
Proof.
  intros Hx y Hy. unfold Py.sorted_pair in Hx.
  destruct (sort_by_head (before := fun y x => Py.pair_ltb (key y) (key x)))
    with (l := l) (x := x) (y := y) as [->|H]; try assumption.
  - intros a b H. apply pair_ltb_false.
    unfold Py.pair_ltb in H. apply orb_prop in H.
    rewrite andb_true_iff, Z.ltb_lt, Z.eqb_eq, Z.ltb_lt in H. lia.
  - intros a b c H1 H2. apply pair_ltb_false.
    apply pair_ltb_false in H1, H2. lia.
  - right. split; [reflexivity | lia].
  - now apply pair_ltb_false in H.
Qed.

(** X16. The budget itinerary flies the cheapest flight of the pool and
    stays in the lodging with the lowest nightly price. *)
Theorem budget_itinerary_cheapest (state : AgentState) (it : Itinerary) :
  _create_budget_itinerary state = Some it ->
  In (Itinerary.flights it) (AgentState.flight_options state)
  /\ (forall f, In f (AgentState.flight_options state) ->
        (FlightOption.total_price (Itinerary.flights it)
         <= FlightOption.total_price f)%Q)
  /\ exists h,
       Itinerary.accommodations it = [h]
       /\ In h (AgentState.accommodation_options state)
       /\ forall h', In h' (AgentState.accommodation_options state) ->
            (AccommodationOption.price_per_night h
             <= AccommodationOption.price_per_night h')%Q.
Proof.
  unfold _create_budget_itinerary, try_budget_itinerary. intro H.
  destruct (Py.sorted FlightOption.total_price _) as [|f0 fs] eqn:Ef;
    [discriminate|].
  cbn [Py.index nth_error Py.bind] in H.
  destruct (Py.sorted AccommodationOption.price_per_night _) as [|h0 hs]
    eqn:Eh; [discriminate|].
  cbn [Py.index nth_error Py.bind] in H.
  destruct (build _ _ _ _ _ _ _ _ _) as [it'|e] eqn:Eb; [|discriminate].
  cbn [Py.bind Py.try_except] in H. injection H as <-.
  apply build_fields in Eb. destruct Eb as (-> & -> & _).
  assert (Hf0 : nth_error (Py.sorted FlightOption.total_price
                             (AgentState.flight_options state)) 0 = Some f0)
    by now rewrite Ef.
  assert (Hh0 : nth_error (Py.sorted AccommodationOption.price_per_night
                             (AgentState.accommodation_options state)) 0
                = Some h0)
    by now rewrite Eh.
  split.
  { apply (@CostFacts.sorted_In _ FlightOption.total_price). rewrite Ef.
    now left. }
  split; [exact (SynthesisFacts.sorted_head_least Hf0)|].
  exists h0. split; [reflexivity|]. split.
  { apply (@CostFacts.sorted_In _ AccommodationOption.price_per_night).
    rewrite Eh. now left. }
  exact (SynthesisFacts.sorted_head_least Hh0).
Qed.

Lemma budget_itinerary_cheapest_witness :
  exists it,
    _create_budget_itinerary Samples.state_two_hotels = Some it
    /\ Itinerary.flights it = Samples.flight_500
    /\ forall f, In f (AgentState.flight_options Samples.state_two_hotels) ->
         (FlightOption.total_price (Itinerary.flights it)
          <= FlightOption.total_price f)%Q.
Proof.
  eexists. split; [reflexivity|]. split; [reflexivity|].
  exact (proj1 (proj2 (@budget_itinerary_cheapest Samples.state_two_hotels
                         _ eq_refl))).
Defined.

(** X17. The luxury itinerary flies the flight with the fewest stops,
    the shortest one among those with as few stops, and stays in the
    lodging with the highest nightly price. *)
Theorem premium_itinerary_selection (state : AgentState) (it : Itinerary) :
  _create_premium_itinerary state = Some it ->
  In (Itinerary.flights it) (AgentState.flight_options state)
  /\ (forall f, In f (AgentState.flight_options state) ->
        stops_then_duration_le (Itinerary.flights it) f)
  /\ exists h,
       Itinerary.accommodations it = [h]
       /\ In h (AgentState.accommodation_options state)
       /\ forall h', In h' (AgentState.accommodation_options state) ->
            (AccommodationOption.price_per_night h'
             <= AccommodationOption.price_per_night h)%Q.
Proof.
  unfold _create_premium_itinerary, try_premium_itinerary. intro H.
  destruct (Py.sorted_pair _ _) as [|f0 fs] eqn:Ef; [discriminate|].
  cbn [Py.index nth_error Py.bind] in H.
  destruct (Py.sorted_reverse AccommodationOption.price_per_night _)
    as [|h0 hs] eqn:Eh; [discriminate|].
  cbn [Py.index nth_error Py.bind] in H.
  destruct (build _ _ _ _ _ _ _ _ _) as [it'|e] eqn:Eb; [|discriminate].
  cbn [Py.bind Py.try_except] in H. injection H as <-.
  apply build_fields in Eb. destruct Eb as (-> & -> & _).
  split.
  { apply CostFacts.sorted_pair_In
      with (key := fun f => (FlightOption.number_of_stops f,
                             FlightOption.total_duration_minutes f)).
    rewrite Ef. now left. }
  split.
  { intros f Hf. unfold stops_then_duration_le.
    apply (@sorted_pair_head_least _
             (fun f => (FlightOption.number_of_stops f,
                        FlightOption.total_duration_minutes f))
             (AgentState.flight_options state) f0);
      [now rewrite Ef | exact Hf]. }
  exists h0. split; [reflexivity|]. split.
  { apply CostFacts.sorted_reverse_In
      with (key := AccommodationOption.price_per_night).
    rewrite Eh. now left. }
  intros h' Hh'.
  apply (@sorted_reverse_head_greatest _ AccommodationOption.price_per_night
           (AgentState.accommodation_options state) h0);
    [now rewrite Eh | exact Hh'].
Qed.

Lemma premium_itinerary_selection_witness :
  exists it,
    _create_premium_itinerary Samples.state_two_hotels = Some it
    /\ Itinerary.accommodations it = [Samples.hotel_220]
    /\ forall f, In f (AgentState.flight_options Samples.state_two_hotels) ->
         stops_then_duration_le (Itinerary.flights it) f.
Proof.
  eexists. split; [reflexivity|]. split; [reflexivity|].
  exact (proj1 (proj2 (@premium_itinerary_selection Samples.state_two_hotels
                         _ eq_refl))).
Defined.

(** What [synthesize] does to a state. *)
Lemma synthesize_cases state :
  let s := synthesize state in
  AgentState.parsed_intent s = AgentState.parsed_intent state
  /\ AgentState.flight_options s = AgentState.flight_options state
  /\ AgentState.accommodation_options s
     = AgentState.accommodation_options state
  /\ (AgentState.flight_options state = []
      \/ AgentState.accommodation_options state = [] ->
      AgentState.itineraries s = AgentState.itineraries state
      /\ AgentState.errors s
         = AgentState.errors state
           ++ ["Synthesis Agent: Insufficient search results"]
      /\ AgentState.current_step s = AgentState.current_step state)
  /\ (AgentState.flight_options state <> [] ->
      AgentState.accommodation_options state <> [] ->
      AgentState.errors s = AgentState.errors state
      /\ AgentState.current_step s = "synthesis_complete"
      /\ map Itinerary.style_tag (AgentState.itineraries s)
         = match AgentState.parsed_intent state with
           | None => []
           | Some _ =>
               if existsb (fun f => FlightOption.number_of_stops f =? 3)
                    (AgentState.flight_options state)
               then ["Budget"; "Luxury"]
               else ["Budget"; "Balanced Family"; "Luxury"]
           end).
Proof.
  cbv zeta. unfold synthesize.
  cbn [AgentState.flight_options AgentState.accommodation_options
       AgentState.append_message].
  set (st := AgentState.append_message _ state).
  destruct (AgentState.flight_options state) as [|f0 fs] eqn:Ef;
    cbn [Py.truthy_list negb orb].
  { repeat split; try assumption; intros; congruence. }
  destruct (AgentState.accommodation_options state) as [|h0 hs] eqn:Eh;
    cbn [Py.truthy_list negb orb].
  { repeat split; try assumption; intros; congruence. }
  cbn [AgentState.parsed_intent AgentState.flight_options
       AgentState.accommodation_options AgentState.errors
       AgentState.current_step AgentState.itineraries
       AgentState.set_current_step AgentState.append_message
       AgentState.set_itineraries].
  split; [reflexivity|]. split; [exact Ef|]. split; [exact Eh|].
  split; [intros [H|H]; discriminate|]. intros _ _.
  split; [reflexivity|]. split; [reflexivity|].
  assert (Sf : AgentState.flight_options st = f0 :: fs) by exact Ef.
  assert (Sh : AgentState.accommodation_options st = h0 :: hs) by exact Eh.
  assert (Si : AgentState.parsed_intent st = AgentState.parsed_intent state)
    by reflexivity.
  clearbody st.
  destruct (AgentState.parsed_intent state) as [intent|] eqn:Ei.
  - destruct (@CostFacts.budget_and_premium_produced st intent Si)
      as [[itb Hb] [itp Hp]]; [rewrite Sf; discriminate
                              |rewrite Sh; discriminate|].
    rewrite Hb, Hp.
    pose proof (CostFacts.budget_built_at Hb) as (_ & _ & Tb & _).
    pose proof (CostFacts.premium_built_at Hp) as (_ & _ & Tp & _).
    destruct (existsb (fun f => FlightOption.number_of_stops f =? 3)
                (f0 :: fs)) eqn:E3.
    + apply existsb_exists in E3. destruct E3 as (f & Hf & E3).
      apply Z.eqb_eq in E3. rewrite <- Sf in Hf.
      rewrite (BalancedFacts.balanced_itinerary_three_stops Hf E3).
      cbn. now rewrite Tb, Tp.
    + destruct (@BalancedFacts.balanced_itinerary_exists st intent Si)
        as (itm & _ & _ & _ & Hm & _);
        [rewrite Sf; discriminate | rewrite Sh; discriminate | |].
      { intros f Hf E. rewrite Sf in Hf.
        assert (existsb (fun f => FlightOption.number_of_stops f =? 3)
                  (f0 :: fs) = true); [|congruence].
        apply existsb_exists. exists f. split; [exact Hf|].
        now apply Z.eqb_eq. }
      rewrite Hm.
      pose proof (CostFacts.balanced_built_at Hm) as (_ & _ & Tm & _).
      cbn. now rewrite Tb, Tm, Tp.
  - assert (N : forall tag rate o,
              (forall it, o = Some it -> built_at st tag rate it) ->
              o = None).
    { intros tag rate [it|] H; [|reflexivity].
      destruct (H it eq_refl) as (intent & Hi & _). congruence. }
    rewrite (N _ _ _ (@CostFacts.budget_built_at st)),
      (N _ _ _ (@CostFacts.balanced_built_at st)),
      (N _ _ _ (@CostFacts.premium_built_at st)).
    reflexivity.
Qed.


End ArchetypeFacts.

(** ** More about the workflow *)

Module RunFacts.
Import TravelConciergeWorkflow Statements.

Lemma parse_intent_frame env state :
  AgentState.itineraries (IntentParserAgent.parse_intent env state)
  = AgentState.itineraries state.
Proof.
  unfold IntentParserAgent.parse_intent.
  now destruct (extract_intent env (AgentState.user_message state)).
Qed.

Lemma intent_gate_frame state d s' :
  _should_continue_after_intent state = (d, s') ->
  AgentState.itineraries s' = AgentState.itineraries state
  /\ (d = continue -> s' = state).
Proof.
  unfold _should_continue_after_intent.
  destruct (AgentState.parsed_intent state) as [intent|];
    [destruct (_ && _)|]; intro H; injection H as <- <-;
    split; try reflexivity; discriminate.
Qed.

(** What the second gate decides and writes. *)
Lemma search_gate_cases state :
  let d := fst (_should_continue_after_search state) in
  let s' := snd (_should_continue_after_search state) in
  (d = end_ <->
   AgentState.flight_options state = []
   /\ AgentState.accommodation_options state = [])
  /\ AgentState.errors s'
     = AgentState.errors state
       ++ match AgentState.flight_options state,
                AgentState.accommodation_options state with
          | [], [] => ["No travel options found matching your criteria"]
          | [], _ :: _ => ["No flights available for your dates"]
          | _ :: _, _ => []
          end
  /\ AgentState.flight_options s' = AgentState.flight_options state
  /\ AgentState.accommodation_options s'
     = AgentState.accommodation_options state
  /\ AgentState.itineraries s' = AgentState.itineraries state
  /\ AgentState.parsed_intent s' = AgentState.parsed_intent state
  /\ AgentState.agent_messages s' = AgentState.agent_messages state.
Proof.
  cbv zeta. unfold _should_continue_after_search, Py.len.
  destruct (AgentState.flight_options state) as [|f fs] eqn:Ef;
    destruct (AgentState.accommodation_options state) as [|h hs] eqn:Eh;
    cbn [Py.truthy_list negb andb List.length fst snd];
    try change (Z.of_nat 0 =? 0) with true;
    try change (Z.of_nat (S (List.length fs)) =? 0) with false;
    cbn [AgentState.errors AgentState.append_error
         AgentState.flight_options AgentState.accommodation_options
         AgentState.itineraries AgentState.parsed_intent
         AgentState.agent_messages];
    rewrite ?app_nil_r;
    (split; [split; [intro; try discriminate; now split
                    |intros [? ?]; congruence]|]);
    repeat split; assumption.
Qed.

(** X19. The second gate ends the run exactly when both pools are
    empty, and reports it.  It lets a run with one empty pool go on,
    reporting missing flights but not missing lodgings; the synthesis
    agent then creates nothing and reports insufficient results.  The
    gate changes nothing but the error list. *)
Theorem search_gate_and_degraded_pools (state : AgentState) :
  let d := fst (_should_continue_after_search state) in
  let s' := snd (_should_continue_after_search state) in
  (d = end_ <->
   AgentState.flight_options state = []
   /\ AgentState.accommodation_options state = [])
  /\ AgentState.errors s'
     = AgentState.errors state
       ++ match AgentState.flight_options state,
                AgentState.accommodation_options state with
          | [], [] => ["No travel options found matching your criteria"]
          | [], _ :: _ => ["No flights available for your dates"]
          | _ :: _, _ => []
          end
  /\ AgentState.flight_options s' = AgentState.flight_options state
  /\ AgentState.accommodation_options s'
     = AgentState.accommodation_options state
  /\ AgentState.itineraries s' = AgentState.itineraries state
  /\ AgentState.parsed_intent s' = AgentState.parsed_intent state
  /\ AgentState.agent_messages s' = AgentState.agent_messages state
  /\ (d = continue ->
      AgentState.flight_options state = []
      \/ AgentState.accommodation_options state = [] ->
      AgentState.itineraries (SynthesisAgent.synthesize s')
      = AgentState.itineraries state
      /\ AgentState.errors (SynthesisAgent.synthesize s')
         = AgentState.errors s'
           ++ ["Synthesis Agent: Insufficient search results"]).
Proof.
  cbv zeta.
  destruct (search_gate_cases state) as (H1 & H2 & H3 & H4 & H5 & H6 & H7).
  do 7 (split; [assumption|]).
  intros _ Hempty.
  destruct (ArchetypeFacts.synthesize_cases
              (snd (_should_continue_after_search state)))
    as (_ & _ & _ & S & _).
  rewrite H3, H4, H5 in S. destruct (S Hempty) as (S1 & S2 & _).
  now split.
Qed.

(** One run of the search node. *)
Lemma search_node_run env state tr :
  (exists e, SearchOrchestratorAgent.search_node env state tr
             = (Py.Raise e, tr))
  \/ exists s' flight_calls lodging_calls,
       SearchOrchestratorAgent.search_node env state tr
       = (Py.Ok s', tr ++ flight_calls ++ lodging_calls)
       /\ Forall (fun e => is_flight_call e = true) flight_calls
       /\ Forall (fun e => is_lodging_event e = true) lodging_calls
       /\ AgentState.itineraries s' = AgentState.itineraries state
       /\ AgentState.parsed_intent s' = AgentState.parsed_intent state.
Proof.
  unfold SearchOrchestratorAgent.search_node, IO.bind, IO.lift.
  destruct (SearchOrchestratorAgent_init env) as [[]|e];
    [right | left; now exists e].
  unfold SearchOrchestratorAgent.search.
  destruct (AgentState.parsed_intent state) as [intent|] eqn:Ei.
  - destruct (ProviderFacts.flight_search_run env false intent [])
      as (fl & fc & Hf & Fc & _).
    destruct (LodgingSearchFacts.hotel_search_run env false intent 20 [])
      as (ho & lc & Hh & Lc & _).
    cbn [SearchOrchestratorAgent.new SearchOrchestratorAgent.hotel_service
         HotelSearchService.new HotelService.search_hotels].
    rewrite Hf, Hh. cbn [app].
    eexists _, fc, lc. split; [reflexivity|].
    split; [exact Fc|]. split; [exact Lc|].
    destruct (SearchStateFacts.search_with_frame intent state (Py.Ok fl)
                (Py.Ok ho)) as (_ & _ & H3 & H4 & _).
    rewrite H3, H4. now split.
  - unfold IO.ret. eexists _, [], []. cbn [app]. rewrite app_nil_r.
    split; [reflexivity|]. split; [constructor|]. split; [constructor|].
    split; [reflexivity | exact Ei].
Qed.

(** Every way a run of the graph can go, from a state without
    itineraries. *)
Lemma ainvoke_cases env initial_state :
  AgentState.itineraries initial_state = [] ->
  exists r tr,
    ainvoke env initial_state [] = (r, tr)
    /\ ((tr = [Node "parse_intent"]
         /\ match r with
            | Py.Ok s => AgentState.itineraries s = []
            | Py.Raise _ => True
            end)
        \/ (tr = [Node "parse_intent"; Node "search"]
            /\ exists e, r = Py.Raise e)
        \/ exists flight_calls lodging_calls,
             Forall (fun e => is_flight_call e = true) flight_calls
             /\ Forall (fun e => is_lodging_event e = true) lodging_calls
             /\ ((tr = [Node "parse_intent"; Node "search"]
                      ++ flight_calls ++ lodging_calls
                      ++ [Node "taste_profile"]
                  /\ exists s, r = Py.Ok s /\ AgentState.itineraries s = [])
                 \/ (tr = [Node "parse_intent"; Node "search"]
                         ++ flight_calls ++ lodging_calls
                         ++ [Node "taste_profile"; Node "synthesize"]
                     /\ ((exists e, r = Py.Raise e)
                         \/ exists s,
                              r = Py.Ok (SynthesisAgent.synthesize s)
                              /\ AgentState.itineraries s = [])))).
Proof.
  intro H0.
  unfold ainvoke, run_node, IO.bind, IO.log,
    IntentParserAgent.parse_intent_node, IO.bind, IO.lift, IO.ret.
  cbn [app].
  destruct (IntentParserAgent_init env) as [[]|e].
  2: { eexists _, _. split; [reflexivity|]. left. now split. }
  pose proof (parse_intent_frame env initial_state) as H1.
  rewrite H0 in H1.
  destruct (_should_continue_after_intent _) as [[|] s1] eqn:G1;
    destruct (intent_gate_frame G1) as [I1 I2].
  2: { eexists _, _. split; [reflexivity|]. left.
       split; [reflexivity | congruence]. }
  rewrite (I2 eq_refl) in *. clear I2 G1 s1.
  set (s1 := IntentParserAgent.parse_intent env initial_state) in *.
  destruct (search_node_run env s1 ([Node "parse_intent"] ++ [Node "search"]))
    as [[e He]|(s2 & fc & lc & Hs & Fc & Lc & S1 & _)].
  { rewrite He. eexists _, _. split; [reflexivity|]. right. left.
    split; [reflexivity | now exists e]. }
  rewrite Hs. unfold TasteProfilerAgent.taste_profile_node, IO.ret.
  destruct (TasteFacts.profile_cases s2) as (_ & P2 & _).
  set (s3 := TasteProfilerAgent.profile s2) in *.
  destruct (search_gate_cases s3) as (_ & _ & _ & _ & G2 & _).
  destruct (_should_continue_after_search s3) as [[|] s4];
    cbn [fst snd] in G2.
  - unfold SynthesisAgent.synthesis_node, IO.bind, IO.lift, IO.ret.
    destruct (SynthesisAgent_init env) as [[]|e];
      eexists _, _; (split; [reflexivity|]); right; right;
      exists fc, lc; (split; [exact Fc|]); (split; [exact Lc|]); right;
      (split; [cbn [app]; rewrite <- ?app_assoc; reflexivity|]).
    + right. exists s4. split; [reflexivity | congruence].
    + left. now eexists.
  - eexists _, _. split; [reflexivity|]. right. right.
    exists fc, lc. split; [exact Fc|]. split; [exact Lc|]. left.
    split; [cbn [app]; rewrite <- ?app_assoc; reflexivity|].
    exists s4. split; [reflexivity | congruence].
Qed.

Lemma run_unfold env user_message user_id r tr :
  ainvoke env (AgentState.new user_message user_id) [] = (r, tr) ->
  snd (run env user_message user_id) = tr
  /\ fst (run env user_message user_id)
     = match r with
       | Py.Ok final_state =>
           mk_result
             (0 <? Py.len (AgentState.itineraries final_state))
             (AgentState.itineraries final_state)
             (AgentState.agent_messages final_state)
             (AgentState.errors final_state)
             (AgentState.parsed_intent final_state)
             (Some
                (mk_metadata
                   (Py.len (AgentState.flight_options final_state))
                   (Py.len (AgentState.accommodation_options final_state))
                   (Py.len (AgentState.itineraries final_state))))
       | Py.Raise e =>
           mk_result false [] [("Workflow error: " ++ e)%string] [e] None
             None
       end.
Proof. intro H. unfold run. rewrite H. now destruct r. Qed.

(** X20. The trace of a run has one of four shapes: the intent parser
    alone; the parser and a search node whose constructor raised; parser,
    search with its provider requests, taste profiler; or those followed
    by the synthesis node.  Every request to a provider, for flights or
    for lodgings, is made between the start of the search node and the
    start of the taste profiler, and no node runs twice.  (The two
    searches run concurrently: nothing is said of the order of their
    requests.) *)
Theorem run_trace_shape (env : Env) (user_message : string)
    (user_id : option string) :
  let trace := snd (run env user_message user_id) in
  trace = [Node "parse_intent"]
  \/ trace = [Node "parse_intent"; Node "search"]
  \/ exists calls,
       Forall (fun e => is_flight_call e || is_lodging_event e = true) calls
       /\ (trace = [Node "parse_intent"; Node "search"] ++ calls
                   ++ [Node "taste_profile"]
           \/ trace = [Node "parse_intent"; Node "search"] ++ calls
                      ++ [Node "taste_profile"; Node "synthesize"]).
Proof.
  cbv zeta.
  destruct (@ainvoke_cases env (AgentState.new user_message user_id)
              eq_refl) as (r & tr & H & C).
  destruct (run_unfold H) as [-> _].
  destruct C as [[-> _]|[[-> _]|(fc & lc & Fc & Lc & C)]];
    [now left | right; now left | right; right].
  exists (fc ++ lc). split.
  - apply Forall_app. split.
    + eapply Forall_impl; [|exact Fc]. cbv beta. now intros e ->.
    + eapply Forall_impl; [|exact Lc]. cbv beta. intros e ->.
      apply orb_true_r.
  - rewrite <- !app_assoc.
    destruct C as [[-> _]|[-> _]]; [now left | now right].
Qed.



End RunFacts.

(** ** More about the intent parser *)

Module IntentFacts.
Import TravelConciergeWorkflow Statements.

(** X22. [validate_intent] accepts a request exactly when it has a
    destination, a departure date or a duration, and a budget, and then
    lists no missing field; its list names each missing field once, in
    that order.  What it accepts the first gate of the workflow lets
    through, but the gate asks for less: a destination alone is enough
    for it. *)
Theorem valid_intent_passes_gate (intent : TravelIntent) :
  let is_valid := fst (IntentParserAgent.validate_intent intent) in
  let missing_fields := snd (IntentParserAgent.validate_intent intent) in
  (is_valid = true
   <-> Py.truthy_str (TravelIntent.destination intent) = true
       /\ (Py.truthy_opt (TravelIntent.departure_date intent) = true
           \/ Py.truthy_int (TravelIntent.duration_days intent) = true)
       /\ Py.truthy_float (TravelIntent.total_budget intent) = true)
  /\ (is_valid = true <-> missing_fields = [])
  /\ (In "destination" missing_fields
      <-> Py.truthy_str (TravelIntent.destination intent) = false)
  /\ (In "dates or duration" missing_fields
      <-> Py.truthy_opt (TravelIntent.departure_date intent) = false
          /\ Py.truthy_int (TravelIntent.duration_days intent) = false)
  /\ (In "budget" missing_fields
      <-> Py.truthy_float (TravelIntent.total_budget intent) = false)
  /\ (exists keep,
        missing_fields
        = filter keep ["destination"; "dates or duration"; "budget"])
  /\ (forall state,
        AgentState.parsed_intent state = Some intent ->
        is_valid = true ->
        _should_continue_after_intent state = (continue, state))
  /\ (forall state,
        AgentState.parsed_intent state = Some intent ->
        Py.truthy_str (TravelIntent.destination intent) = true ->
        _should_continue_after_intent state = (continue, state)).
Proof.
  cbv zeta. unfold IntentParserAgent.validate_intent,
    _should_continue_after_intent.
  destruct (Py.truthy_str (TravelIntent.destination intent)) eqn:Ed;
    destruct (Py.truthy_opt (TravelIntent.departure_date intent)) eqn:Ep;
    destruct (Py.truthy_int (TravelIntent.duration_days intent)) eqn:Eu;
    destruct (Py.truthy_float (TravelIntent.total_budget intent)) eqn:Eb;
    cbn [negb andb app List.length Nat.eqb fst snd In];
    (split; [split; [intro; try discriminate; auto
                    |intros (? & [?|?] & ?); try discriminate; reflexivity]|]);
    (split; [split; intro; try discriminate; reflexivity|]);
    (split; [split; [intros H; repeat destruct H as [H|H];
                     try discriminate; try contradiction; reflexivity
                    |intro; try discriminate; auto 6]|]);
    (split; [split; [intros H; repeat destruct H as [H|H];
                     try discriminate; try contradiction; now split
                    |intros [? ?]; try discriminate; auto 6]|]);
    (split; [split; [intros H; repeat destruct H as [H|H];
                     try discriminate; try contradiction; reflexivity
                    |intro; try discriminate; auto 6]|]);
    (split;
     [exists (fun field =>
                (String.eqb field "destination"
                 && negb (Py.truthy_str (TravelIntent.destination intent)))
                || (String.eqb field "dates or duration"
                    && negb (Py.truthy_opt
                               (TravelIntent.departure_date intent))
                    && negb (Py.truthy_int
                               (TravelIntent.duration_days intent)))
                || (String.eqb field "budget"
                    && negb (Py.truthy_float
                               (TravelIntent.total_budget intent))));
      cbn [filter]; rewrite Ed, Ep, Eu, Eb; reflexivity|]);
    (split; intros state Hs Hv; rewrite Hs, ?Ed, ?Eb; cbn [negb andb];
     first [reflexivity | discriminate]).
Qed.

(** The gate lets through a request that [validate_intent] rejects. *)
Example gate_weaker_than_validation :
  let intent :=
    TravelIntent.mk None (Some "Rome") None None None None None 3 [] 1 0 0
      None 0.1%Q [] TravelStyle.BALANCED [] [] [] [] [] None [] in
  IntentParserAgent.validate_intent intent
  = (false, ["dates or duration"; "budget"])
  /\ fst (_should_continue_after_intent
            (AgentState.set_parsed_intent (Some intent)
               (AgentState.new "Rome" None)))
     = continue.
Proof. split; reflexivity. Qed.

End IntentFacts.

(** ** The helpers of the clients *)

Module ClientFacts.
Import Statements.

(** *** Currency conversion *)

Lemma dict_get_In {V} (d : list (string * V)) (k : string) (v : V) :
  Py.dict_get d k = Some v -> In (k, v) d.
Proof.
  induction d as [|[k' v'] d IH]; cbn [Py.dict_get]; [discriminate|].
  destruct (String.eqb k k') eqn:E.
  - apply String.eqb_eq in E. subst k'. intro H. injection H as ->. now left.
  - intro H. right. now apply IH.
Qed.

Lemma rates_positive :
  Forall (fun kv => (0 < snd kv)%Q) CURRENCY_RATES_TO_EUR.
Proof. repeat constructor. Qed.

(** The factor a currency code is converted with. *)
Lemma _convert_to_eur_factor from_currency :
  exists rate,
    (0 < rate)%Q
    /\ (forall amount,
          (HotelSearchService._convert_to_eur amount from_currency
           == amount * rate)%Q)
    /\ (from_currency <> "EUR" ->
        rate
        = match Py.dict_get CURRENCY_RATES_TO_EUR
                  (PyStr.upper from_currency) with
          | Some r => r
          | None => 1%Q
          end).
Proof.
  unfold HotelSearchService._convert_to_eur.
  destruct (String.eqb from_currency "EUR") eqn:E.
  { exists 1%Q. split; [reflexivity|]. split; [intro; ring|].
    apply String.eqb_eq in E. contradiction. }
  destruct (Py.dict_get CURRENCY_RATES_TO_EUR (PyStr.upper from_currency))
    as [r|] eqn:Eg.
  - assert (Hr : (0 < r)%Q).
    { apply dict_get_In in Eg. pose proof rates_positive as P.
      rewrite Forall_forall in P. exact (P _ Eg). }
    exists r. split; [exact Hr|]. split; [|reflexivity].
    intro amount. destruct (Qeq_bool r 0) eqn:Ez; [|reflexivity].
    apply Qeq_bool_iff in Ez. rewrite Ez in Hr.
    now apply Qlt_irrefl in Hr.
  - exists 1%Q. split; [reflexivity|]. split; [intro; ring | reflexivity].
Qed.

(** X23. Converting to EUR multiplies the amount by a positive factor
    that depends on the currency code only: the rate of the table, looked
    up in upper case, and 1 for EUR and for every code the table does not
    have, whose amounts are taken as if they were EUR.  So the conversion
    keeps 0, the sign and the order of amounts. *)
Theorem convert_to_eur_factor (from_currency : string) :
  exists rate,
    (0 < rate)%Q
    /\ (forall amount,
          (HotelSearchService._convert_to_eur amount from_currency
           == amount * rate)%Q)
    /\ (from_currency <> "EUR" ->
        rate
        = match Py.dict_get CURRENCY_RATES_TO_EUR
                  (PyStr.upper from_currency) with
          | Some r => r
          | None => 1%Q
          end)
    /\ (forall a b,
          (a <= b)%Q ->
          (HotelSearchService._convert_to_eur a from_currency
           <= HotelSearchService._convert_to_eur b from_currency)%Q)
    /\ (forall a,
          (0 <= a)%Q ->
          (0 <= HotelSearchService._convert_to_eur a from_currency)%Q).
Proof.
  destruct (_convert_to_eur_factor from_currency) as (r & Hr & Hc & Ht).
  exists r. split; [exact Hr|]. split; [exact Hc|]. split; [exact Ht|].
  split.
  - intros a b Hab. rewrite !Hc. apply Qmult_le_compat_r;
      [exact Hab | now apply Qlt_le_weak].
  - intros a Ha. rewrite Hc. apply Qmult_le_0_compat;
      [exact Ha | now apply Qlt_le_weak].
Qed.

Example convert_usd_and_unknown :
  (HotelSearchService._convert_to_eur 100 "usd" == 92)%Q
  /\ HotelSearchService._convert_to_eur 100 "XYZ" = 100%Q
  /\ HotelSearchService._convert_to_eur 100 "EUR" = 100%Q.
Proof. repeat split. Qed.

(** *** ISO 8601 durations *)

Lemma all_digits_app (s s' : string) :
  all_digits (s ++ s') = all_digits s && all_digits s'.
Proof.
  induction s as [|c s IH]; cbn [String.append all_digits]; [reflexivity|].
  now rewrite IH, andb_assoc.
Qed.

Lemma append_nil_r (s : string) : (s ++ "")%string = s.
Proof. induction s as [|c s IH]; cbn; [reflexivity | now rewrite IH]. Qed.

Lemma append_assoc (s1 s2 s3 : string) :
  ((s1 ++ s2) ++ s3)%string = (s1 ++ s2 ++ s3)%string.
Proof. induction s1 as [|c s1 IH]; cbn; [reflexivity | now rewrite IH]. Qed.

Lemma append_nonempty (s : string) (c : ascii) (s' : string) :
  (s ++ String c s')%string <> "".
Proof. destruct s; discriminate. Qed.

(** What the regular expression captures is a non-empty run of digits. *)
Lemma digits_before_Some c run s group :
  PyStr.digits_before c run s = Some group ->
  all_digits run = true ->
  all_digits group = true /\ group <> "".
Proof.
  revert run. induction s as [|a s IH]; intros run H Hrun;
    cbn [PyStr.digits_before] in H; [discriminate|].
  destruct (PyStr.is_digit a) eqn:Ea.
  - apply IH in H; [exact H|].
    rewrite all_digits_app, Hrun. cbn. now rewrite Ea.
  - destruct (Ascii.eqb a c && negb (String.eqb run "")) eqn:E.
    + injection H as <-. split; [exact Hrun|].
      apply andb_prop in E. destruct E as [_ E].
      apply negb_true_iff in E. now apply String.eqb_neq in E.
    + apply IH in H; [exact H | reflexivity].
Qed.

Lemma is_digit_char (a : ascii) (d : Decimal.uint) :
  PyStr.is_digit a = true -> exists d', uint_of_char a (Some d) = Some d'.
Proof.
  destruct a as [[|] [|] [|] [|] [|] [|] [|] [|]]; intro H;
    try discriminate H; eexists; reflexivity.
Qed.

Lemma all_digits_uint (s : string) :
  all_digits s = true -> exists d, NilEmpty.uint_of_string s = Some d.
Proof.
  induction s as [|a s IH]; cbn [all_digits NilEmpty.uint_of_string].
  - now eexists.
  - intro H. apply andb_prop in H. destruct H as [Ha Hs].
    destruct (IH Hs) as [d ->]. now apply is_digit_char.
Qed.

Lemma int_digits_cases (group : string) :
  all_digits group = true -> group <> "" ->
  if (String.length group <=? PyStr.max_str_digits)%nat
  then exists n, PyStr.int_digits group = Py.Ok n /\ 0 <= n
  else exists e, PyStr.int_digits group = Py.Raise e.
Proof.
  intros Hd Hne. unfold PyStr.int_digits, NilZero.uint_of_string.
  destruct group as [|a group]; [congruence|].
  destruct (all_digits_uint Hd) as [d ->].
  destruct (String.length (String a group) <=? PyStr.max_str_digits)%nat.
  - eexists. split; [reflexivity|]. unfold Z.of_uint. apply N2Z.is_nonneg.
  - now eexists.
Qed.

(** What [int] makes of what the regular expression captured. *)
Lemma captured_cases c s :
  match PyStr.digits_before c "" s with
  | Some group =>
      if (String.length group <=? PyStr.max_str_digits)%nat
      then exists n, PyStr.int_digits group = Py.Ok n /\ 0 <= n
      else exists e, PyStr.int_digits group = Py.Raise e
  | None => True
  end.
Proof.
  destruct (PyStr.digits_before c "" s) as [group|] eqn:E; [|exact I].
  destruct (digits_before_Some E eq_refl) as [Hd Hne].
  now apply int_digits_cases.
Qed.

Lemma append_length (s s' : string) :
  String.length (s ++ s') = (String.length s + String.length s')%nat.
Proof. induction s as [|c s IH]; cbn; [reflexivity | now rewrite IH]. Qed.

(** What is captured is part of the text. *)
Lemma digits_before_length c run s group :
  PyStr.digits_before c run s = Some group ->
  (String.length group <= String.length run + String.length s)%nat.
Proof.
  revert run. induction s as [|a s IH]; intros run H;
    cbn [PyStr.digits_before] in H; [discriminate|].
  cbn [String.length].
  destruct (PyStr.is_digit a).
  - apply IH in H. rewrite append_length in H. cbn in H. lia.
  - destruct (Ascii.eqb a c && negb (String.eqb run "")).
    + injection H as <-. lia.
    + apply IH in H. cbn in H. lia.
Qed.

(** [str(n)] of a natural number is its run of digits. *)
Lemma string_of_uint_digits (d : Decimal.uint) :
  all_digits (NilEmpty.string_of_uint d) = true.
Proof. induction d; cbn; auto. Qed.

Lemma str_int_digits (n : Z) :
  0 <= n ->
  (String.length (Py.str_int n) <= PyStr.max_str_digits)%nat ->
  all_digits (Py.str_int n) = true
  /\ Py.str_int n <> ""
  /\ PyStr.int_digits (Py.str_int n) = Py.Ok n.
Proof.
  intros Hn Hlen. apply Nat.leb_le in Hlen.
  unfold PyStr.int_digits. rewrite Hlen. clear Hlen.
  unfold Py.str_int.
  pose proof (DecimalZ.of_to n) as Hof.
  destruct n as [|p|p]; [| |lia]; cbn [Z.to_int NilZero.string_of_int] in *.
  - repeat split. discriminate.
  - pose proof (DecimalPos.Unsigned.to_uint_nonnil p) as Hnn.
    rewrite (NilZero.usu _ Hnn). cbn [Z.of_int] in Hof. rewrite Hof.
    unfold NilZero.string_of_uint.
    destruct (Pos.to_uint p) eqn:Eu; try congruence;
      rewrite <- Eu at 1 2;
      (split; [apply string_of_uint_digits|]);
      (split; [rewrite Eu; discriminate | reflexivity]).
Qed.

(** The search reads a run of digits up to the character that ends it. *)
Lemma digits_before_run c run digits rest :
  all_digits digits = true -> PyStr.is_digit c = false ->
  (run ++ digits)%string <> "" ->
  PyStr.digits_before c run (digits ++ String c rest)
  = Some (run ++ digits)%string.
Proof.
  intros Hd Hc. revert run.
  induction digits as [|a digits IH]; intros run Hne;
    cbn [String.append PyStr.digits_before].
  - rewrite append_nil_r in *. rewrite Hc, Ascii.eqb_refl.
    apply String.eqb_neq in Hne. now rewrite Hne.
  - cbn [all_digits] in Hd. apply andb_prop in Hd. destruct Hd as [Ha Hd].
    rewrite Ha. rewrite (IH Hd).
    + now rewrite append_assoc.
    + rewrite append_assoc. apply append_nonempty.
Qed.

(** A run that another character ends is skipped. *)
Lemma digits_before_skip c run digits x rest :
  all_digits digits = true -> PyStr.is_digit x = false ->
  Ascii.eqb x c = false ->
  PyStr.digits_before c run (digits ++ String x rest)
  = PyStr.digits_before c "" rest.
Proof.
  intros Hd Hx Hxc. revert run.
  induction digits as [|a digits IH]; intro run;
    cbn [String.append PyStr.digits_before].
  - now rewrite Hx, Hxc.
  - cbn [all_digits] in Hd. apply andb_prop in Hd. destruct Hd as [Ha Hd].
    rewrite Ha. now apply IH.
Qed.

(** X24. [_parse_duration] raises exactly when the digits it reads
    before an [H] or before an [M] are more than [int] converts (4300 by
    default); so it returns for every text of at most 4300 characters.
    What it returns is never negative.  A duration written PT<h>H<m>M
    gives 60 h + m minutes, PT<h>H gives 60 h and PT<m>M gives m, for
    numbers of at most 4300 digits. *)
Theorem parse_duration_iso :
  (forall duration_str,
     ((exists e,
         AmadeusFlightService._parse_duration duration_str = Py.Raise e)
      <-> exists c group,
            (c = "H" \/ c = "M")%char
            /\ PyStr.digits_before c "" duration_str = Some group
            /\ (PyStr.max_str_digits < String.length group)%nat)
     /\ ((String.length duration_str <= PyStr.max_str_digits)%nat ->
         exists minutes,
           AmadeusFlightService._parse_duration duration_str
           = Py.Ok minutes)
     /\ (forall minutes,
           AmadeusFlightService._parse_duration duration_str
           = Py.Ok minutes ->
           0 <= minutes))
  /\ (forall h m,
        0 <= h -> 0 <= m ->
        (String.length (Py.str_int h) <= PyStr.max_str_digits)%nat ->
        (String.length (Py.str_int m) <= PyStr.max_str_digits)%nat ->
        AmadeusFlightService._parse_duration
          ("PT" ++ Py.str_int h ++ "H" ++ Py.str_int m ++ "M")
        = Py.Ok (h * 60 + m)
        /\ AmadeusFlightService._parse_duration
             ("PT" ++ Py.str_int h ++ "H")
           = Py.Ok (h * 60)
        /\ AmadeusFlightService._parse_duration
             ("PT" ++ Py.str_int m ++ "M")
           = Py.Ok m).
Proof.
  split.
  - intro s.
    assert (Hiff :
      (exists e, AmadeusFlightService._parse_duration s = Py.Raise e)
      <-> exists c group,
            (c = "H" \/ c = "M")%char
            /\ PyStr.digits_before c "" s = Some group
            /\ (PyStr.max_str_digits < String.length group)%nat).
    { unfold AmadeusFlightService._parse_duration.
      pose proof (captured_cases "H" s) as CH.
      pose proof (captured_cases "M" s) as CM.
      destruct (PyStr.digits_before "H" "" s) as [gh|] eqn:EH;
        destruct (PyStr.digits_before "M" "" s) as [gm|] eqn:EM;
        repeat match goal with
          | H : if (?a <=? ?b)%nat then _ else _ |- _ =>
              let E := fresh "E" in
              destruct (a <=? b)%nat eqn:E;
                [apply Nat.leb_le in E | apply Nat.leb_gt in E]
          | H : exists n, _ = Py.Ok n /\ _ |- _ =>
              let n := fresh "n" in
              let Hn := fresh "Hn" in
              destruct H as (n & -> & Hn)
          | H : exists e, _ = Py.Raise e |- _ =>
              let e := fresh "e" in destruct H as (e & ->)
          end;
        cbn [Py.bind];
        (split;
         [ intros [e He]; try discriminate He
         | intros (c & g & [-> | ->] & Hg & Hlen);
           rewrite ?EH, ?EM in Hg;
           try discriminate Hg; try (injection Hg as <-); try lia;
           try (now eexists) ]);
        try (exists "H"%char, gh; repeat split; auto; fail);
        try (exists "M"%char, gm; repeat split; auto; fail). }
    split; [exact Hiff|]. split.
    + intro Hlen.
      destruct (AmadeusFlightService._parse_duration s) as [n|e] eqn:E;
        [now eexists|].
      destruct (proj1 Hiff (ex_intro _ e eq_refl))
        as (c & g & _ & Hg & Hbig).
      apply digits_before_length in Hg. cbn [String.length] in Hg. lia.
    + unfold AmadeusFlightService._parse_duration.
      pose proof (captured_cases "H" s) as CH.
      pose proof (captured_cases "M" s) as CM.
      intros minutes.
      destruct (PyStr.digits_before "H" "" s) as [gh|];
        destruct (PyStr.digits_before "M" "" s) as [gm|];
        repeat match goal with
          | H : if (?a <=? ?b)%nat then _ else _ |- _ =>
              destruct (a <=? b)%nat
          | H : exists n, _ = Py.Ok n /\ _ |- _ =>
              let n := fresh "n" in
              let Hn := fresh "Hn" in
              destruct H as (n & -> & Hn)
          | H : exists e, _ = Py.Raise e |- _ =>
              let e := fresh "e" in destruct H as (e & ->)
          end;
        cbn [Py.bind]; intro H; try discriminate H;
        injection H as <-; lia.
  - intros h m Hh Hm Lh Lm.
    destruct (str_int_digits Hh Lh) as (Dh & Nh & Ih).
    destruct (str_int_digits Hm Lm) as (Dm & Nm & Im).
    unfold AmadeusFlightService._parse_duration.
    cbn [String.append PyStr.digits_before PyStr.is_digit PyStr.code
         N_of_ascii N_of_digits N.leb N.compare Pos.compare Pos.compare_cont
         N.add N.mul Pos.add Pos.mul Pos.succ andb Ascii.eqb Bool.eqb negb
         String.eqb].
    assert (Eh : forall rest,
              PyStr.digits_before "H" "" (Py.str_int h ++ String "H" rest)
              = Some (Py.str_int h)).
    { intro rest.
      exact (@digits_before_run "H" "" (Py.str_int h) rest Dh eq_refl Nh). }
    assert (Em : forall rest,
              PyStr.digits_before "M" "" (Py.str_int m ++ String "M" rest)
              = Some (Py.str_int m)).
    { intro rest.
      exact (@digits_before_run "M" "" (Py.str_int m) rest Dm eq_refl Nm). }
    assert (Sh : forall rest,
              PyStr.digits_before "M" "" (Py.str_int h ++ String "H" rest)
              = PyStr.digits_before "M" "" rest).
    { intro rest.
      exact (@digits_before_skip "M" "" (Py.str_int h) "H" rest Dh eq_refl
               eq_refl). }
    assert (Sm : forall rest,
              PyStr.digits_before "H" "" (Py.str_int m ++ String "M" rest)
              = PyStr.digits_before "H" "" rest).
    { intro rest.
      exact (@digits_before_skip "H" "" (Py.str_int m) "M" rest Dm eq_refl
               eq_refl). }
    repeat split.
    + rewrite Eh, Sh, Em, Ih, Im. reflexivity.
    + rewrite Eh, Sh, Ih. cbn [PyStr.digits_before Py.bind].
      now rewrite Z.add_0_r.
    + rewrite Sm, Em, Im. reflexivity.
Qed.

(** A duration of 4301 digits before the [H] is not converted. *)
Example parse_duration_too_long :
  exists e,
    AmadeusFlightService._parse_duration (Samples.ones 4301 ++ "H")
    = Py.Raise e.
Proof. eexists. vm_compute. reflexivity. Qed.

(** Days, seconds and anything else in the text are ignored. *)
Example parse_duration_samples :
  AmadeusFlightService._parse_duration "PT2H30M" = Py.Ok 150
  /\ AmadeusFlightService._parse_duration "P1DT2H" = Py.Ok 120
  /\ AmadeusFlightService._parse_duration "PT45M30S" = Py.Ok 45
  /\ AmadeusFlightService._parse_duration "" = Py.Ok 0.
Proof. repeat split. Qed.

(** *** Amenities *)

Lemma rstrip_idem (s : string) : PyStr.rstrip (PyStr.rstrip s) = PyStr.rstrip s.
Proof.
  induction s as [|c s IH]; cbn [PyStr.rstrip]; [reflexivity|].
  destruct (PyStr.rstrip s) as [|d r] eqn:E.
  - destruct (PyStr.is_space c) eqn:Ec; cbn [PyStr.rstrip];
      [reflexivity | now rewrite Ec].
  - cbn [PyStr.rstrip] in *. now rewrite IH.
Qed.

Lemma lstrip_idem (s : string) : PyStr.lstrip (PyStr.lstrip s) = PyStr.lstrip s.
Proof.
  induction s as [|c s IH]; cbn [PyStr.lstrip]; [reflexivity|].
  destruct (PyStr.is_space c) eqn:Ec; [exact IH|].
  cbn [PyStr.lstrip]. now rewrite Ec.
Qed.

(** Stripping on the left keeps a string stripped on the right. *)
Lemma rstrip_lstrip (s : string) :
  PyStr.rstrip s = s -> PyStr.rstrip (PyStr.lstrip s) = PyStr.lstrip s.
Proof.
  induction s as [|c s IH]; intro H; cbn [PyStr.lstrip]; [reflexivity|].
  destruct (PyStr.is_space c) eqn:Ec; [|exact H].
  apply IH. cbn [PyStr.rstrip] in H.
  destruct (PyStr.rstrip s) as [|d r] eqn:E.
  - rewrite Ec in H. discriminate.
  - now injection H.
Qed.

Lemma strip_idem (s : string) : PyStr.strip (PyStr.strip s) = PyStr.strip s.
Proof.
  unfold PyStr.strip.
  rewrite (rstrip_lstrip (rstrip_idem s)). apply lstrip_idem.
Qed.

Lemma contains_lstrip c s :
  PyStr.contains c s = false -> PyStr.contains c (PyStr.lstrip s) = false.
Proof.
  induction s as [|a s IH]; cbn [PyStr.lstrip PyStr.contains]; [auto|].
  intro H. apply orb_false_elim in H. destruct H as [Ha Hs].
  destruct (PyStr.is_space a); [auto|]. cbn [PyStr.contains].
  now rewrite Ha, Hs.
Qed.

Lemma contains_rstrip c s :
  PyStr.contains c s = false -> PyStr.contains c (PyStr.rstrip s) = false.
Proof.
  induction s as [|a s IH]; cbn [PyStr.rstrip PyStr.contains]; [auto|].
  intro H. apply orb_false_elim in H. destruct H as [Ha Hs].
  specialize (IH Hs). destruct (PyStr.rstrip s) as [|d r].
  - destruct (PyStr.is_space a); [reflexivity|]. cbn [PyStr.contains].
    now rewrite Ha.
  - cbn [PyStr.contains] in *. now rewrite Ha, IH.
Qed.

(** The pieces of a split do not hold the separator. *)
Lemma split_no_separator sep s piece :
  In piece (PyStr.split sep s) -> PyStr.contains sep piece = false.
Proof.
  revert piece. induction s as [|c s IH]; intro piece;
    cbn [PyStr.split].
  - intros [<-|[]]. reflexivity.
  - destruct (Ascii.eqb c sep) eqn:E.
    + intros [<-|H]; [reflexivity | now apply IH].
    + destruct (PyStr.split sep s) as [|p ps].
      * intros [<-|[]]. cbn [PyStr.contains]. now rewrite E.
      * intros [<-|H]; [|apply IH; now right].
        cbn [PyStr.contains]. rewrite E. apply IH. now left.
Qed.

(** X25. [_extract_amenities] returns at most ten amenities, looking at
    the first ten comma-separated fields only; each amenity is one of
    those fields without its surrounding whitespace, is not empty, has no
    whitespace at either end and holds no comma. *)
Theorem extract_amenities_trimmed (hotel_facilities : string) :
  let amenities := HotelSearchService._extract_amenities hotel_facilities in
  (List.length amenities <= 10)%nat
  /\ forall amenity,
       In amenity amenities ->
       amenity <> ""
       /\ PyStr.strip amenity = amenity
       /\ PyStr.contains "," amenity = false
       /\ exists facility,
            In facility (Py.take 10 (PyStr.split "," hotel_facilities))
            /\ amenity = PyStr.strip facility.
Proof.
  cbv zeta. unfold HotelSearchService._extract_amenities. split.
  - rewrite length_map.
    etransitivity; [apply LodgingSelectionFacts.count_if_le_length|].
    apply FlightOptimizerFacts.take_length.
  - intros amenity H. apply in_map_iff in H.
    destruct H as (facility & <- & H). apply filter_In in H.
    destruct H as [Hin Hne]. split; [|split; [|split]].
    + cbn [Py.truthy_str] in Hne. apply negb_true_iff in Hne.
      now apply String.eqb_neq in Hne.
    + apply strip_idem.
    + unfold PyStr.strip. apply contains_lstrip, contains_rstrip.
      apply (@split_no_separator "," hotel_facilities).
      now apply FlightOptimizerFacts.take_In in Hin.
    + now exists facility.
Qed.

Example extract_amenities_sample :
  HotelSearchService._extract_amenities " WiFi, Pool ,, Spa"
  = ["WiFi"; "Pool"; "Spa"].
Proof. reflexivity. Qed.

End ClientFacts.

(** ** Daily plans *)

Module DailyPlanFacts.
Import SynthesisAgent Statements.

(** The sample activity of a day: always one, the same every third day. *)
Lemma _generate_sample_activities_total day style intent :
  exists activity,
    _generate_sample_activities day style intent = Py.Ok [activity]
    /\ In activity (map snd (base_activities style intent)).
Proof.
  unfold _generate_sample_activities.
  assert (H : (day - 1) mod 3 + 1 = 1 \/ (day - 1) mod 3 + 1 = 2
              \/ (day - 1) mod 3 + 1 = 3).
  { pose proof (Z.mod_pos_bound (day - 1) 3). lia. }
  destruct H as [-> | [-> | ->]]; cbn; eexists; split; try reflexivity;
    auto.
Qed.

Lemma _generate_sample_activities_period day style intent :
  _generate_sample_activities (day + 3) style intent
  = _generate_sample_activities day style intent.
Proof.
  unfold _generate_sample_activities.
  replace (day + 3 - 1) with (day - 1 + 1 * 3) by lia.
  now rewrite Z.mod_add by lia.
Qed.

Lemma range_from_1 (n : Z) :
  Py.range 1 (n + 1) = map (fun i => 1 + Z.of_nat i) (seq 0 (Z.to_nat n)).
Proof. unfold Py.range. now replace (n + 1 - 1) with n by lia. Qed.

(** The date of day [day] of a trip that starts on [start]. *)
Lemma current_date_cases (start day : Z) :
  date_min <= start <= date_max -> 1 <= day ->
  if start + (day - 1) <=? date_max
  then (delta <- timedelta_days (day - 1) ;;
        current_date <- date_add start delta ;;
        Py.Ok (Some current_date))
       = Py.Ok (Some (start + (day - 1)))
  else exists e,
         (delta <- timedelta_days (day - 1) ;;
          current_date <- date_add start delta ;;
          Py.Ok (Some current_date))
         = Py.Raise e.
Proof.
  unfold date_min, date_max, timedelta_days, date_add. intros Hs Hd.
  destruct (start + (day - 1) <=? 3652059) eqn:E.
  - apply Z.leb_le in E.
    replace (Z.abs (day - 1) <=? 999999999) with true
      by (symmetry; apply Z.leb_le; lia).
    cbn [Py.bind]. unfold date_min, date_max.
    rewrite (proj2 (Z.leb_le _ _) E).
    replace (1 <=? start + (day - 1)) with true
      by (symmetry; apply Z.leb_le; lia).
    reflexivity.
  - destruct (Z.abs (day - 1) <=? 999999999); cbn [Py.bind];
      [|now eexists].
    unfold date_min, date_max. rewrite E, andb_false_r. now eexists.
Qed.

Lemma float_of_int_bounded (n : Z) :
  Z.abs n < 2 ^ 1000 -> Py.float_of_int n = Py.Ok (inject_Z n).
Proof.
  intro H. unfold Py.float_of_int.
  assert (B : 2 ^ 1000 <= 2 ^ 1024 - 2 ^ 970)
    by (apply Z.leb_le; vm_compute; reflexivity).
  replace (Z.abs n <? 2 ^ 1024 - 2 ^ 970) with true; [reflexivity|].
  symmetry. apply Z.ltb_lt. lia.
Qed.

(** With a departure date every day gets its plan, up to the first day
    that is past [date.max]; the loop ends there. *)
Lemma plan_days_prefix style hotels intent (start : date) days rest
    daily_plans :
  travelers_bounded intent ->
  date_min <= start <= date_max ->
  Forall (fun day => 1 <= day /\ start + (day - 1) <= date_max) days ->
  match rest with
  | [] => True
  | day :: _ => 1 <= day /\ date_max < start + (day - 1)
  end ->
  exists plans,
    plan_days style hotels intent (Some start) (days ++ rest) daily_plans
    = daily_plans ++ plans
    /\ Forall2 (plan_of_day style hotels intent start) days plans.
Proof.
  intros Ht Hs Hdays Hrest. revert daily_plans.
  apply float_of_int_bounded in Ht.
  induction Hdays as [|day days [Hd Hday] _ IH]; intro daily_plans;
    cbn [app].
  - exists []. rewrite app_nil_r. split; [|constructor].
    destruct rest as [|day rest]; cbn [plan_days]; [reflexivity|].
    destruct Hrest as [Hd Hday].
    pose proof (current_date_cases Hs Hd) as C.
    replace (start + (day - 1) <=? date_max) with false in C
      by (symmetry; apply Z.leb_gt; lia).
    destruct C as [e ->]. reflexivity.
  - cbn [plan_days].
    pose proof (current_date_cases Hs Hd) as C.
    rewrite (proj2 (Z.leb_le _ _) Hday) in C. rewrite C. cbn [Py.bind].
    destruct (_generate_sample_activities_total day style intent)
      as (activity & Ha & _).
    rewrite Ha. cbn [Py.bind]. rewrite Ht. cbn [Py.bind DayPlan.new].
    match goal with
    | |- context [plan_days _ _ _ _ _ (daily_plans ++ [?plan])] =>
        destruct (IH (daily_plans ++ [plan])) as (plans & -> & Hplans);
        exists (plan :: plans)
    end.
    rewrite <- app_assoc. split; [reflexivity|].
    constructor; [|exact Hplans].
    unfold plan_of_day.
    cbn [DayPlan.day_number DayPlan.date_ DayPlan.location
         DayPlan.accommodation DayPlan.activities DayPlan.estimated_cost].
    repeat split.
    exists activity. split; [exact Ha|]. split; [reflexivity|].
    unfold Py.sum_float. cbn [map fold_left]. ring.
Qed.

(** Without one the first [DayPlan] is rejected. *)
Lemma plan_days_none style hotels intent days daily_plans :
  plan_days style hotels intent None days daily_plans = daily_plans.
Proof.
  destruct days as [|day days]; cbn [plan_days]; [reflexivity|].
  cbn [Py.bind].
  destruct (_generate_sample_activities_total day style intent)
    as (activity & -> & _).
  cbn [Py.bind]. now destruct (Py.float_of_int _).
Qed.

(** The days of the loop, the first [k] of them apart. *)
Lemma days_split (k n : nat) :
  (k <= n)%nat ->
  map (fun i => 1 + Z.of_nat i) (seq 0 n)
  = map (fun i => 1 + Z.of_nat i) (seq 0 k)
    ++ map (fun i => 1 + Z.of_nat i) (seq k (n - k)).
Proof.
  intro H. rewrite <- map_app, <- seq_app. do 2 f_equal. lia.
Qed.

(** X26. [_generate_daily_plans] needs a parsed request (it raises
    AttributeError without one).  For a request without departure date it
    returns no plan at all, since a plan must have a date.  For a request
    that departs on [start] it returns one plan per day of the duration (7
    days when the duration is missing or 0, none when it is negative), in
    order, but none for a day after [date.max], 9999-12-31, where the
    date arithmetic overflows and ends the loop (the request has a
    number of adults and children that converts to a float, below
    2^1000): the plan of day [d],
    counted from 1, is dated [start + d - 1], stays in the first lodging
    given, holds the one sample activity of that day, and costs its price
    for every adult and child.  The sample activity is the same every
    third day. *)
Theorem daily_plans_shape (state : AgentState) (style : string)
    (hotels : list AccommodationOption) :
  (AgentState.parsed_intent state = None ->
   exists e, _generate_daily_plans state style hotels = Py.Raise e)
  /\ (forall intent,
        AgentState.parsed_intent state = Some intent ->
        TravelIntent.departure_date intent = None ->
        _generate_daily_plans state style hotels = Py.Ok [])
  /\ (forall intent start,
        AgentState.parsed_intent state = Some intent ->
        TravelIntent.departure_date intent = Some start ->
        date_min <= start <= date_max ->
        travelers_bounded intent ->
        let duration := Py.int_or (TravelIntent.duration_days intent) 7 in
        let days := Z.min duration (date_max - start + 1) in
        exists plans,
          _generate_daily_plans state style hotels = Py.Ok plans
          /\ List.length plans = Z.to_nat days
          /\ Forall2 (plan_of_day style hotels intent start)
               (map (fun i => 1 + Z.of_nat i) (seq 0 (Z.to_nat days)))
               plans)
  /\ (forall intent day,
        _generate_sample_activities (day + 3) style intent
        = _generate_sample_activities day style intent).
Proof.
  unfold _generate_daily_plans, intent_of. split; [|split; [|split]].
  - intros ->. now eexists.
  - intros intent -> Hd. cbn [Py.bind]. rewrite Hd.
    now rewrite plan_days_none.
  - intros intent start -> Hd Hs Ht. cbn [Py.bind]. rewrite Hd.
    cbv zeta.
    set (duration := Py.int_or (TravelIntent.duration_days intent) 7).
    set (days := Z.min duration (date_max - start + 1)).
    rewrite range_from_1.
    rewrite (@days_split (Z.to_nat days) (Z.to_nat duration))
      by (unfold days; lia).
    destruct (@plan_days_prefix style hotels intent start
                (map (fun i => 1 + Z.of_nat i) (seq 0 (Z.to_nat days)))
                (map (fun i => 1 + Z.of_nat i)
                   (seq (Z.to_nat days)
                      (Z.to_nat duration - Z.to_nat days)))
                [] Ht Hs) as (plans & H & F).
    + apply Forall_forall. intros day Hin. apply in_map_iff in Hin.
      destruct Hin as (i & <- & Hi). apply in_seq in Hi.
      unfold days in Hi. unfold date_min in Hs. lia.
    + destruct (Z.to_nat duration - Z.to_nat days)%nat as [|n] eqn:En;
        [exact I|].
      cbn [seq map]. unfold days in *. unfold date_min in Hs. lia.
    + exists plans. split; [f_equal; exact H|]. split; [|exact F].
      apply Forall2_length in F. rewrite length_map, length_seq in F.
      now symmetry.
  - intros intent day. apply _generate_sample_activities_period.
Qed.

(** Ten days from 9999-12-30: two plans, for the two days the calendar
    has left. *)
Example daily_plans_last_days :
  exists plan1 plan2,
    _generate_daily_plans Samples.state_last_days "budget"
      [Samples.hotel_80]
    = Py.Ok [plan1; plan2]
    /\ DayPlan.date_ plan2 = date_max.
Proof. do 2 eexists. split; [vm_compute; reflexivity | reflexivity]. Qed.

End DailyPlanFacts.

(** ** The city tables *)

Module CityCodeFacts.
Import Statements.

Lemma map_chars_length (f : ascii -> ascii) (s : string) :
  String.length (PyStr.map_chars f s) = String.length s.
Proof. induction s as [|c s IH]; cbn; [reflexivity | now rewrite IH]. Qed.

Lemma take_length_le (n : nat) (s : string) :
  (String.length (PyStr.take n s) <= n)%nat.
Proof.
  revert s. induction n as [|n IH]; intros [|c s]; cbn; try lia.
  specialize (IH s). lia.
Qed.

Lemma letter_not_comma (c : ascii) :
  PyStr.is_lower c || PyStr.is_upper c = true -> Ascii.eqb c "," = false.
Proof.
  destruct c as [[|] [|] [|] [|] [|] [|] [|] [|]]; intro H;
    try discriminate H; reflexivity.
Qed.

Lemma all_alpha_no_comma (s : string) :
  PyStr.all_alpha s = true -> PyStr.contains "," s = false.
Proof.
  induction s as [|c s IH]; cbn [PyStr.all_alpha PyStr.contains];
    [reflexivity|].
  intro H. apply andb_prop in H. destruct H as [Hc Hs].
  now rewrite (letter_not_comma Hc), IH.
Qed.

Lemma codes_have_three_letters :
  Forall (fun kv => String.length (snd kv) = 3%nat)
    AmadeusFlightService.common_codes.
Proof. repeat constructor. Qed.

Lemma city_codes_have_three_letters :
  Forall (fun kv => String.length (snd kv) = 3%nat)
    HotelSearchService.city_codes.
Proof. repeat constructor. Qed.

Lemma table_cities_have_city_code :
  Forall
    (fun kv => HotelSearchService._get_city_iata_code (fst kv) = snd kv)
    HotelSearchService.city_codes.
Proof. repeat (constructor; [reflexivity|]). constructor. Qed.

Lemma table_cities_resolve :
  Forall
    (fun kv =>
       AmadeusFlightService._get_iata_code (fst kv) = snd kv
       /\ AmadeusFlightService._get_iata_code (snd kv) = snd kv)
    AmadeusFlightService.common_codes.
Proof. repeat (constructor; [split; reflexivity|]). constructor. Qed.

(** X27. For a location written in ASCII, the code [_get_iata_code]
    returns has at most three characters, and so has the city code of the
    hotel client.  A location of three ASCII letters is taken as an
    airport code and returned in upper case.  Every city of either table
    resolves to its code, and every airport code of the table to
    itself. *)
Theorem iata_code_shape :
  (forall location,
     PyStr.isascii location = true ->
     (String.length (AmadeusFlightService._get_iata_code location) <= 3)%nat
     /\ (String.length (HotelSearchService._get_city_iata_code location)
         <= 3)%nat)
  /\ (forall location,
        String.length location = 3%nat ->
        PyStr.isalpha location = true ->
        AmadeusFlightService._get_iata_code location = PyStr.upper location)
  /\ (forall city code,
        In (city, code) AmadeusFlightService.common_codes ->
        AmadeusFlightService._get_iata_code city = code
        /\ AmadeusFlightService._get_iata_code code = code)
  /\ (forall city code,
        In (city, code) HotelSearchService.city_codes ->
        HotelSearchService._get_city_iata_code city = code).
Proof.
  split; [|split; [|split]].
  - intros location _. split.
    + unfold AmadeusFlightService._get_iata_code.
      set (loc := PyStr.strip_country location).
      destruct ((String.length loc =? 3)%nat && PyStr.isalpha loc) eqn:E.
      * apply andb_prop in E. destruct E as [E _].
        apply Nat.eqb_eq in E. unfold PyStr.upper.
        rewrite map_chars_length. lia.
      * destruct (Py.dict_get _ _) as [code|] eqn:Eg.
        -- apply ClientFacts.dict_get_In in Eg.
           pose proof codes_have_three_letters as F.
           rewrite Forall_forall in F. specialize (F _ Eg). cbn in F. lia.
        -- apply take_length_le.
    + unfold HotelSearchService._get_city_iata_code.
      destruct (Py.dict_get _ _) as [code|] eqn:Eg.
      * apply ClientFacts.dict_get_In in Eg.
        pose proof city_codes_have_three_letters as F.
        rewrite Forall_forall in F. specialize (F _ Eg). cbn in F. lia.
      * unfold PyStr.upper. rewrite map_chars_length.
        apply take_length_le.
  - intros location Hlen Halpha.
    unfold AmadeusFlightService._get_iata_code, PyStr.strip_country.
    assert (Hc : PyStr.contains "," location = false).
    { apply all_alpha_no_comma. unfold PyStr.isalpha in Halpha.
      now apply andb_prop in Halpha. }
    rewrite Hc, Hlen, Halpha. reflexivity.
  - intros city code Hin. pose proof table_cities_resolve as F.
    rewrite Forall_forall in F. exact (F _ Hin).
  - intros city code Hin. pose proof table_cities_have_city_code as F.
    rewrite Forall_forall in F. exact (F _ Hin).
Qed.

(** What the SerpAPI table resolves, the Amadeus table resolves alike. *)
Lemma serpapi_codes_in_amadeus (key code : string) :
  Py.dict_get SerpAPIFlightService.common_codes key = Some code ->
  Py.dict_get AmadeusFlightService.common_codes key = Some code.
Proof.
  unfold SerpAPIFlightService.common_codes. cbn [Py.dict_get].
  repeat match goal with
         | |- context [String.eqb key ?lit] =>
             let E := fresh "E" in
             destruct (String.eqb key lit) eqn:E;
               [apply String.eqb_eq in E; subst key; intro H;
                injection H as <-; reflexivity|]
         end.
  discriminate.
Qed.

(** X28. The two flight clients resolve a location to the same airport
    code whenever the city is in the SerpAPI table, and whenever it is not
    in the Amadeus table; they can differ only for a city that the Amadeus
    table alone lists, for which SerpAPI falls back to the first three
    letters. *)
Theorem flight_clients_agree :
  (forall location,
     Py.dict_get SerpAPIFlightService.common_codes (city_key location)
     <> None ->
     SerpAPIFlightService._get_airport_code location
     = AmadeusFlightService._get_iata_code location)
  /\ (forall location,
        Py.dict_get AmadeusFlightService.common_codes (city_key location)
        = None ->
        SerpAPIFlightService._get_airport_code location
        = AmadeusFlightService._get_iata_code location)
  /\ (forall location,
        SerpAPIFlightService._get_airport_code location
        = AmadeusFlightService._get_iata_code location
        \/ SerpAPIFlightService._get_airport_code location
           = PyStr.take 3 (PyStr.upper (PyStr.strip_country location))).
Proof.
  unfold SerpAPIFlightService._get_airport_code,
    AmadeusFlightService._get_iata_code, city_key.
  split; [|split]; intro location;
    destruct ((String.length (PyStr.strip_country location) =? 3)%nat
              && PyStr.isalpha (PyStr.strip_country location));
    try (intros; reflexivity); try (now left).
  - intro H.
    destruct (Py.dict_get SerpAPIFlightService.common_codes _) as [code|]
      eqn:E; [|congruence].
    now rewrite (serpapi_codes_in_amadeus E).
  - intro H. rewrite H.
    destruct (Py.dict_get SerpAPIFlightService.common_codes _) as [code|]
      eqn:E; [|reflexivity].
    apply serpapi_codes_in_amadeus in E. congruence.
  - destruct (Py.dict_get SerpAPIFlightService.common_codes _) as [code|]
      eqn:E; [left | now right].
    now rewrite (serpapi_codes_in_amadeus E).
Qed.

(** An ASCII location that neither table has: both codes are its first
    three letters. *)
Example tartu_codes :
  PyStr.isascii "Tartu, Estonia" = true
  /\ AmadeusFlightService._get_iata_code "Tartu, Estonia" = "TAR"
  /\ HotelSearchService._get_city_iata_code "Tartu, Estonia" = "TAR".
Proof. repeat split. Qed.

(** Prague is known to the Amadeus client only. *)
Example prague_codes :
  SerpAPIFlightService._get_airport_code "Prague, Czech Republic" = "PRA"
  /\ AmadeusFlightService._get_iata_code "Prague, Czech Republic" = "PRG".
Proof. split; reflexivity. Qed.

End CityCodeFacts.

(** ** How many requests a flight search sends *)

Module RequestFacts.
Import Statements.

Lemma alternatives_at_most_four city primary_code :
  (List.length
     (AmadeusFlightService._get_alternative_airports city primary_code)
   <= 4)%nat.
Proof.
  unfold AmadeusFlightService._get_alternative_airports.
  destruct (Py.dict_get _ _) as [codes|] eqn:E; [|cbn; lia].
  apply ClientFacts.dict_get_In in E.
  assert (F : Forall (fun kv => (List.length (snd kv) <= 4)%nat)
                AmadeusFlightService.alternatives)
    by (repeat (constructor; [cbn; lia|]); constructor).
  rewrite Forall_forall in F. exact (F _ E).
Qed.

Lemma amadeus_routes_length origin_code dest_code origin_alternatives
    dest_alternatives :
  List.length
    (amadeus_routes origin_code dest_code origin_alternatives
       dest_alternatives)
  = (1 + List.length dest_alternatives + List.length origin_alternatives
     + List.length (firstn 2 origin_alternatives)
       * List.length (firstn 2 dest_alternatives))%nat.
Proof.
  unfold amadeus_routes. cbn [List.length].
  rewrite !length_app, !length_map, length_prod. lia.
Qed.

Lemma route_calls_length routes outcomes :
  (List.length (route_calls routes outcomes) <= List.length routes)%nat.
Proof.
  unfold route_calls. rewrite length_map, length_combine. lia.
Qed.

(** With the table of the repository the Amadeus client tries at most 13
    routes. *)
Lemma amadeus_requests_bounded env intent max_results tr :
  (forall city primary_code,
     _get_alternative_airports env city primary_code
     = AmadeusFlightService._get_alternative_airports city primary_code) ->
  exists flights calls,
    AmadeusFlightService.search_flights env intent max_results tr
    = (Py.Ok flights, tr ++ calls)
    /\ (List.length calls <= 13)%nat.
Proof.
  intro Htable. destruct (searchable intent) eqn:Es.
  - rewrite FlightSearchFacts.search_flights_chain by exact Es.
    rewrite !Htable.
    set (oa := AmadeusFlightService._get_alternative_airports
                 (Py.str_opt_str (TravelIntent.origin intent)) _).
    set (da := AmadeusFlightService._get_alternative_airports
                 (Py.str_opt_str (TravelIntent.destination intent)) _).
    set (routes := amadeus_routes _ _ oa da).
    destruct (FlightSearchFacts.chain_trace env intent max_results routes tr)
      as (flights & outcomes & H & _).
    exists flights, (route_calls routes outcomes). split; [exact H|].
    pose proof (route_calls_length routes outcomes) as Hlen.
    unfold routes in Hlen at 2. rewrite amadeus_routes_length in Hlen.
    pose proof (firstn_le_length 2 oa).
    pose proof (firstn_le_length 2 da).
    assert (List.length oa <= 4)%nat by apply alternatives_at_most_four.
    assert (List.length da <= 4)%nat by apply alternatives_at_most_four.
    nia.
  - exists [], []. rewrite app_nil_r.
    split; [now apply FlightSearchFacts.search_flights_unsearchable|].
    cbn. lia.
Qed.

(** X29. With the table of alternative airports of the repository, one
    search of the Amadeus client sends at most 13 requests (the primary
    route, at most 4 alternative destinations, at most 4 alternative
    origins and at most 4 pairs), and one flight search of the
    orchestrator at most 14, the one to SerpAPI included. *)
Theorem flight_requests_bounded (env : Env) (use_mock_hotels : bool)
    (intent : TravelIntent) (max_results : nat) (tr : list Event) :
  (forall city primary_code,
     _get_alternative_airports env city primary_code
     = AmadeusFlightService._get_alternative_airports city primary_code) ->
  (exists flights calls,
     AmadeusFlightService.search_flights env intent max_results tr
     = (Py.Ok flights, tr ++ calls)
     /\ (List.length calls <= 13)%nat)
  /\ (exists flights calls,
        SearchOrchestratorAgent._search_flights_async
          (SearchOrchestratorAgent.new env use_mock_hotels) intent tr
        = (Py.Ok flights, tr ++ calls)
        /\ (List.length calls <= 14)%nat).
Proof.
  intro Htable. split; [now apply amadeus_requests_bounded|].
  rewrite FlightSearchFacts._search_flights_async_order.
  cbn [SearchOrchestratorAgent.new SearchOrchestratorAgent.serpapi_service
       SearchOrchestratorAgent.amadeus_service
       SerpAPIFlightService.new AmadeusFlightService.new
       FlightService.search_flights].
  destruct (ProviderFacts.serpapi_run env intent 15 tr)
    as (f1 & c1 & H1 & _ & L1 & _).
  destruct (amadeus_requests_bounded intent 15 (tr ++ c1) Htable)
    as (f2 & c2 & H2 & L2).
  rewrite H1. destruct f1 as [|f fs].
  - rewrite H2. exists f2, (c1 ++ c2). rewrite app_assoc.
    split; [reflexivity|]. rewrite length_app. lia.
  - exists (f :: fs), c1. split; [reflexivity | lia].
Qed.

Lemma flight_requests_bounded_witness :
  (forall city primary_code,
     _get_alternative_airports Samples.with_city_tables city primary_code
     = AmadeusFlightService._get_alternative_airports city primary_code)
  /\ exists flights calls,
       SearchOrchestratorAgent._search_flights_async
         (SearchOrchestratorAgent.new Samples.with_city_tables false)
         (Samples.intent (Some 10)) []
       = (Py.Ok flights, [] ++ calls)
       /\ (List.length calls <= 14)%nat.
Proof.
  assert (H : forall city primary_code,
             _get_alternative_airports Samples.with_city_tables city
               primary_code
             = AmadeusFlightService._get_alternative_airports city
                 primary_code) by reflexivity.
  split; [exact H|].
  exact (proj2 (@flight_requests_bounded Samples.with_city_tables false
                  (Samples.intent (Some 10)) 15 [] H)).
Defined.

(** Copenhagen to Rome: SerpAPI, the primary route and the two airports
    of Rome. *)
Example rome_requests :
  snd (SearchOrchestratorAgent._search_flights_async
         (SearchOrchestratorAgent.new Samples.with_city_tables false)
         (Samples.intent (Some 10)) [])
  = [Call (SerpAPI "CPH" "ROM") Raised;
     Call (AmadeusFlights "CPH" "ROM") Raised;
     Call (AmadeusFlights "CPH" "FCO") Raised;
     Call (AmadeusFlights "CPH" "CIA") Raised].
Proof. reflexivity. Qed.

End RequestFacts.

(** ** The order of the ranked flights *)

Module RankingFacts.
Import SearchOrchestratorAgent Statements.

Lemma StronglySorted_app_inv {A} (R : A -> A -> Prop) (l1 l2 : list A) :
  StronglySorted R (l1 ++ l2) ->
  StronglySorted R l1
  /\ forall a b, In a l1 -> In b l2 -> R a b.
Proof.
  induction l1 as [|x l1 IH]; cbn [app]; intro H.
  - split; [constructor | intros a b []].
  - inversion H as [|? ? Hs Hall]; subst. destruct (IH Hs) as [IH1 IH2].
    rewrite Forall_forall in Hall. split.
    + constructor; [exact IH1|]. apply Forall_forall. intros y Hy.
      apply Hall. apply in_or_app. now left.
    + intros a b [<-|Ha] Hb; [|now apply IH2].
      apply Hall. apply in_or_app. now right.
Qed.

Lemma StronglySorted_map {A B} (f : A -> B) (R : B -> B -> Prop)
    (l : list A) :
  StronglySorted (fun a b => R (f a) (f b)) l -> StronglySorted R (map f l).
Proof.
  induction 1 as [|x l Hs IH Hall]; cbn [map]; constructor; [exact IH|].
  rewrite Forall_forall in *. intros y Hy. apply in_map_iff in Hy.
  destruct Hy as (z & <- & Hz). now apply Hall.
Qed.

(** X30. The flights the optimizer returns come in descending order of
    score, and they are the best of the admissible flights: a flight that
    is left out scores no more than any flight that is returned. *)
Theorem optimized_flights_best_first (flights : list FlightOption)
    (budget : option Q) (r : list FlightOption) :
  _optimize_flights flights budget = Py.Ok r ->
  let pool := admissible_flights flights budget in
  exists scores dropped,
    Forall2 (fun f s => score_flight pool f = Py.Ok s) r scores
    /\ StronglySorted (fun a b => (b <= a)%Q) scores
    /\ Permutation (r ++ dropped) pool
    /\ forall f s kept,
         In f dropped -> score_flight pool f = Py.Ok s -> In kept scores ->
         (s <= kept)%Q.
Proof.
  intro H. cbv zeta.
  rewrite OptimizerFacts._optimize_flights_admissible in H.
  destruct (admissible_flights flights budget) as [|f0 fs] eqn:Epool.
  { injection H as <-. exists [], []. repeat split; try constructor.
    intros f s kept []. }
  destruct (FlightScoreFacts.rank_flights_descending H)
    as (scored & -> & Hperm & Hsorted & Hscores).
  rewrite <- (firstn_skipn 10 scored) in Hsorted.
  apply StronglySorted_app_inv in Hsorted. destruct Hsorted as [Hs1 Hs2].
  assert (Hin : forall p, In p scored ->
                  score_flight (f0 :: fs) (fst p) = Py.Ok (snd p)).
  { now apply Forall_forall. }
  exists (map snd (Py.take 10 scored)), (map fst (skipn 10 scored)).
  split; [|split; [|split]].
  - unfold Py.take.
    assert (G : forall l,
              (forall p, In p l -> In p scored) ->
              Forall2 (fun f s => score_flight (f0 :: fs) f = Py.Ok s)
                (map fst l) (map snd l)).
    { induction l as [|p l IH]; intro Hl; cbn [map]; constructor.
      - apply Hin, Hl. now left.
      - apply IH. intros q Hq. apply Hl. now right. }
    apply G. intros p Hp. rewrite <- (firstn_skipn 10 scored).
    apply in_or_app. now left.
  - now apply StronglySorted_map.
  - unfold Py.take. rewrite <- map_app, firstn_skipn. exact Hperm.
  - intros f s kept Hf Hs Hk.
    apply in_map_iff in Hf. destruct Hf as (p & <- & Hp).
    apply in_map_iff in Hk. destruct Hk as (q & <- & Hq).
    specialize (Hs2 q p Hq Hp). cbn beta in Hs2.
    assert (E : score_flight (f0 :: fs) (fst p) = Py.Ok (snd p)).
    { apply Hin. rewrite <- (firstn_skipn 10 scored). apply in_or_app.
      now right. }
    rewrite E in Hs. injection Hs as <-. exact Hs2.
Qed.

Lemma optimized_flights_best_first_witness :
  exists r scores,
    _optimize_flights [Samples.flight_900; Samples.flight_500] None
    = Py.Ok r
    /\ r = [Samples.flight_500; Samples.flight_900]
    /\ Forall2
         (fun f s =>
            score_flight [Samples.flight_900; Samples.flight_500] f
            = Py.Ok s)
         r scores
    /\ StronglySorted (fun a b => (b <= a)%Q) scores.
Proof.
  destruct (@optimized_flights_best_first
              [Samples.flight_900; Samples.flight_500] None
              [Samples.flight_500; Samples.flight_900] eq_refl)
    as (scores & dropped & H1 & H2 & _).
  exists [Samples.flight_500; Samples.flight_900], scores.
  split; [reflexivity|]. split; [reflexivity|]. split; [exact H1 | exact H2].
Defined.

End RankingFacts.
